(** * Release progress tracker

    A shallow embedding of the release progress tracker
    (scripts/state_deriver.py, scripts/milestone_deriver.py,
    scripts/warnings.py, the serialisation methods of scripts/models.py,
    the collector of scripts/collect_progress.py and the pagination of
    scripts/github_api.py), followed by the properties the specification
    states about it and further properties of the code.

    Conventions of the embedding:
    - a Python [Optional[str]] is an [option string]; a key that is missing
      from a dictionary read with [.get(k)] and a key holding [None] both
      read as [None];
    - a key read with a default, [.get(k, default)], is a [yaml_field],
      which tells a missing key from a null one;
    - Python truthiness is written out ([Py.truthy], [Py.nonempty]): the
      source guards with [if not x] and [if x], which treat [None] and the
      empty string alike;
    - a function that can raise returns an [outcome];
    - a dictionary the source builds key by key (the [to_dict] methods) is
      an association list in insertion order; a dictionary the source only
      reads by key (the per-API version maps, the summaries) is a [gmap]. *)

From Stdlib Require Import String Ascii List Bool Arith ZArith Lia.
From Stdlib Require Import Permutation Sorted.
From stdpp Require Import base option list strings gmap.

Open Scope string_scope.

(* ================================================================== *)
(** * Python primitives used by the scripts *)
(* ================================================================== *)

Module Py.

(** [bool(s)] for a [str]. *)
Definition nonempty (s : string) : bool :=
  match s with
  | EmptyString => false
  | String _ _ => true
  end.

(** [bool(o)] for an [Optional[str]]. *)
Definition truthy (o : option string) : bool :=
  match o with
  | Some s => nonempty s
  | None => false
  end.

(** [o is not None] for an [Optional[str]]. *)
Definition is_str (o : option string) : bool :=
  match o with
  | Some _ => true
  | None => false
  end.

(** [o or ""] for an [Optional[str]]. *)
Definition or_empty (o : option string) : string :=
  match o with
  | Some s => s
  | None => EmptyString
  end.

(** [s.startswith(p)]. *)
Definition startswith (s p : string) : bool := String.prefix p s.

(** [t in s] for two strings: [t] occurs in [s] at some offset. *)
Fixpoint contains (s t : string) : bool :=
  String.prefix t s ||
  match s with
  | EmptyString => false
  | String _ s' => contains s' t
  end.

(** [s.split(sep)[0]] for a one-character separator: the part of [s]
    before the first occurrence of [sep], all of [s] when there is none. *)
Fixpoint split_head (sep : ascii) (s : string) : string :=
  match s with
  | EmptyString => EmptyString
  | String c s' =>
      if Ascii.eqb c sep then EmptyString else String c (split_head sep s')
  end.

(** [a == b] on two [Optional[str]]. *)
Definition eqb (a b : option string) : bool := bool_decide (a = b).

End Py.

(* ================================================================== *)
(** * scripts/models.py *)
(* ================================================================== *)

#[local] Set Warnings "-register-all".

(** Values a [to_dict] method can produce; a dictionary keeps its keys in
    insertion order, as a Python [dict] does. *)
Inductive value : Type :=
| VNone
| VStr (s : string)
| VInt (n : Z)
| VList (l : list value)
| VDict (d : list (string * value)).

Abbreviation dict := (list (string * value)).

Module Dict.

(** [d[k] = v]: replaces the value of an existing key in place, appends a
    new key at the end. *)
Fixpoint set (d : dict) (k : string) (v : value) : dict :=
  match d with
  | [] => [(k, v)]
  | (k', v') :: d' =>
      if String.eqb k' k then (k', v) :: d' else (k', v') :: set d' k v
  end.

(** [d.get(k)], with [None] for a missing key. *)
Fixpoint get (d : dict) (k : string) : option value :=
  match d with
  | [] => None
  | (k', v) :: d' => if String.eqb k' k then Some v else get d' k
  end.

(** [k in d]. *)
Definition has (d : dict) (k : string) : bool :=
  match get d k with Some _ => true | None => false end.

Definition keys (d : dict) : list string := map fst d.

(** [bool(d)] for an [Optional[Dict]]. *)
Definition truthy (o : option dict) : bool :=
  match o with
  | Some (_ :: _) => true
  | _ => false
  end.

Definition of_opt_str (o : option string) : value :=
  match o with Some s => VStr s | None => VNone end.

Definition of_opt_dict (o : option dict) : value :=
  match o with Some d => VDict d | None => VNone end.

End Dict.

Module ProgressState.
Inductive t : Type :=
| NOT_PLANNED
| PLANNED
| SNAPSHOT_ACTIVE
| DRAFT_READY
| PUBLISHED.

#[global] Instance eq_dec : EqDecision t.
Proof. solve_decision. Defined.

(** [state.value]. *)
Definition value (s : t) : string :=
  match s with
  | NOT_PLANNED => "not_planned"
  | PLANNED => "planned"
  | SNAPSHOT_ACTIVE => "snapshot_active"
  | DRAFT_READY => "draft_ready"
  | PUBLISHED => "published"
  end.
End ProgressState.

Module ProgressWarning.
Record t : Type := mk {
  code : string;
  message : string;
  severity : string
}.

Definition to_dict (w : t) : dict :=
  [("code", VStr (code w)); ("message", VStr (message w));
   ("severity", VStr (severity w))].
End ProgressWarning.

Module ApiEntry.
Record t : Type := mk {
  api_name : string;
  target_api_version : string;
  target_api_status : string;
  main_contacts : list string
}.

Definition to_dict (a : t) : dict :=
  let d := [("api_name", VStr (api_name a));
            ("target_api_version", VStr (target_api_version a));
            ("target_api_status", VStr (target_api_status a))] in
  match main_contacts a with
  | [] => d
  | _ :: _ => Dict.set d "main_contacts" (VList (map VStr (main_contacts a)))
  end.
End ApiEntry.

Module ArtifactInfo.
Record t : Type := mk {
  snapshot_branch : option string;
  release_pr : option dict;
  draft_release : option dict;
  release_issue : option dict
}.

(** [ArtifactInfo()]: every field defaults to [None]. *)
Definition default : t := mk None None None None.

Definition to_dict (a : t) : dict :=
  [("snapshot_branch", Dict.of_opt_str (snapshot_branch a));
   ("release_pr", Dict.of_opt_dict (release_pr a));
   ("draft_release", Dict.of_opt_dict (draft_release a));
   ("release_issue", Dict.of_opt_dict (release_issue a))].
End ArtifactInfo.

Module CycleReleaseApi.
Record t : Type := mk {
  api_name : string;
  api_version : option string
}.

Definition to_dict (a : t) : dict :=
  [("api_name", VStr (api_name a));
   ("api_version", Dict.of_opt_str (api_version a))].
End CycleReleaseApi.

Module MilestoneRelease.
Record t : Type := mk {
  release_tag : option string;
  release_date : option string;
  apis : list CycleReleaseApi.t
}.

Definition to_dict (m : t) : dict :=
  [("release_tag", Dict.of_opt_str (release_tag m));
   ("release_date", Dict.of_opt_str (release_date m));
   ("apis", VList (map (fun a => VDict (CycleReleaseApi.to_dict a)) (apis m)))].
End MilestoneRelease.

Module CycleReleases.
Record t : Type := mk {
  m1 : option MilestoneRelease.t;
  m3 : option MilestoneRelease.t;
  m4 : option MilestoneRelease.t
}.

(** [CycleReleases()]: the three milestones default to [None]. *)
Definition default : t := mk None None None.

(** A dataclass instance without [__bool__] or [__len__] is truthy, so
    [if self.m1] only tests for [None]. *)
Definition set_milestone (d : dict) (k : string)
    (m : option MilestoneRelease.t) : dict :=
  match m with
  | Some m => Dict.set d k (VDict (MilestoneRelease.to_dict m))
  | None => d
  end.

Definition to_dict (c : t) : dict :=
  match m1 c, m3 c, m4 c with
  | None, None, None => []
  | _, _, _ =>
      let d := [] in
      let d := set_milestone d "m1" (m1 c) in
      let d := set_milestone d "m3" (m3 c) in
      let d := set_milestone d "m4" (m4 c) in
      d
  end.
End CycleReleases.

Module PublishedContext.
Record t : Type := mk {
  latest_public_release : option string;
  newest_pre_release : option string
}.

Definition to_dict (p : t) : dict :=
  [("latest_public_release", Dict.of_opt_str (latest_public_release p));
   ("newest_pre_release", Dict.of_opt_str (newest_pre_release p))].
End PublishedContext.

Module ProgressEntry.
Record t : Type := mk {
  repository : string;
  github_url : string;
  release_track : option string;
  meta_release : option string;
  target_release_tag : option string;
  target_release_type : option string;
  dependencies : option dict;
  apis : list ApiEntry.t;
  state : ProgressState.t;
  artifacts : ArtifactInfo.t;
  published_context : PublishedContext.t;
  cycle_releases : CycleReleases.t;
  warnings : list ProgressWarning.t
}.

Definition to_dict (e : t) : dict :=
  let d := [("repository", VStr (repository e));
            ("github_url", VStr (github_url e))] in
  let d := if Py.truthy (release_track e)
           then Dict.set d "release_track" (Dict.of_opt_str (release_track e))
           else d in
  let d := if Py.truthy (meta_release e)
           then Dict.set d "meta_release" (Dict.of_opt_str (meta_release e))
           else d in
  let d := Dict.set d "target_release_tag"
             (Dict.of_opt_str (target_release_tag e)) in
  let d := Dict.set d "target_release_type"
             (Dict.of_opt_str (target_release_type e)) in
  let d := if Dict.truthy (dependencies e)
           then Dict.set d "dependencies" (Dict.of_opt_dict (dependencies e))
           else d in
  let d := Dict.set d "apis"
             (VList (map (fun a => VDict (ApiEntry.to_dict a)) (apis e))) in
  let d := Dict.set d "state" (VStr (ProgressState.value (state e))) in
  let d := Dict.set d "artifacts"
             (VDict (ArtifactInfo.to_dict (artifacts e))) in
  let d := Dict.set d "published_context"
             (VDict (PublishedContext.to_dict (published_context e))) in
  let d := Dict.set d "cycle_releases"
             (VDict (CycleReleases.to_dict (cycle_releases e))) in
  let d := match warnings e with
           | [] => d
           | _ :: _ =>
               Dict.set d "warnings"
                 (VList (map (fun w => VDict (ProgressWarning.to_dict w))
                           (warnings e)))
           end in
  d.
End ProgressEntry.

(* ================================================================== *)
(** * scripts/state_deriver.py *)
(* ================================================================== *)

(** A draft release as the hosting platform lists it. *)
Module DraftRelease.
Record t : Type := mk {
  name : option string;
  tag_name : option string;
  html_url : option string
}.
End DraftRelease.

Module StateDeriver.
Import ProgressState.

(** The f-string [release-snapshot/{target_tag}-]. *)
Definition snapshot_prefix (target_tag : string) : string :=
  "release-snapshot/" +:+ target_tag +:+ "-".

Definition find_matching_snapshot
    (branches : list string) (target_tag : option string) : option string :=
  match target_tag with
  | None => None
  | Some tag =>
      if negb (Py.nonempty tag) then None
      else
        let prefix := snapshot_prefix tag in
        List.find (fun branch => Py.startswith branch prefix) branches
  end.

Definition _has_matching_draft
    (draft_releases : list DraftRelease.t) (target_tag : option string) : bool :=
  match target_tag, draft_releases with
  | None, _ => false
  | Some _, [] => false
  | Some tag, _ :: _ =>
      if negb (Py.nonempty tag) then false
      else
        existsb
          (fun release =>
             let name := Py.or_empty (DraftRelease.name release) in
             let tag_name := Py.or_empty (DraftRelease.tag_name release) in
             Py.contains name tag || Py.contains tag_name tag)
          draft_releases
  end.

Definition derive_state
    (target_release_type target_release_tag : option string)
    (tag_exists : bool)
    (snapshot_branches : list string)
    (draft_releases : list DraftRelease.t) : ProgressState.t :=
  if negb (Py.truthy target_release_type)
     || Py.eqb target_release_type (Some "none")
  then NOT_PLANNED
  else if tag_exists then PUBLISHED
  else
    let snapshot := find_matching_snapshot snapshot_branches target_release_tag in
    if Py.truthy snapshot then
      if _has_matching_draft draft_releases target_release_tag
      then DRAFT_READY
      else SNAPSHOT_ACTIVE
    else PLANNED.

End StateDeriver.

(* ================================================================== *)
(** * Exceptions, and keys read with a default *)
(* ================================================================== *)

(** What a call can do: return, raise [RateLimitError], or raise anything
    else (a [TypeError], an HTTP error, a network error). *)
Inductive outcome (A : Type) : Type :=
| Ok (a : A)
| RateLimitError
| Failure.

Arguments Ok {A} a.
Arguments RateLimitError {A}.
Arguments Failure {A}.

(** Sequencing of calls: the first exception raised is the one that
    propagates. *)
#[global] Instance outcome_bind : MBind outcome := fun A B k c =>
  match c with
  | Ok a => k a
  | RateLimitError => RateLimitError
  | Failure => Failure
  end.

(** A key of a YAML mapping that is read with [.get(key, default)]:
    missing, present with a null value, or present with a string. *)
Inductive yaml_field : Type :=
| Missing
| Null
| Value (s : string).

(** [d.get(key, default)]. *)
Definition get_or (f : yaml_field) (default : string) : option string :=
  match f with
  | Missing => Some default
  | Null => None
  | Value s => Some s
  end.

(** [d.get(key)]. *)
Definition get (f : yaml_field) : option string :=
  match f with
  | Value s => Some s
  | _ => None
  end.

(* ================================================================== *)
(** * scripts/milestone_deriver.py *)
(* ================================================================== *)

(** One entry of a ledger release's [apis] list. *)
Module ReleaseApi.
Record t : Type := mk {
  api_name : option string;
  api_version : option string
}.
End ReleaseApi.

(** One record of the ledger's [releases] list, a dictionary the scripts
    read with [.get]. A field read with [.get(key)] alone is [None] when
    its key is missing or null, and holds a string otherwise.
    [release_date] is also read with a default, which tells a missing key
    from a null one. [apis] is the empty list when the key is missing,
    which is what [.get("apis", [])] reads. *)
Module Release.
Record t : Type := mk {
  repository : option string;
  release_tag : option string;
  release_date : yaml_field;
  meta_release : option string;
  release_type : option string;
  apis : list ReleaseApi.t
}.
End Release.

Module MilestoneDeriver.

(** Per-cycle counters, the dictionary
    [{total_apis, m1_achieved, m3_achieved, m4_achieved}]. *)
Record summary : Type := mk_summary {
  total_apis : nat;
  m1_achieved : nat;
  m3_achieved : nat;
  m4_achieved : nat
}.

Definition _empty_milestone (planned_apis : list string) : MilestoneRelease.t :=
  MilestoneRelease.mk None None
    (map (fun n => CycleReleaseApi.mk n None) planned_apis).

(** The sort key [r.get("release_date", "")]: a string, or [None] when
    the key is present with a null value. *)
Definition date_key (r : Release.t) : option string :=
  get_or (Release.release_date r) "".

(** On string keys [list.sort(key=...)] is a stable sort, ascending in the
    key, and strings compare code point by code point. A stable ascending
    sort has one possible result, computed here by insertion: an element
    is put before the first element of the sorted tail whose key is not
    smaller, so among equal keys the input order is kept. *)
Fixpoint insert_by_key {A} (key : A -> string) (x : A) (l : list A) : list A :=
  match l with
  | [] => [x]
  | y :: l' =>
      if String.leb (key x) (key y) then x :: y :: l'
      else y :: insert_by_key key x l'
  end.

Fixpoint sort_by_key {A} (key : A -> string) (l : list A) : list A :=
  match l with
  | [] => []
  | x :: l' => insert_by_key key x (sort_by_key key l')
  end.

(** [list.sort(key=...)] on keys that are strings or [None]. A list of
    fewer than two elements is left as it is, nothing being compared. In a
    longer list every element takes part in a comparison, and comparing
    [None] with anything raises [TypeError]; with string keys only, the
    list is sorted as above. *)
Definition list_sort {A} (key : A -> option string) (l : list A)
    : outcome (list A) :=
  match l with
  | _ :: _ :: _ =>
      if forallb (fun x => Py.is_str (key x)) l
      then Ok (sort_by_key (fun x => Py.or_empty (key x)) l)
      else Failure
  | _ => Ok l
  end.

(** The loop that fills [release_api_versions]: a later entry with the
    same name overwrites an earlier one, an entry without a name (missing
    or empty) is skipped. *)
Definition release_api_versions (r : Release.t) : gmap string (option string) :=
  foldl
    (fun versions api =>
       match ReleaseApi.api_name api with
       | Some name =>
           if Py.nonempty name
           then <[name := ReleaseApi.api_version api]> versions
           else versions
       | None => versions
       end)
    ∅ (Release.apis r).

(** [release_api_versions.get(name)]. *)
Definition get_version (versions : gmap string (option string))
    (name : string) : option string :=
  match versions !! name with
  | Some v => v
  | None => None
  end.

Definition _find_earliest_by_type
    (cycle_releases : list Release.t) (release_type : string)
    (planned_apis : list string) : outcome MilestoneRelease.t :=
  let matching :=
    List.filter
      (fun r => Py.eqb (Release.release_type r) (Some release_type))
      cycle_releases in
  match matching with
  | [] => Ok (_empty_milestone planned_apis)
  | _ :: _ =>
      matching ← list_sort date_key matching;
      match matching with
      | [] => Failure
      | earliest :: _ =>
          let versions := release_api_versions earliest in
          Ok (MilestoneRelease.mk
                (Release.release_tag earliest)
                (get (Release.release_date earliest))
                (map (fun name =>
                        CycleReleaseApi.mk name (get_version versions name))
                   planned_apis))
      end
  end.

Definition derive_cycle_releases
    (repo_name : string) (meta_release : option string)
    (all_releases : list Release.t) (planned_apis : list string)
    : outcome CycleReleases.t :=
  if negb (Py.truthy meta_release) then Ok CycleReleases.default
  else
    let cycle_releases :=
      List.filter
        (fun r => Py.eqb (Release.repository r) (Some repo_name)
                  && Py.eqb (Release.meta_release r) meta_release)
        all_releases in
    match cycle_releases with
    | [] =>
        Ok (CycleReleases.mk
              (Some (_empty_milestone planned_apis))
              (Some (_empty_milestone planned_apis))
              (Some (_empty_milestone planned_apis)))
    | _ :: _ =>
        m1 ← _find_earliest_by_type cycle_releases "pre-release-alpha" planned_apis;
        m3 ← _find_earliest_by_type cycle_releases "pre-release-rc" planned_apis;
        m4 ← _find_earliest_by_type cycle_releases "public-release" planned_apis;
        Ok (CycleReleases.mk (Some m1) (Some m3) (Some m4))
    end.

(** [len([a for a in m.apis if a.api_version])] under the guard
    [if cr.m and cr.m.release_tag]. *)
Definition achieved (m : option MilestoneRelease.t) : nat :=
  match m with
  | Some m =>
      if Py.truthy (MilestoneRelease.release_tag m)
      then length (List.filter
                     (fun a => Py.truthy (CycleReleaseApi.api_version a))
                     (MilestoneRelease.apis m))
      else 0
  | None => 0
  end.

Definition zero_summary : summary := mk_summary 0 0 0 0.

(** One iteration of the loop over [progress_entries]. *)
Definition add_entry (summaries : gmap string summary) (entry : ProgressEntry.t)
    : gmap string summary :=
  match ProgressEntry.meta_release entry with
  | None => summaries
  | Some mr =>
      if negb (Py.nonempty mr) then summaries
      else
        let s := match summaries !! mr with
                 | Some s => s
                 | None => zero_summary
                 end in
        let cr := ProgressEntry.cycle_releases entry in
        <[mr := mk_summary
                  (total_apis s + length (ProgressEntry.apis entry))
                  (m1_achieved s + achieved (CycleReleases.m1 cr))
                  (m3_achieved s + achieved (CycleReleases.m3 cr))
                  (m4_achieved s + achieved (CycleReleases.m4 cr))]> summaries
  end.

Definition build_meta_release_summaries (progress_entries : list ProgressEntry.t)
    : gmap string summary :=
  foldl add_entry ∅ progress_entries.

End MilestoneDeriver.

(* ================================================================== *)
(** * scripts/warnings.py *)
(* ================================================================== *)

Module Warnings.
Import ProgressState.

(** The dictionary [published_versions]: API name to base version, the
    recorded version up to its first hyphen (the empty string when no
    version is recorded). *)
Definition published_versions (published : Release.t) : gmap string string :=
  foldl
    (fun versions api =>
       match ReleaseApi.api_name api with
       | Some name =>
           if Py.nonempty name then
             let version := Py.or_empty (ReleaseApi.api_version api) in
             let base_version :=
               if Py.nonempty version then Py.split_head "-" version
               else EmptyString in
             <[name := base_version]> versions
           else versions
       | None => versions
       end)
    ∅ (Release.apis published).

(** The f-string of the W001 message. It is only built past the guard on
    the target tag, where the tag is a non-empty string. *)
Definition w001_message (api : ApiEntry.t) (target_release_tag : option string)
    (published_base : string) : string :=
  "Plan targets " +:+ ApiEntry.api_name api +:+ " "
    +:+ ApiEntry.target_api_version api +:+ " but "
    +:+ Py.or_empty target_release_tag +:+ " published " +:+ published_base.

(** The loop over [entry.apis], which returns at the first divergence. *)
Fixpoint first_divergence (versions : gmap string string)
    (target_release_tag : option string) (apis : list ApiEntry.t)
    : list ProgressWarning.t :=
  match apis with
  | [] => []
  | api :: rest =>
      match versions !! ApiEntry.api_name api with
      | Some published_base =>
          if Py.nonempty published_base
             && negb (String.eqb (ApiEntry.target_api_version api) published_base)
          then [ProgressWarning.mk "W001"
                  (w001_message api target_release_tag published_base)
                  "warning"]
          else first_divergence versions target_release_tag rest
      | None => first_divergence versions target_release_tag rest
      end
  end.

Definition _check_published_plan_diverged
    (entry : ProgressEntry.t) (repo_releases : list Release.t)
    : list ProgressWarning.t :=
  if negb (bool_decide (ProgressEntry.state entry = PUBLISHED)) then []
  else if negb (Py.truthy (ProgressEntry.target_release_tag entry))
          || match ProgressEntry.apis entry with [] => true | _ :: _ => false end
  then []
  else
    match List.find
            (fun rel => Py.eqb (Release.release_tag rel)
                          (ProgressEntry.target_release_tag entry))
            repo_releases with
    | None => []
    | Some published =>
        first_divergence (published_versions published)
          (ProgressEntry.target_release_tag entry) (ProgressEntry.apis entry)
    end.

Definition w002_message (snapshot_branch : string) : string :=
  "Snapshot branch " +:+ snapshot_branch +:+ " exists but release type is 'none'".

Definition _check_orphaned_snapshot
    (entry : ProgressEntry.t) (repo_releases : list Release.t)
    : list ProgressWarning.t :=
  if negb (bool_decide (ProgressEntry.state entry = NOT_PLANNED)) then []
  else
    match ArtifactInfo.snapshot_branch (ProgressEntry.artifacts entry) with
    | Some branch =>
        if Py.nonempty branch
        then [ProgressWarning.mk "W002" (w002_message branch) "warning"]
        else []
    | None => []
    end.

(** The registry of checks, in emission order. *)
Definition CHECKS
    : list (ProgressEntry.t -> list Release.t -> list ProgressWarning.t) :=
  [_check_published_plan_diverged; _check_orphaned_snapshot].

Definition generate_warnings
    (entry : ProgressEntry.t) (repo_releases : list Release.t)
    : list ProgressWarning.t :=
  foldl (fun warnings check_fn => (warnings ++ check_fn entry repo_releases)%list)
    [] CHECKS.

End Warnings.

(* ================================================================== *)
(** * scripts/github_api.py, as the collector sees it *)
(* ================================================================== *)

(** The methods of [GitHubAPI] that [collect_repo_progress] calls, as
    functions from their arguments to the outcome of the call. The remote
    state is taken to be fixed during a pass. [get_file_content] is called
    with the default [ref]. *)
Module GitHubAPI.
Record t : Type := mk {
  get_file_content : string -> string -> outcome (option string);
  list_branches : string -> string -> outcome (list string);
  tag_exists : string -> option string -> outcome bool;
  get_draft_releases : string -> outcome (list DraftRelease.t);
  find_release_issue : string -> outcome (option dict);
  find_release_pr : string -> string -> outcome (option dict)
}.
End GitHubAPI.

(** [GitHubAPI.list_branches]: the pagination loop. *)
Module GitHubClient.

Section ListBranches.

(** One request for a page of the branch list ([_get], then
    [raise_for_status] and [json]): the names of the branches on that
    page, or the exception raised. Pages are numbered from 1. *)
Variable fetch_page : nat -> outcome (list string).

Variable prefix : string.

(** [not prefix or name.startswith(prefix)]. *)
Definition keep (name : string) : bool :=
  negb (Py.nonempty prefix) || Py.startswith name prefix.

(** The [while True] loop, entered with [page] and the branches gathered
    so far. How long it runs is up to the remote side, so the iterations
    are bounded by [fuel]: [None] means the bound was reached before the
    loop ended. *)
Fixpoint list_branches_from (fuel page : nat) (branches : list string)
    : option (outcome (list string)) :=
  match fuel with
  | 0 => None
  | S fuel =>
      match fetch_page page with
      | Ok data =>
          match data with
          | [] => Some (Ok branches)
          | _ :: _ =>
              let branches := (branches ++ List.filter keep data)%list in
              if (length data <? 100)%nat then Some (Ok branches)
              else list_branches_from fuel (page + 1) branches
          end
      | RateLimitError => Some RateLimitError
      | Failure => Some Failure
      end
  end.

Definition list_branches (fuel : nat) : option (outcome (list string)) :=
  list_branches_from fuel 1 [].

End ListBranches.

End GitHubClient.

(* ================================================================== *)
(** * scripts/collect_progress.py *)
(* ================================================================== *)

(** One entry of the plan's [apis] list. The three string fields feed
    [ApiEntry] fields of type [str]: a field is [None] when its key is
    missing and holds a string otherwise. *)
Module ApiData.
Record t : Type := mk {
  api_name : option string;
  target_api_version : option string;
  target_api_status : option string;
  main_contacts : list string
}.
End ApiData.

(** A parsed release-plan.yaml: the fields of its [repository] section
    (all missing when the section is), [dependencies] and [apis] (the
    empty list when the key is missing). *)
Module ReleasePlan.
Record t : Type := mk {
  target_release_type : yaml_field;
  target_release_tag : yaml_field;
  release_track : yaml_field;
  meta_release : yaml_field;
  dependencies : option dict;
  apis : list ApiData.t
}.
End ReleasePlan.

(** One record of the ledger's [repositories] list. [repository] and
    [github_url] are read with the default [""]: they are [None] when the
    key is missing and hold a string otherwise. *)
Module Repository.
Record t : Type := mk {
  repository : option string;
  github_url : option string;
  latest_public_release : option string;
  newest_pre_release : option string
}.
End Repository.

Module MetaReleaseSummary.
Record t : Type := mk {
  name : string;
  total_apis : nat;
  m1_achieved : nat;
  m3_achieved : nat;
  m4_achieved : nat
}.

Definition to_dict (m : t) : dict :=
  [("name", VStr (name m));
   ("total_apis", VInt (Z.of_nat (total_apis m)));
   ("m1_achieved", VInt (Z.of_nat (m1_achieved m)));
   ("m3_achieved", VInt (Z.of_nat (m3_achieved m)));
   ("m4_achieved", VInt (Z.of_nat (m4_achieved m)))].
End MetaReleaseSummary.

(** The counters of [CollectionStats] that the collection loop maintains.
    [api_calls] (the client's request counter) and [duration_seconds] (a
    wall-clock float) are outside the model. *)
Module CollectionStats.
Record t : Type := mk {
  repos_scanned : nat;
  repos_with_plan : nat;
  repos_planned : nat
}.
End CollectionStats.

Module CollectProgress.
Import ProgressState.

Definition build_published_context_map (repositories : list Repository.t)
    : gmap string PublishedContext.t :=
  foldl
    (fun context_map repo =>
       let name := Py.or_empty (Repository.repository repo) in
       <[name := PublishedContext.mk
                   (Repository.latest_public_release repo)
                   (Repository.newest_pre_release repo)]> context_map)
    ∅ repositories.

(** The loop that turns the plan's [apis] into [ApiEntry] values. *)
Definition parse_apis (apis : list ApiData.t) : list ApiEntry.t :=
  map (fun api_data =>
         ApiEntry.mk
           (Py.or_empty (ApiData.api_name api_data))
           (Py.or_empty (ApiData.target_api_version api_data))
           (Py.or_empty (ApiData.target_api_status api_data))
           (ApiData.main_contacts api_data))
    apis.

(** The loop over the draft releases, which stops at the first one whose
    name or tag mentions the target tag. *)
Definition find_draft_release (draft_releases : list DraftRelease.t)
    (target_tag : option string) : option dict :=
  match
    List.find
      (fun dr =>
         let name := Py.or_empty (DraftRelease.name dr) in
         let dr_tag := Py.or_empty (DraftRelease.tag_name dr) in
         match target_tag with
         | Some tag =>
             Py.nonempty tag && (Py.contains name tag || Py.contains dr_tag tag)
         | None => false
         end)
      draft_releases
  with
  | Some dr =>
      Some [("name", Dict.of_opt_str (DraftRelease.name dr));
            ("url", Dict.of_opt_str (DraftRelease.html_url dr))]
  | None => None
  end.

(** [x if x else None] for an optional dictionary: what an [if x:]
    assignment leaves in a field that defaults to [None]. *)
Definition keep_truthy (o : option dict) : option dict :=
  if Dict.truthy o then o else None.

Definition keep_truthy_str (o : option string) : option string :=
  if Py.truthy o then o else None.

Section Collector.

(** [yaml.safe_load] on the text of a release plan: [None] when the text
    is not valid YAML (or is an empty document), the parsed plan
    otherwise. The parser itself is outside the repository. *)
Variable yaml_safe_load : string -> option ReleasePlan.t.

Definition parse_release_plan (content : string) : option ReleasePlan.t :=
  yaml_safe_load content.

Definition collect_repo_progress
    (repo_name github_url : string) (api : GitHubAPI.t)
    (all_releases : list Release.t) (published_context : PublishedContext.t)
    : outcome (option ProgressEntry.t) :=
  plan_content ← GitHubAPI.get_file_content api repo_name "release-plan.yaml";
  match plan_content with
  | None => Ok None
  | Some plan_content =>
      match parse_release_plan plan_content with
      | None => Ok None
      | Some plan =>
          let target_type := get_or (ReleasePlan.target_release_type plan) "none" in
          let target_tag := get (ReleasePlan.target_release_tag plan) in
          let release_track := get (ReleasePlan.release_track plan) in
          let meta_release := get (ReleasePlan.meta_release plan) in
          let dependencies := ReleasePlan.dependencies plan in
          let apis := parse_apis (ReleasePlan.apis plan) in
          let planned_api_names := map ApiEntry.api_name apis in
          let repo_releases :=
            List.filter
              (fun r => Py.eqb (Release.repository r) (Some repo_name))
              all_releases in
          let entry state artifacts cycle_releases warnings :=
            ProgressEntry.mk repo_name github_url release_track meta_release
              target_tag target_type dependencies apis state artifacts
              published_context cycle_releases warnings in
          if negb (Py.truthy target_type) || Py.eqb target_type (Some "none")
          then
            let state :=
              StateDeriver.derive_state target_type target_tag false [] [] in
            branches ← GitHubAPI.list_branches api repo_name "release-snapshot/";
            let snapshot_branch :=
              match branches with
              | [] => None
              | _ :: _ =>
                  keep_truthy_str
                    (StateDeriver.find_matching_snapshot branches target_tag)
              end in
            let artifacts := ArtifactInfo.mk snapshot_branch None None None in
            cycle_releases ←
              MilestoneDeriver.derive_cycle_releases
                repo_name meta_release all_releases planned_api_names;
            let warnings :=
              Warnings.generate_warnings
                (entry state artifacts cycle_releases []) repo_releases in
            Ok (Some (entry state artifacts cycle_releases warnings))
          else
            tag_exists ← GitHubAPI.tag_exists api repo_name target_tag;
            snapshot_branches ←
              GitHubAPI.list_branches api repo_name "release-snapshot/";
            draft_releases ← GitHubAPI.get_draft_releases api repo_name;
            let state :=
              StateDeriver.derive_state target_type target_tag tag_exists
                snapshot_branches draft_releases in
            let snapshot :=
              StateDeriver.find_matching_snapshot snapshot_branches target_tag in
            release_pr ←
              match snapshot with
              | Some branch =>
                  if Py.nonempty branch then
                    pr ← GitHubAPI.find_release_pr api repo_name branch;
                    Ok (keep_truthy pr)
                  else Ok None
              | None => Ok None
              end;
            let draft_release := find_draft_release draft_releases target_tag in
            release_issue ← GitHubAPI.find_release_issue api repo_name;
            let artifacts :=
              ArtifactInfo.mk (keep_truthy_str snapshot) release_pr
                draft_release (keep_truthy release_issue) in
            cycle_releases ←
              MilestoneDeriver.derive_cycle_releases
                repo_name meta_release all_releases planned_api_names;
            let warnings :=
              Warnings.generate_warnings
                (entry state artifacts cycle_releases []) repo_releases in
            Ok (Some (entry state artifacts cycle_releases warnings))
      end
  end.

(** The state of the collection loop of [collect_all]: the entries
    appended so far and the two counters it increments. *)
Record progress : Type := mk_progress {
  entries : list ProgressEntry.t;
  with_plan : nat;
  planned : nat
}.

(** The loop over the ledger's repositories: an entry is appended and
    counted, a repository without a plan is passed over, a
    [RateLimitError] breaks out of the loop, any other exception moves on
    to the next repository. *)
Fixpoint collect_loop (api : GitHubAPI.t) (all_releases : list Release.t)
    (context_map : gmap string PublishedContext.t)
    (repositories : list Repository.t) (acc : progress) : progress :=
  match repositories with
  | [] => acc
  | repo_data :: rest =>
      let repo_name := Py.or_empty (Repository.repository repo_data) in
      let github_url := Py.or_empty (Repository.github_url repo_data) in
      let published_ctx :=
        match context_map !! repo_name with
        | Some ctx => ctx
        | None => PublishedContext.mk None None
        end in
      match collect_repo_progress repo_name github_url api all_releases
              published_ctx with
      | Ok (Some entry) =>
          collect_loop api all_releases context_map rest
            (mk_progress
               (entries acc ++ [entry])%list
               (with_plan acc + 1)
               (if negb (String.eqb
                           (ProgressState.value (ProgressEntry.state entry))
                           "not_planned")
                then planned acc + 1
                else planned acc))
      | Ok None => collect_loop api all_releases context_map rest acc
      | RateLimitError => acc
      | Failure => collect_loop api all_releases context_map rest acc
      end
  end.

(** [sorted(summary_data.items())]: the cycle names are distinct, so the
    tuples are ordered by name alone. *)
Definition sorted_items (summary_data : gmap string MilestoneDeriver.summary)
    : list (string * MilestoneDeriver.summary) :=
  MilestoneDeriver.sort_by_key fst (map_to_list summary_data).

(** The part of [collect_all] between reading the ledger and writing the
    report: the collected entries, the cycle summaries ordered by name and
    the statistics. *)
Definition collect_all (api : GitHubAPI.t) (repositories : list Repository.t)
    (all_releases : list Release.t)
    : CollectionStats.t * list MetaReleaseSummary.t * list ProgressEntry.t :=
  let context_map := build_published_context_map repositories in
  let result :=
    collect_loop api all_releases context_map repositories
      (mk_progress [] 0 0) in
  let summary_data :=
    MilestoneDeriver.build_meta_release_summaries (entries result) in
  let meta_summaries :=
    map (fun item =>
           MetaReleaseSummary.mk (fst item)
             (MilestoneDeriver.total_apis (snd item))
             (MilestoneDeriver.m1_achieved (snd item))
             (MilestoneDeriver.m3_achieved (snd item))
             (MilestoneDeriver.m4_achieved (snd item)))
      (sorted_items summary_data) in
  (CollectionStats.mk (length repositories) (with_plan result) (planned result),
   meta_summaries, entries result).

End Collector.

End CollectProgress.

(* ================================================================== *)
(** * Sample data of the test suite *)
(* ================================================================== *)

Module Fixtures.

Definition release (repo tag date cycle type : string)
    (apis : list (string * string)) : Release.t :=
  Release.mk (Some repo) (Some tag) (Value date) (Some cycle) (Some type)
    (map (fun a => ReleaseApi.mk (Some (fst a)) (Some (snd a))) apis).

(** [SAMPLE_RELEASES] of tests/test_milestone_deriver.py. *)
Definition SAMPLE_RELEASES : list Release.t :=
  [release "QualityOnDemand" "r4.1" "2026-02-10T14:30:00Z" "Sync26"
     "pre-release-alpha" [("quality-on-demand", "1.2.0-alpha.1")];
   release "QualityOnDemand" "r4.2" "2026-03-15T10:00:00Z" "Sync26"
     "pre-release-rc" [("quality-on-demand", "1.2.0-rc.1")];
   release "DeviceLocation" "r5.1" "2026-02-15T08:00:00Z" "Sync26"
     "pre-release-alpha" [("location-verification", "2.0.0-alpha.1")];
   release "QualityOnDemand" "r3.5" "2025-11-01T12:00:00Z" "Fall25"
     "public-release" [("quality-on-demand", "1.1.0")]].

(** The milestones of QualityOnDemand in Sync26 that the sample ledger
    gives for the planned API [quality-on-demand]. *)
Definition SAMPLE_CYCLE_RELEASES : CycleReleases.t :=
  CycleReleases.mk
    (Some (MilestoneRelease.mk (Some "r4.1") (Some "2026-02-10T14:30:00Z")
             [CycleReleaseApi.mk "quality-on-demand" (Some "1.2.0-alpha.1")]))
    (Some (MilestoneRelease.mk (Some "r4.2") (Some "2026-03-15T10:00:00Z")
             [CycleReleaseApi.mk "quality-on-demand" (Some "1.2.0-rc.1")]))
    (Some (MilestoneRelease.mk None None
             [CycleReleaseApi.mk "quality-on-demand" None])).


(** [_make_entry] of tests/test_warnings.py, with the fields the tests
    override as arguments. *)
Definition make_entry (state : ProgressState.t)
    (target_release_type : option string) (apis : list ApiEntry.t)
    (artifacts : ArtifactInfo.t) : ProgressEntry.t :=
  ProgressEntry.mk "TestRepo" "https://github.com/camaraproject/TestRepo"
    None None (Some "r4.1") target_release_type None apis state artifacts
    (PublishedContext.mk None None) CycleReleases.default [].

(** An entry of a cycle, as the summary tests build them. *)
Definition cycle_entry (repo : string) (cycle : option string)
    (apis : list ApiEntry.t) (cycle_releases : CycleReleases.t)
    : ProgressEntry.t :=
  ProgressEntry.mk repo ("https://github.com/camaraproject/" +:+ repo)
    None cycle None None None apis ProgressState.NOT_PLANNED
    ArtifactInfo.default (PublishedContext.mk None None) cycle_releases [].

(** ** tests/test_collect_progress.py *)

(** [PLAN_RC] and [PLAN_NONE], as the parser returns them. *)
Definition PLAN_RC : ReleasePlan.t :=
  ReleasePlan.mk (Value "pre-release-rc") (Value "r4.1")
    (Value "meta-release") (Value "Sync26")
    (Some [("commonalities_release", VStr "r4.2")])
    [ApiData.mk (Some "quality-on-demand") (Some "1.2.0") (Some "rc")
       ["user1"]].

Definition PLAN_NONE : ReleasePlan.t :=
  ReleasePlan.mk (Value "none") Null (Value "meta-release") (Value "Sync26")
    None [].

(** [plan_none_with_tag] of [test_warnings_attached]. *)
Definition plan_none_with_tag : ReleasePlan.t :=
  ReleasePlan.mk (Value "none") (Value "r4.1") (Value "meta-release")
    (Value "Sync26") None [].

(** The parser on the sample plans, whose texts are stood for by their
    names; any other text is not a plan. *)
Definition sample_yaml (content : string) : option ReleasePlan.t :=
  if String.eqb content "PLAN_RC" then Some PLAN_RC
  else if String.eqb content "PLAN_NONE" then Some PLAN_NONE
  else if String.eqb content "plan_none_with_tag" then Some plan_none_with_tag
  else None.

(** [d.get(k)] on a dictionary given by its items. *)
Fixpoint lookup_key {V} (k : string) (d : list (string * V)) : option V :=
  match d with
  | [] => None
  | (k', v) :: d => if String.eqb k k' then Some v else lookup_key k d
  end.

(** [MockGitHubAPI]: every method answers from the tables it was built
    with and never raises. *)
Definition MockGitHubAPI
    (file_contents : list (string * string))
    (branches : list (string * list string))
    (tags : list string)
    (draft_releases : list (string * list DraftRelease.t))
    (release_issues release_prs : list (string * dict)) : GitHubAPI.t :=
  GitHubAPI.mk
    (fun repo path => Ok (lookup_key (repo +:+ "/" +:+ path) file_contents))
    (fun repo prefix =>
       Ok (List.filter
             (fun b => negb (Py.nonempty prefix) || Py.startswith b prefix)
             (match lookup_key repo branches with
              | Some all_branches => all_branches
              | None => []
              end)))
    (fun repo tag =>
       Ok (existsb
             (String.eqb
                (repo +:+ "/" +:+ match tag with
                                  | Some tag => tag
                                  | None => "None"
                                  end))
             tags))
    (fun repo =>
       Ok (match lookup_key repo draft_releases with
           | Some drafts => drafts
           | None => []
           end))
    (fun repo => Ok (lookup_key repo release_issues))
    (fun repo branch => Ok (lookup_key (repo +:+ "/" +:+ branch) release_prs)).

(** [ErrorAPI], narrowed to one repository: [get_file_content] raises
    [exc] for [repo] and answers as [api] does for any other. *)
Definition ErrorAPI (exc : outcome (option string)) (repo : string)
    (api : GitHubAPI.t) : GitHubAPI.t :=
  GitHubAPI.mk
    (fun r path =>
       if String.eqb r repo then exc else GitHubAPI.get_file_content api r path)
    (GitHubAPI.list_branches api) (GitHubAPI.tag_exists api)
    (GitHubAPI.get_draft_releases api) (GitHubAPI.find_release_issue api)
    (GitHubAPI.find_release_pr api).

(** A branch list of two pages: a full page of a hundred names, then a
    short one. *)
Definition two_pages (page : nat) : outcome (list string) :=
  match page with
  | 1 => Ok (repeat "main" 100)
  | 2 => Ok ["release-snapshot/r4.1-abc123"; "main"]
  | _ => Ok []
  end.

(** A ledger record of a repository with nothing published. *)
Definition repository (name : string) : Repository.t :=
  Repository.mk (Some name) (Some ("https://github.com/camaraproject/" +:+ name))
    None None.

End Fixtures.

(* ================================================================== *)
(** * Vocabulary of the specification *)
(* ================================================================== *)

Module Spec.

(** [s] starts with the literal prefix [p]. *)
Definition starts_with (s p : string) : Prop :=
  exists suffix, s = p +:+ suffix.

(** [t] occurs in [s] as a substring. *)
Definition substring_of (t s : string) : Prop :=
  exists before after, s = before +:+ t +:+ after.

(** [x] is the first element of [l], in the order of [l], that has [P]. *)
Definition first_such {A} (P : A -> Prop) (l : list A) (x : A) : Prop :=
  exists before after,
    l = (before ++ x :: after)%list /\ P x /\ Forall (fun y => ~ P y) before.

(** The [name] or the [tag_name] field of a draft release contains [tag]. *)
Definition draft_mentions (tag : string) (d : DraftRelease.t) : Prop :=
  (exists n, DraftRelease.name d = Some n /\ substring_of tag n)
  \/ (exists n, DraftRelease.tag_name d = Some n /\ substring_of tag n).

(** ** Milestones *)

(** The release belongs to repository [repo] and to cycle [cycle]. *)
Definition in_cycle (repo cycle : string) (r : Release.t) : Prop :=
  Release.repository r = Some repo /\ Release.meta_release r = Some cycle.

(** The candidates for a milestone kind: the releases of the repository in
    the cycle whose [release_type] is exactly [kind], in input order. *)
Definition candidates (repo cycle kind : string) (all_releases : list Release.t)
    : list Release.t :=
  List.filter
    (fun r => bool_decide (in_cycle repo cycle r
                           /\ Release.release_type r = Some kind))
    all_releases.

(** Ascending order of keys, as strings. *)
Definition key_le {A} (key : A -> string) (x y : A) : Prop :=
  String.leb (key x) (key y) = true.

Definition key_lt {A} (key : A -> string) (x y : A) : Prop :=
  String.ltb (key x) (key y) = true.

(** [sorted] is [l] sorted ascending by [key] with ties kept in input
    order: a permutation of [l], ascending, in which the elements of any
    one key stand in the order they have in [l]. *)
Definition stable_sort_of {A} (key : A -> string) (l sorted : list A) : Prop :=
  Permutation l sorted
  /\ StronglySorted (key_le key) sorted
  /\ forall k,
       List.filter (fun x => String.eqb (key x) k) sorted
       = List.filter (fun x => String.eqb (key x) k) l.

(** [x] is the element of [l] that such a sort puts first: every element
    before it in [l] has a strictly larger key, every element after it a
    key at least as large. *)
Definition earliest {A} (key : A -> string) (l : list A) (x : A) : Prop :=
  exists before after,
    l = (before ++ x :: after)%list
    /\ Forall (key_lt key x) before
    /\ Forall (key_le key x) after.

(** The record a release keeps for API [name]: the last entry of its
    [apis] list that carries this name, if any. *)
Fixpoint record_of (apis : list ReleaseApi.t) (name : string)
    : option ReleaseApi.t :=
  match apis with
  | [] => None
  | api :: rest =>
      match record_of rest name with
      | Some later => Some later
      | None =>
          if bool_decide (ReleaseApi.api_name api = Some name)
          then Some api
          else None
      end
  end.

(** The version of planned API [name] in release [r]: null when the name
    is empty, when the release has no record for it, or when the record
    has no version. *)
Definition version_in (r : Release.t) (name : string) : option string :=
  if Py.nonempty name then
    match record_of (Release.apis r) name with
    | Some api => ReleaseApi.api_version api
    | None => None
    end
  else None.

(** The unachieved shape: null tag, null date, every planned API mapped to
    null. *)
Definition unachieved (planned_apis : list string) (m : MilestoneRelease.t)
    : Prop :=
  MilestoneRelease.release_tag m = None
  /\ MilestoneRelease.release_date m = None
  /\ MilestoneRelease.apis m
     = map (fun n => CycleReleaseApi.mk n None) planned_apis.

(** [m] reports release [chosen] against the planned APIs: one entry per
    planned API, in plan order. *)
Definition reports (chosen : Release.t) (planned_apis : list string)
    (m : MilestoneRelease.t) : Prop :=
  MilestoneRelease.release_tag m = Release.release_tag chosen
  /\ MilestoneRelease.release_date m = get (Release.release_date chosen)
  /\ MilestoneRelease.apis m
     = map (fun n => CycleReleaseApi.mk n (version_in chosen n)) planned_apis.

(** The date a release is sorted by: its [release_date], the empty
    string when it has none. *)
Definition sort_date (r : Release.t) : string :=
  match Release.release_date r with
  | Value d => d
  | _ => ""
  end.

(** The candidates can be put in order: there are fewer than two of them,
    or none of them has a null [release_date]. *)
Definition sortable (cands : list Release.t) : Prop :=
  length cands < 2
  \/ Forall (fun r => Release.release_date r <> Null) cands.

(** The milestone derived from a list of candidates. *)
Definition milestone_of (cands : list Release.t) (planned_apis : list string)
    (m : MilestoneRelease.t) : Prop :=
  (cands = [] /\ unachieved planned_apis m)
  \/ (exists chosen rest,
         stable_sort_of sort_date cands (chosen :: rest)
         /\ earliest sort_date cands chosen
         /\ reports chosen planned_apis m).

(** ** Cycle summaries *)

(** The entries of cycle [c]. *)
Definition cycle_entries (c : string) (entries : list ProgressEntry.t)
    : list ProgressEntry.t :=
  List.filter
    (fun e => bool_decide (ProgressEntry.meta_release e = Some c)) entries.

(** What one milestone adds to its achieved counter: nothing when the
    milestone is absent or its tag is null or empty, else the number of
    its API entries whose version is neither null nor empty. *)
Definition achieved_count (m : option MilestoneRelease.t) : nat :=
  match m with
  | Some m =>
      match MilestoneRelease.release_tag m with
      | Some (String _ _) =>
          length
            (List.filter
               (fun a =>
                  match CycleReleaseApi.api_version a with
                  | Some (String _ _) => true
                  | _ => false
                  end)
               (MilestoneRelease.apis m))
      | _ => 0
      end
  | None => 0
  end.

Definition sum_over {A} (f : A -> nat) (l : list A) : nat :=
  sum_list (map f l).

(** The counters of cycle [c] as sums over its entries. *)
Definition cycle_summary (c : string) (entries : list ProgressEntry.t)
    : MilestoneDeriver.summary :=
  let es := cycle_entries c entries in
  MilestoneDeriver.mk_summary
    (sum_over (fun e => length (ProgressEntry.apis e)) es)
    (sum_over (fun e => achieved_count
                          (CycleReleases.m1 (ProgressEntry.cycle_releases e))) es)
    (sum_over (fun e => achieved_count
                          (CycleReleases.m3 (ProgressEntry.cycle_releases e))) es)
    (sum_over (fun e => achieved_count
                          (CycleReleases.m4 (ProgressEntry.cycle_releases e))) es).

(** One entry's contribution added to the counters of its cycle. *)
Definition add_counts (s : MilestoneDeriver.summary) (e : ProgressEntry.t)
    : MilestoneDeriver.summary :=
  let cr := ProgressEntry.cycle_releases e in
  MilestoneDeriver.mk_summary
    (MilestoneDeriver.total_apis s + length (ProgressEntry.apis e))
    (MilestoneDeriver.m1_achieved s + achieved_count (CycleReleases.m1 cr))
    (MilestoneDeriver.m3_achieved s + achieved_count (CycleReleases.m3 cr))
    (MilestoneDeriver.m4_achieved s + achieved_count (CycleReleases.m4 cr)).

(** An entry whose cycle releases were derived for its own planned APIs,
    as the collector builds it. *)
Definition derived_for_own_apis (e : ProgressEntry.t) : Prop :=
  exists repo_name all_releases,
    MilestoneDeriver.derive_cycle_releases repo_name
      (ProgressEntry.meta_release e) all_releases
      (map ApiEntry.api_name (ProgressEntry.apis e))
    = Ok (ProgressEntry.cycle_releases e).

(** Counter-wise sum of two summaries. *)
Definition add_summaries (a b : MilestoneDeriver.summary)
    : MilestoneDeriver.summary :=
  MilestoneDeriver.mk_summary
    (MilestoneDeriver.total_apis a + MilestoneDeriver.total_apis b)
    (MilestoneDeriver.m1_achieved a + MilestoneDeriver.m1_achieved b)
    (MilestoneDeriver.m3_achieved a + MilestoneDeriver.m3_achieved b)
    (MilestoneDeriver.m4_achieved a + MilestoneDeriver.m4_achieved b).

(** ** Warnings *)

(** The base version of a recorded version: the part before its first
    hyphen. *)
Definition base_version (version : option string) : string :=
  Py.split_head "-" (Py.or_empty version).

(** The published base version of API [name] in release [published]:
    null when the name is empty or the release has no record for it. *)
Definition published_base (published : Release.t) (name : string)
    : option string :=
  if Py.nonempty name then
    match record_of (Release.apis published) name with
    | Some api => Some (base_version (ReleaseApi.api_version api))
    | None => None
    end
  else None.

(** The planned API diverges from the published release: its published
    base version is present, not empty, and differs from the declared
    target version. *)
Definition diverges (published : Release.t) (api : ApiEntry.t) : Prop :=
  exists base,
    published_base published (ApiEntry.api_name api) = Some base
    /\ base <> ""
    /\ ApiEntry.target_api_version api <> base.

(** ** Per-API maps *)

(** The loop body shared by [release_api_versions] and
    [published_versions]: record [f api] under the entry's name, skipping
    entries whose name is missing or empty. *)
Definition record_step {V} (f : ReleaseApi.t -> V)
    (versions : gmap string V) (api : ReleaseApi.t) : gmap string V :=
  match ReleaseApi.api_name api with
  | Some name =>
      if Py.nonempty name then <[name := f api]> versions else versions
  | None => versions
  end.

(** ** Collector *)

(** The name under which the collector handles a ledger record. *)
Definition name_of (repo : Repository.t) : string :=
  Py.or_empty (Repository.repository repo).

(** The published context that a ledger record carries. *)
Definition context_of (repo : Repository.t) : PublishedContext.t :=
  PublishedContext.mk (Repository.latest_public_release repo)
    (Repository.newest_pre_release repo).

(** The last record of the ledger that bears [name]. *)
Definition last_named (name : string) (repositories : list Repository.t)
    : option Repository.t :=
  List.find (fun repo => String.eqb (name_of repo) name) (rev repositories).

(** The call that the collection loop makes for one ledger record. *)
Definition collected (yaml_safe_load : string -> option ReleasePlan.t)
    (api : GitHubAPI.t) (all_releases : list Release.t)
    (context_map : gmap string PublishedContext.t) (repo_data : Repository.t)
    : outcome (option ProgressEntry.t) :=
  CollectProgress.collect_repo_progress yaml_safe_load
    (name_of repo_data) (Py.or_empty (Repository.github_url repo_data))
    api all_releases
    (match context_map !! name_of repo_data with
     | Some ctx => ctx
     | None => PublishedContext.mk None None
     end).

(** An entry that the statistics count as planned. *)
Definition is_planned (e : ProgressEntry.t) : bool :=
  negb (bool_decide (ProgressEntry.state e = ProgressState.NOT_PLANNED)).

(** The report line of cycle [c]: its name with its counters. *)
Definition cycle_report (c : string) (entries : list ProgressEntry.t)
    : MetaReleaseSummary.t :=
  let s := cycle_summary c entries in
  MetaReleaseSummary.mk c (MilestoneDeriver.total_apis s)
    (MilestoneDeriver.m1_achieved s) (MilestoneDeriver.m3_achieved s)
    (MilestoneDeriver.m4_achieved s).

(** No counter of achieved APIs exceeds the number of planned APIs. *)
Definition within_total (m : MetaReleaseSummary.t) : Prop :=
  MetaReleaseSummary.m1_achieved m <= MetaReleaseSummary.total_apis m
  /\ MetaReleaseSummary.m3_achieved m <= MetaReleaseSummary.total_apis m
  /\ MetaReleaseSummary.m4_achieved m <= MetaReleaseSummary.total_apis m.

(** The artifacts are those of a repository without a planned release:
    at most a snapshot branch. *)
Definition bare_artifacts (a : ArtifactInfo.t) : Prop :=
  ArtifactInfo.release_pr a = None
  /\ ArtifactInfo.draft_release a = None
  /\ ArtifactInfo.release_issue a = None.

End Spec.

(* ================================================================== *)
(** * Properties *)
(* ================================================================== *)

(** ** Strings and lists *)

Section PyFacts.

Lemma nonempty_true (s : string) : Py.nonempty s = true <-> s <> "".
Proof. destruct s; simpl; split; intros; congruence. Qed.

Lemma nonempty_false (s : string) : Py.nonempty s = false <-> s = "".
Proof. destruct s; simpl; split; intros; congruence. Qed.

Lemma truthy_true (o : option string) :
  Py.truthy o = true <-> exists s, o = Some s /\ s <> "".
Proof.
  destruct o as [s|]; simpl.
  - rewrite nonempty_true. split; [eauto | intros (s' & [= ->] & H); done].
  - split; [done | intros (s' & [=] & _)].
Qed.

Lemma truthy_false (o : option string) :
  Py.truthy o = false <-> o = None \/ o = Some "".
Proof.
  destruct o as [s|]; simpl.
  - rewrite nonempty_false. split; [intros ->; auto | intros [[=]|[= ->]]; done].
  - split; auto.
Qed.

Lemma py_eqb_true (a b : option string) : Py.eqb a b = true <-> a = b.
Proof. unfold Py.eqb. apply bool_decide_eq_true. Qed.

Lemma py_eqb_false (a b : option string) : Py.eqb a b = false <-> a <> b.
Proof. unfold Py.eqb. apply bool_decide_eq_false. Qed.

Lemma prefix_starts_with (p s : string) :
  String.prefix p s = true <-> Spec.starts_with s p.
Proof.
  unfold Spec.starts_with. revert s.
  induction p as [|c p IH]; intros s; simpl.
  - destruct s; split; eauto.
  - destruct s as [|c' s]; simpl.
    + split; [done | intros (suffix & [=])].
    + destruct (Ascii.ascii_dec c c') as [->|Hne].
      * rewrite IH. split; intros (suffix & H); exists suffix.
        -- by rewrite H.
        -- by injection H.
      * split; [done | intros (suffix & [= ? _]); congruence].
Qed.

Lemma startswith_spec (s p : string) :
  Py.startswith s p = true <-> Spec.starts_with s p.
Proof. apply prefix_starts_with. Qed.

Lemma app_cons_str (c : ascii) (a b : string) :
  String c a +:+ b = String c (a +:+ b).
Proof. reflexivity. Qed.

Lemma app_assoc_str (a b c : string) : (a +:+ b) +:+ c = a +:+ (b +:+ c).
Proof.
  induction a as [|x a IH]; [done|].
  by rewrite !app_cons_str, IH.
Qed.

Lemma contains_nil (t : string) : Py.contains "" t = String.prefix t "".
Proof. simpl. apply orb_false_r. Qed.

Lemma contains_cons (c : ascii) (s t : string) :
  Py.contains (String c s) t = String.prefix t (String c s) || Py.contains s t.
Proof. reflexivity. Qed.

Lemma contains_spec (s t : string) :
  Py.contains s t = true <-> Spec.substring_of t s.
Proof.
  unfold Spec.substring_of.
  induction s as [|c s IH].
  - rewrite contains_nil, prefix_starts_with. split.
    + intros (suffix & H). by exists "", suffix.
    + intros (before & after & H). exists after.
      destruct before; [done | discriminate].
  - rewrite contains_cons, orb_true_iff, IH, prefix_starts_with. split.
    + intros [(suffix & H) | (before & after & H)].
      * by exists "", suffix.
      * exists (String c before), after. by rewrite app_cons_str, H.
    + intros (before & after & H). destruct before as [|c' before].
      * left. by exists after.
      * right. injection H as _ H. by exists before, after.
Qed.

Lemma find_first_such {A} (f : A -> bool) (l : list A) (x : A) :
  List.find f l = Some x <->
  Spec.first_such (fun y => f y = true) l x.
Proof.
  unfold Spec.first_such. induction l as [|y l IH]; simpl.
  - split; [done | intros (before & after & H & _)].
    by destruct before.
  - destruct (f y) eqn:Hy.
    + split.
      * intros [= ->]. exists [], l. by repeat split.
      * intros (before & after & H & Hx & Hb).
        destruct before as [|z before]; simpl in H.
        -- by injection H as ->.
        -- injection H as -> _. inversion Hb; subst. congruence.
    + rewrite IH. split.
      * intros (before & after & -> & Hx & Hb).
        exists (y :: before), after. repeat split; [done|].
        constructor; [congruence | done].
      * intros (before & after & H & Hx & Hb).
        destruct before as [|z before]; simpl in H.
        -- injection H as -> _. congruence.
        -- injection H as -> ->. inversion Hb; subst.
           by exists before, after.
Qed.

Lemma find_none_forall {A} (f : A -> bool) (l : list A) :
  List.find f l = None <-> Forall (fun y => f y <> true) l.
Proof.
  induction l as [|y l IH]; simpl.
  - split; [constructor | done].
  - destruct (f y) eqn:Hy.
    + split; [done | intros H; inversion H; subst; congruence].
    + rewrite IH. split.
      * intros H. constructor; [congruence | done].
      * intros H. by inversion H.
Qed.

End PyFacts.

(** ** State derivation and snapshot matching *)

Module StateDeriverProps.
Import ProgressState StateDeriver.

Lemma snapshot_prefix_unfold (tag suffix : string) :
  snapshot_prefix tag +:+ suffix
  = "release-snapshot/" +:+ tag +:+ "-" +:+ suffix.
Proof. unfold snapshot_prefix. by rewrite !app_assoc_str. Qed.

Lemma find_matching_snapshot_some (branches : list string) (tag b : string) :
  tag <> "" ->
  find_matching_snapshot branches (Some tag) = Some b <->
  Spec.first_such (fun x => Spec.starts_with x (snapshot_prefix tag)) branches b.
Proof.
  intros Htag. unfold find_matching_snapshot.
  apply nonempty_true in Htag. rewrite Htag. simpl.
  rewrite find_first_such. unfold Spec.first_such.
  split; intros (before & after & -> & Hb & Hbefore);
    exists before, after; (split; [done|]); split.
  - by apply startswith_spec.
  - eapply Forall_impl; [exact Hbefore|]. intros y Hy H.
    by apply Hy, startswith_spec.
  - by apply startswith_spec.
  - eapply Forall_impl; [exact Hbefore|]. intros y Hy H.
    by apply Hy, startswith_spec.
Qed.

Lemma find_matching_snapshot_none (branches : list string) (tag : string) :
  tag <> "" ->
  find_matching_snapshot branches (Some tag) = None <->
  Forall (fun x => ~ Spec.starts_with x (snapshot_prefix tag)) branches.
Proof.
  intros Htag. unfold find_matching_snapshot.
  apply nonempty_true in Htag. rewrite Htag. simpl.
  rewrite find_none_forall.
  split; intros H; (eapply Forall_impl; [exact H|]); intros y Hy Hs;
    by apply Hy, startswith_spec.
Qed.

(** Whatever the matcher returns is a branch of the form
    [release-snapshot/{tag}-{suffix}] for the (non-empty) target tag. *)
Lemma find_matching_snapshot_shape (branches : list string)
    (target_tag : option string) (b : string) :
  find_matching_snapshot branches target_tag = Some b ->
  exists tag suffix,
    target_tag = Some tag /\ tag <> ""
    /\ b = "release-snapshot/" +:+ tag +:+ "-" +:+ suffix.
Proof.
  destruct target_tag as [tag|]; [|done].
  destruct (decide (tag = "")) as [->|Htag]; [done|].
  intros (before & after & _ & (suffix & ->) & _)%find_matching_snapshot_some;
    [|done].
  exists tag, suffix. by rewrite snapshot_prefix_unfold.
Qed.

Lemma find_matching_snapshot_truthy (branches : list string)
    (target_tag : option string) (b : string) :
  find_matching_snapshot branches target_tag = Some b ->
  Py.truthy (Some b) = true.
Proof.
  intros (tag & suffix & _ & _ & ->)%find_matching_snapshot_shape. done.
Qed.

Lemma has_matching_draft_spec (drafts : list DraftRelease.t) (tag : string) :
  tag <> "" ->
  _has_matching_draft drafts (Some tag) = true <->
  Exists (Spec.draft_mentions tag) drafts.
Proof.
  intros Htag. unfold _has_matching_draft.
  assert (Hfield : forall o : option string,
             Py.contains (Py.or_empty o) tag = true <->
             exists n, o = Some n /\ Spec.substring_of tag n).
  { intros [n|].
    - simpl. rewrite contains_spec. split; [eauto | by intros (? & [= ->] & ?)].
    - change (Py.or_empty None) with "". rewrite contains_nil.
      destruct tag; [done|]. simpl.
      split; [done | by intros (? & [=] & _)]. }
  destruct drafts as [|d drafts].
  { split; [done | intros H; inversion H]. }
  apply nonempty_true in Htag. rewrite Htag. simpl negb. cbv iota.
  rewrite existsb_exists. rewrite Exists_exists.
  split; intros (x & Hin & Hx); exists x;
    (split; [by apply list_elem_of_In|]).
  - apply orb_true_iff in Hx as [Hx|Hx]; apply Hfield in Hx; [by left | by right].
  - apply orb_true_iff. destruct Hx as [Hx|Hx]; apply Hfield in Hx; auto.
Qed.

(** C1, as amended. The decision list is evaluated in priority order:
    a release type that is null/absent, the empty string or the sentinel
    [none] yields [NOT_PLANNED] whatever the target tag, [tag_exists], the
    snapshot branches and the draft releases are; any other release type
    with [tag_exists] true yields [PUBLISHED] whatever the snapshot
    branches and the draft releases are. *)
Theorem derive_state_priority
    (release_type target_tag : option string) (tag_exists : bool)
    (snapshot_branches : list string) (draft_releases : list DraftRelease.t) :
  (release_type = None \/ release_type = Some "" \/ release_type = Some "none" ->
   derive_state release_type target_tag tag_exists
     snapshot_branches draft_releases = NOT_PLANNED)
  /\ (release_type <> None -> release_type <> Some "" ->
      release_type <> Some "none" -> tag_exists = true ->
      derive_state release_type target_tag tag_exists
        snapshot_branches draft_releases = PUBLISHED).
Proof.
  unfold derive_state. split.
  - intros [-> | [-> | ->]]; reflexivity.
  - intros Hnone Hempty Hsentinel ->.
    destruct (Py.truthy release_type) eqn:Ht.
    + destruct (Py.eqb release_type (Some "none")) eqn:He; [|done].
      by apply py_eqb_true in He.
    + apply truthy_false in Ht as [?|?]; done.
Qed.

Lemma derive_state_priority_witness :
  derive_state (Some "none") (Some "r4.1") true
    ["release-snapshot/r4.1-abc123"]
    [DraftRelease.mk (Some "r4.1 pre-release-rc") (Some "r4.1") None]
  = NOT_PLANNED
  /\ derive_state (Some "pre-release-rc") (Some "r4.1") true
       ["release-snapshot/r4.1-abc123"]
       [DraftRelease.mk (Some "r4.1 pre-release-rc") (Some "r4.1") None]
     = PUBLISHED.
Proof.
  split.
  - apply (proj1 (derive_state_priority (Some "none") (Some "r4.1") true
                    ["release-snapshot/r4.1-abc123"]
                    [DraftRelease.mk (Some "r4.1 pre-release-rc") (Some "r4.1") None])).
    right; right; reflexivity.
  - apply (proj2 (derive_state_priority (Some "pre-release-rc") (Some "r4.1") true
                    ["release-snapshot/r4.1-abc123"]
                    [DraftRelease.mk (Some "r4.1 pre-release-rc") (Some "r4.1") None]));
      [discriminate | discriminate | discriminate | reflexivity].
Defined.

(** C1 as stated fails: the empty string is a release type that is neither
    null nor [none], and with [tag_exists] true the result is
    [NOT_PLANNED], not [PUBLISHED]. *)
Lemma derive_state_empty_type_published_counterexample :
  Some "" <> (None : option string)
  /\ Some "" <> Some "none"
  /\ derive_state (Some "") (Some "r4.1") true [] [] = NOT_PLANNED
  /\ derive_state (Some "") (Some "r4.1") true [] [] <> PUBLISHED.
Proof. repeat split; discriminate. Qed.

(** C2, as amended. For a release type that is present, non-empty and not
    [none], and with [tag_exists] false: when the snapshot matcher finds a
    branch, the state is [DRAFT_READY] if some draft release has a [name]
    or [tag_name] containing the target tag as a substring and
    [SNAPSHOT_ACTIVE] otherwise; when no snapshot branch matches, the state
    is [PLANNED]. *)
Theorem derive_state_artifact_ladder
    (release_type target_tag : option string)
    (snapshot_branches : list string) (draft_releases : list DraftRelease.t) :
  release_type <> None -> release_type <> Some "" ->
  release_type <> Some "none" ->
  (forall branch,
      find_matching_snapshot snapshot_branches target_tag = Some branch ->
      exists tag,
        target_tag = Some tag
        /\ (Exists (Spec.draft_mentions tag) draft_releases ->
            derive_state release_type target_tag false
              snapshot_branches draft_releases = DRAFT_READY)
        /\ (~ Exists (Spec.draft_mentions tag) draft_releases ->
            derive_state release_type target_tag false
              snapshot_branches draft_releases = SNAPSHOT_ACTIVE))
  /\ (find_matching_snapshot snapshot_branches target_tag = None ->
      derive_state release_type target_tag false
        snapshot_branches draft_releases = PLANNED).
Proof.
  intros Hnone Hempty Hsentinel.
  assert (Hguard : negb (Py.truthy release_type)
                   || Py.eqb release_type (Some "none") = false).
  { apply orb_false_iff. split.
    - apply negb_false_iff.
      destruct (Py.truthy release_type) eqn:Ht; [done|].
      apply truthy_false in Ht as [?|?]; done.
    - by apply py_eqb_false. }
  unfold derive_state. rewrite Hguard. split.
  - intros branch Hfound.
    pose proof (find_matching_snapshot_truthy _ _ _ Hfound) as Htruthy.
    destruct (find_matching_snapshot_shape _ _ _ Hfound)
      as (tag & suffix & -> & Htag & _).
    exists tag. split; [done|].
    rewrite Hfound, Htruthy.
    split; intros Hdraft.
    + apply has_matching_draft_spec in Hdraft; [|done]. by rewrite Hdraft.
    + destruct (_has_matching_draft draft_releases (Some tag)) eqn:Hd; [|done].
      apply has_matching_draft_spec in Hd; done.
  - intros ->. reflexivity.
Qed.

Lemma derive_state_artifact_ladder_witness :
  derive_state (Some "pre-release-rc") (Some "r4.1") false
    ["release-snapshot/r4.1-abc123"]
    [DraftRelease.mk (Some "r4.1 pre-release-rc") (Some "r4.1") None]
  = DRAFT_READY
  /\ derive_state (Some "pre-release-rc") (Some "r4.1") false
       ["release-snapshot/r3.2-def456"]
       [DraftRelease.mk (Some "r4.1 pre-release-rc") (Some "r4.1") None]
     = PLANNED.
Proof.
  split.
  - destruct (proj1 (derive_state_artifact_ladder
                       (Some "pre-release-rc") (Some "r4.1")
                       ["release-snapshot/r4.1-abc123"]
                       [DraftRelease.mk (Some "r4.1 pre-release-rc")
                          (Some "r4.1") None]
                       ltac:(discriminate) ltac:(discriminate)
                       ltac:(discriminate))
                    "release-snapshot/r4.1-abc123" eq_refl)
      as (tag & Htag & Hdraft & _).
    apply Hdraft. injection Htag as <-.
    apply Exists_cons_hd. right. exists "r4.1". split; [reflexivity|].
    by exists "", "".
  - apply (proj2 (derive_state_artifact_ladder
                    (Some "pre-release-rc") (Some "r4.1")
                    ["release-snapshot/r3.2-def456"]
                    [DraftRelease.mk (Some "r4.1 pre-release-rc")
                       (Some "r4.1") None]
                    ltac:(discriminate) ltac:(discriminate)
                    ltac:(discriminate))).
    reflexivity.
Defined.

(** C2 as stated fails: the empty string is a release type other than
    [none]; the matcher finds the snapshot branch and no draft mentions the
    tag, yet the state is [NOT_PLANNED], not [SNAPSHOT_ACTIVE]. *)
Lemma derive_state_empty_type_ladder_counterexample :
  Some "" <> Some "none"
  /\ find_matching_snapshot ["release-snapshot/r4.1-abc123"] (Some "r4.1")
     = Some "release-snapshot/r4.1-abc123"
  /\ derive_state (Some "") (Some "r4.1") false
       ["release-snapshot/r4.1-abc123"] [] = NOT_PLANNED
  /\ derive_state (Some "") (Some "r4.1") false
       ["release-snapshot/r4.1-abc123"] [] <> SNAPSHOT_ACTIVE.
Proof. repeat split; discriminate. Qed.

Lemma app_inv_head_str (a x y : string) : a +:+ x = a +:+ y -> x = y.
Proof.
  induction a as [|c a IH]; [done|]. rewrite !app_cons_str.
  intros [= H]. by apply IH.
Qed.

(** A branch that continues the tag with a character other than the
    hyphen does not start with the prefix built from the tag. *)
Lemma other_boundary_no_match (tag rest : string) (c : ascii) :
  c <> "-"%char ->
  ~ Spec.starts_with ("release-snapshot/" +:+ tag +:+ String c rest)
      (snapshot_prefix tag).
Proof.
  intros Hc (suffix & H). unfold snapshot_prefix in H.
  rewrite !app_assoc_str in H.
  do 2 apply app_inv_head_str in H.
  rewrite app_cons_str in H. injection H as H _. done.
Qed.

(** C3, as amended. [find_matching_snapshot] returns null when the target
    tag is null/absent or the empty string. For any other tag it returns
    the first branch, in input order, whose name starts with the literal
    prefix [release-snapshot/{tag}-], and null when no branch does.
    Whatever it returns has the hyphen right after the tag: branches that
    continue the tag with any other character never match, so that [r4]
    does not match [release-snapshot/r4.2-xyz]; a branch that continues
    the tag with a hyphen does match, also when it belongs to a longer
    tag, so that [r4] matches [release-snapshot/r4-rc-abc123]. *)
Theorem find_matching_snapshot_first_match
    (branches : list string) (target_tag : option string) :
  (target_tag = None \/ target_tag = Some "" ->
   find_matching_snapshot branches target_tag = None)
  /\ (forall tag, target_tag = Some tag -> tag <> "" ->
      (forall branch,
          find_matching_snapshot branches target_tag = Some branch <->
          Spec.first_such
            (fun b => Spec.starts_with b ("release-snapshot/" +:+ tag +:+ "-"))
            branches branch)
      /\ (find_matching_snapshot branches target_tag = None <->
          Forall
            (fun b => ~ Spec.starts_with b ("release-snapshot/" +:+ tag +:+ "-"))
            branches))
  /\ (forall branch,
        find_matching_snapshot branches target_tag = Some branch ->
        exists tag suffix,
          target_tag = Some tag
          /\ branch = "release-snapshot/" +:+ tag +:+ "-" +:+ suffix)
  /\ (forall tag, target_tag = Some tag ->
      Forall
        (fun b => exists c rest,
                    c <> "-"%char
                    /\ b = "release-snapshot/" +:+ tag +:+ String c rest)
        branches ->
      find_matching_snapshot branches target_tag = None)
  /\ (forall tag rest, target_tag = Some tag -> tag <> "" ->
      find_matching_snapshot
        (("release-snapshot/" +:+ tag +:+ "-" +:+ rest) :: branches)
        target_tag
      = Some ("release-snapshot/" +:+ tag +:+ "-" +:+ rest)).
Proof.
  split; [intros [-> | ->]; reflexivity|].
  split.
  { intros tag -> Htag. split.
    - intros branch. by apply find_matching_snapshot_some.
    - by apply find_matching_snapshot_none. }
  split.
  { intros branch (tag & suffix & Htag & _ & Hb)%find_matching_snapshot_shape.
    by exists tag, suffix. }
  split.
  - intros tag -> Hall.
    destruct (decide (tag = "")) as [->|Htag]; [done|].
    apply find_matching_snapshot_none; [done|].
    eapply Forall_impl; [exact Hall|].
    intros b (c & rest & Hc & ->). by apply other_boundary_no_match.
  - intros tag rest -> Htag. unfold find_matching_snapshot.
    apply nonempty_true in Htag. rewrite Htag. cbn [negb List.find].
    assert (Hstart : Py.startswith
                       ("release-snapshot/" +:+ tag +:+ "-" +:+ rest)
                       (snapshot_prefix tag) = true).
    { apply startswith_spec. exists rest.
      by rewrite snapshot_prefix_unfold. }
    by rewrite Hstart.
Qed.

Lemma find_matching_snapshot_first_match_witness :
  find_matching_snapshot
    ["main"; "release-snapshot/r4.1-first"; "release-snapshot/r4.1-second"]
    None = None
  /\ Spec.first_such
       (fun b => Spec.starts_with b ("release-snapshot/" +:+ "r4.1" +:+ "-"))
       ["main"; "release-snapshot/r4.1-first"; "release-snapshot/r4.1-second"]
       "release-snapshot/r4.1-first".
Proof.
  split.
  - apply (proj1 (find_matching_snapshot_first_match
                    ["main"; "release-snapshot/r4.1-first";
                     "release-snapshot/r4.1-second"] None)).
    left; reflexivity.
  - apply (proj1 (proj2 (find_matching_snapshot_first_match
                           ["main"; "release-snapshot/r4.1-first";
                            "release-snapshot/r4.1-second"] (Some "r4.1")))
             "r4.1" eq_refl ltac:(discriminate)).
    reflexivity.
Defined.

(** C3 as stated fails twice. The empty string is a target tag that is
    not null, and the branch starts with the literal prefix built from it,
    yet the matcher returns null. And a tag that is a prefix of another
    tag does match a branch of that tag when the longer tag goes on with a
    hyphen: [r4] is a prefix of [r4-rc], and the branch of [r4-rc] is
    returned for the target [r4]. *)
Lemma find_matching_snapshot_empty_tag_counterexample :
  Some "" <> (None : option string)
  /\ Py.startswith "release-snapshot/-x" ("release-snapshot/" +:+ "" +:+ "-")
     = true
  /\ find_matching_snapshot ["release-snapshot/-x"] (Some "") = None
  /\ "r4-rc" = "r4" +:+ "-rc"
  /\ find_matching_snapshot ["release-snapshot/r4-rc-abc123"] (Some "r4")
     = Some ("release-snapshot/" +:+ "r4-rc" +:+ "-" +:+ "abc123").
Proof. repeat split; discriminate. Qed.

End StateDeriverProps.

(** ** The stable sort by key *)

Section StableSort.
Import MilestoneDeriver.

Context {A : Type} (key : A -> string).

Lemma leb_refl (s : string) : String.leb s s = true.
Proof.
  pose proof (reflexivity (R := String.le) s) as H.
  unfold String.le in H. by apply Is_true_true.
Qed.

Lemma leb_trans (a b c : string) :
  String.leb a b = true -> String.leb b c = true -> String.leb a c = true.
Proof.
  intros H1 H2. apply Is_true_true.
  apply (transitivity (R := String.le) (y := b)); by apply Is_true_true.
Qed.

Lemma leb_false_ltb (a b : string) :
  String.leb a b = false -> String.ltb b a = true.
Proof.
  unfold String.leb, String.ltb. rewrite (String.compare_antisym a b).
  by destruct (String.compare b a).
Qed.

Lemma ltb_leb (a b : string) : String.ltb a b = true -> String.leb a b = true.
Proof. unfold String.leb, String.ltb. by destruct (String.compare a b). Qed.


Lemma leb_false_neq (a b : string) : String.leb a b = false -> a <> b.
Proof. intros H ->. by rewrite leb_refl in H. Qed.



Lemma insert_by_key_perm (x : A) (l : list A) :
  Permutation (x :: l) (insert_by_key key x l).
Proof.
  induction l as [|y l IH]; simpl; [done|].
  destruct (String.leb (key x) (key y)); [done|].
  rewrite perm_swap. by constructor.
Qed.

Lemma sort_by_key_perm (l : list A) : Permutation l (sort_by_key key l).
Proof.
  induction l as [|x l IH]; simpl; [done|].
  rewrite <- insert_by_key_perm. by constructor.
Qed.

Lemma insert_by_key_Forall (P : A -> Prop) (x : A) (l : list A) :
  P x -> Forall P l -> Forall P (insert_by_key key x l).
Proof.
  intros Hx Hl. eapply Permutation_Forall; [apply insert_by_key_perm|].
  by constructor.
Qed.

Lemma insert_by_key_sorted (x : A) (l : list A) :
  StronglySorted (Spec.key_le key) l ->
  StronglySorted (Spec.key_le key) (insert_by_key key x l).
Proof.
  induction 1 as [|y l Hl IH Hy]; simpl.
  - repeat constructor.
  - destruct (String.leb (key x) (key y)) eqn:Hxy.
    + constructor; [by constructor|].
      constructor; [done|].
      eapply Forall_impl; [exact Hy|].
      intros z Hz. by eapply leb_trans.
    + constructor; [done|].
      apply insert_by_key_Forall; [|done].
      by apply ltb_leb, leb_false_ltb.
Qed.

Lemma sort_by_key_sorted (l : list A) :
  StronglySorted (Spec.key_le key) (sort_by_key key l).
Proof.
  induction l as [|x l IH]; simpl; [constructor|].
  by apply insert_by_key_sorted.
Qed.

(** Insertion never moves an element past one of the same key. *)
Lemma insert_by_key_filter (k : string) (x : A) (l : list A) :
  List.filter (fun y => String.eqb (key y) k) (insert_by_key key x l)
  = List.filter (fun y => String.eqb (key y) k) (x :: l).
Proof.
  induction l as [|y l IH]; [done|].
  cbn [insert_by_key].
  destruct (String.leb (key x) (key y)) eqn:Hxy; [done|].
  cbn [List.filter] in *. rewrite IH.
  destruct (String.eqb (key x) k) eqn:Hx; [|done].
  destruct (String.eqb (key y) k) eqn:Hy; [|done].
  apply String.eqb_eq in Hx, Hy. apply leb_false_neq in Hxy. congruence.
Qed.

Lemma sort_by_key_stable (k : string) (l : list A) :
  List.filter (fun y => String.eqb (key y) k) (sort_by_key key l)
  = List.filter (fun y => String.eqb (key y) k) l.
Proof.
  induction l as [|x l IH]; [done|].
  cbn [sort_by_key]. rewrite insert_by_key_filter.
  cbn [List.filter]. by rewrite IH.
Qed.

Lemma sort_by_key_spec (l : list A) :
  Spec.stable_sort_of key l (sort_by_key key l).
Proof.
  split; [apply sort_by_key_perm|].
  split; [apply sort_by_key_sorted|].
  intros k. apply sort_by_key_stable.
Qed.

Lemma sort_by_key_nil (l : list A) : sort_by_key key l = [] -> l = [].
Proof.
  intros H. pose proof (sort_by_key_perm l) as Hp. rewrite H in Hp.
  by apply Permutation_nil_r in Hp.
Qed.

(** The head of the sorted list is the earliest element of the input. *)
Lemma sort_by_key_head (l : list A) (chosen : A) (rest : list A) :
  sort_by_key key l = chosen :: rest -> Spec.earliest key l chosen.
Proof.
  revert chosen rest. induction l as [|x l IH]; intros chosen rest; [done|].
  cbn [sort_by_key]. destruct (sort_by_key key l) as [|y r] eqn:Hs.
  - apply sort_by_key_nil in Hs as ->. intros [= <- _].
    exists [], []. by repeat split.
  - specialize (IH y r eq_refl) as (before & after & -> & Hb & Ha).
    cbn [insert_by_key].
    destruct (String.leb (key x) (key y)) eqn:Hxy; intros [= <- _].
    + exists [], (before ++ y :: after)%list. repeat split; [constructor|].
      apply Forall_app. split; [|constructor; [done|]].
      * eapply Forall_impl; [exact Hb|]. intros z Hz.
        eapply leb_trans; [exact Hxy | by apply ltb_leb].
      * eapply Forall_impl; [exact Ha|]. intros z Hz.
        by eapply leb_trans.
    + exists (x :: before), after. repeat split; [|done].
      constructor; [|done]. by apply leb_false_ltb.
Qed.


End StableSort.

(** ** Per-API maps built from a release *)

Section ReleaseMaps.

Context {V : Type} (f : ReleaseApi.t -> V).

Lemma record_step_lookup (versions : gmap string V) (api : ReleaseApi.t)
    (name : string) :
  Spec.record_step f versions api !! name
  = if Py.nonempty name && bool_decide (ReleaseApi.api_name api = Some name)
    then Some (f api)
    else versions !! name.
Proof.
  unfold Spec.record_step.
  destruct (ReleaseApi.api_name api) as [n|] eqn:Hn.
  - destruct (decide (n = name)) as [->|Hne].
    + rewrite bool_decide_eq_true_2 by done.
      destruct (Py.nonempty name); simpl; [apply lookup_insert_eq | done].
    + rewrite bool_decide_eq_false_2 by congruence. rewrite andb_false_r.
      destruct (Py.nonempty n); [by apply lookup_insert_ne | done].
  - rewrite bool_decide_eq_false_2 by done. by rewrite andb_false_r.
Qed.

Lemma record_fold_lookup (apis : list ReleaseApi.t)
    (versions : gmap string V) (name : string) :
  foldl (Spec.record_step f) versions apis !! name
  = if Py.nonempty name then
      match Spec.record_of apis name with
      | Some api => Some (f api)
      | None => versions !! name
      end
    else versions !! name.
Proof.
  revert versions. induction apis as [|api apis IH]; intros versions.
  - simpl. by destruct (Py.nonempty name).
  - cbn [foldl Spec.record_of]. rewrite IH, record_step_lookup.
    destruct (Py.nonempty name); [|done]. simpl.
    destruct (Spec.record_of apis name); [done|].
    by destruct (bool_decide (ReleaseApi.api_name api = Some name)).
Qed.

End ReleaseMaps.

(** ** Milestone derivation *)

Module MilestoneDeriverProps.
Import MilestoneDeriver.

Lemma get_version_spec (r : Release.t) (name : string) :
  get_version (release_api_versions r) name = Spec.version_in r name.
Proof.
  unfold get_version, Spec.version_in, release_api_versions.
  change (foldl _ ∅ (Release.apis r))
    with (foldl (Spec.record_step ReleaseApi.api_version) ∅ (Release.apis r)).
  rewrite record_fold_lookup, lookup_empty.
  destruct (Py.nonempty name); [|done].
  by destruct (Spec.record_of (Release.apis r) name).
Qed.

Lemma filter_filter {A} (f g : A -> bool) (l : list A) :
  List.filter f (List.filter g l) = List.filter (fun x => g x && f x) l.
Proof.
  induction l as [|x l IH]; [done|]. cbn [List.filter].
  destruct (g x); cbn [List.filter andb]; by rewrite IH.
Qed.

(** The candidates the code selects in two steps are the specification's. *)
Lemma candidates_spec (repo cycle kind : string) (all_releases : list Release.t) :
  List.filter
    (fun r => Py.eqb (Release.release_type r) (Some kind))
    (List.filter
       (fun r => Py.eqb (Release.repository r) (Some repo)
                 && Py.eqb (Release.meta_release r) (Some cycle))
       all_releases)
  = Spec.candidates repo cycle kind all_releases.
Proof.
  rewrite filter_filter. unfold Spec.candidates, Spec.in_cycle, Py.eqb.
  apply List.filter_ext. intros r. by rewrite !bool_decide_and.
Qed.

Lemma cycle_filter_nil (repo cycle : string) (all_releases : list Release.t) :
  Forall (fun r => ~ Spec.in_cycle repo cycle r) all_releases ->
  List.filter
    (fun r => Py.eqb (Release.repository r) (Some repo)
              && Py.eqb (Release.meta_release r) (Some cycle))
    all_releases = [].
Proof.
  induction 1 as [|r l Hr _ IH]; [done|]. cbn [List.filter].
  rewrite IH. unfold Py.eqb. rewrite <- bool_decide_and.
  by rewrite bool_decide_eq_false_2.
Qed.

Lemma candidates_nil (repo cycle kind : string) (all_releases : list Release.t) :
  Forall (fun r => ~ Spec.in_cycle repo cycle r) all_releases ->
  Spec.candidates repo cycle kind all_releases = [].
Proof.
  intros H. rewrite <- candidates_spec. by rewrite cycle_filter_nil.
Qed.

Lemma empty_milestone_unachieved (planned_apis : list string) :
  Spec.unachieved planned_apis (_empty_milestone planned_apis).
Proof. by repeat split. Qed.

(** *** Sorting by date *)

Lemma sort_by_key_ext {A} (key key' : A -> string) (l : list A) :
  Forall (fun x => key x = key' x) l ->
  sort_by_key key l = sort_by_key key' l.
Proof.
  induction 1 as [|x l Hx Hl IH]; [done|]. cbn [sort_by_key]. rewrite IH.
  assert (Hs : Forall (fun x => key x = key' x) (sort_by_key key' l)).
  { eapply Permutation_Forall; [apply sort_by_key_perm | done]. }
  clear IH. revert Hs. generalize (sort_by_key key' l). intros s Hs.
  induction Hs as [|y s Hy Hs IHs]; [done|]. cbn [insert_by_key].
  by rewrite Hx, Hy, IHs.
Qed.

Lemma date_key_null (r : Release.t) :
  Py.is_str (date_key r) = false <-> Release.release_date r = Null.
Proof. unfold date_key. by destruct (Release.release_date r). Qed.

Lemma date_key_string (r : Release.t) :
  Release.release_date r <> Null ->
  date_key r = Some (Spec.sort_date r).
Proof. unfold date_key, Spec.sort_date. by destruct (Release.release_date r). Qed.

Lemma all_dated (l : list Release.t) :
  forallb (fun r => Py.is_str (date_key r)) l = true
  <-> Forall (fun r => Release.release_date r <> Null) l.
Proof.
  rewrite forallb_forall, Forall_forall. split; intros H r Hr.
  - apply list_elem_of_In, H in Hr. intros Hnull%date_key_null. congruence.
  - apply list_elem_of_In, H in Hr.
    destruct (Py.is_str (date_key r)) eqn:Hk; [done|].
    by apply date_key_null in Hk.
Qed.

(** The sort returns when the candidates are sortable, and then it is the
    stable sort by date; it raises when they are not. *)
Lemma list_sort_sortable (l : list Release.t) :
  Spec.sortable l ->
  list_sort date_key l = Ok (sort_by_key Spec.sort_date l).
Proof.
  intros Hl. unfold list_sort.
  destruct l as [|x [|y l]]; [done | done |].
  destruct Hl as [Hlen | Hdated]; [cbn in Hlen; lia|].
  rewrite (proj2 (all_dated _) Hdated). f_equal.
  apply sort_by_key_ext. eapply Forall_impl; [exact Hdated|].
  intros r Hr. by rewrite date_key_string.
Qed.

Lemma list_sort_unsortable (l : list Release.t) :
  ~ Spec.sortable l -> list_sort date_key l = Failure.
Proof.
  intros Hl. unfold list_sort.
  destruct l as [|x [|y l]].
  - destruct Hl. left. cbn. lia.
  - destruct Hl. left. cbn. lia.
  - destruct (forallb _ _) eqn:Hall; [|done].
    destruct Hl. right. by apply all_dated.
Qed.

(** What [_find_earliest_by_type] returns, in the specification's terms,
    and when it raises. *)
Lemma find_earliest_by_type_spec
    (cycle_releases : list Release.t) (kind : string)
    (planned_apis : list string) :
  Spec.sortable
    (List.filter (fun r => Py.eqb (Release.release_type r) (Some kind))
       cycle_releases) ->
  exists m,
    _find_earliest_by_type cycle_releases kind planned_apis = Ok m
    /\ Spec.milestone_of
         (List.filter (fun r => Py.eqb (Release.release_type r) (Some kind))
            cycle_releases)
         planned_apis m.
Proof.
  unfold _find_earliest_by_type, Spec.milestone_of.
  set (matching := List.filter _ cycle_releases).
  intros Hsortable.
  destruct matching as [|r0 matching'] eqn:Hm.
  { eexists. split; [done|]. left.
    split; [done | apply empty_milestone_unachieved]. }
  rewrite <- Hm in *. rewrite (list_sort_sortable _ Hsortable).
  unfold mbind, outcome_bind.
  destruct (sort_by_key Spec.sort_date matching) as [|chosen rest] eqn:Hs.
  { apply sort_by_key_nil in Hs. congruence. }
  eexists. split; [done|]. right.
  exists chosen, rest. split; [|split].
  - rewrite <- Hs. apply sort_by_key_spec.
  - by eapply sort_by_key_head.
  - repeat split. cbn [MilestoneRelease.apis].
    apply map_ext. intros name. by rewrite get_version_spec.
Qed.

Lemma find_earliest_by_type_raises
    (cycle_releases : list Release.t) (kind : string)
    (planned_apis : list string) :
  ~ Spec.sortable
      (List.filter (fun r => Py.eqb (Release.release_type r) (Some kind))
         cycle_releases) ->
  _find_earliest_by_type cycle_releases kind planned_apis = Failure.
Proof.
  unfold _find_earliest_by_type.
  set (matching := List.filter _ cycle_releases).
  intros Hnot. rewrite (list_sort_unsortable _ Hnot).
  destruct matching; [|done].
  destruct Hnot. left. cbn. lia.
Qed.

Lemma sortable_dec (l : list Release.t) :
  Spec.sortable l \/ ~ Spec.sortable l.
Proof.
  unfold Spec.sortable.
  destruct (forallb (fun r => Py.is_str (date_key r)) l) eqn:Hall.
  - left. right. by apply all_dated.
  - destruct (decide (length l < 2)) as [Hlen|Hlen]; [by left; left|].
    right. intros [H|H]; [done|]. apply all_dated in H. congruence.
Qed.

(** C4, as amended. Take a call with a cycle identifier that is neither
    null nor empty. When, for each milestone kind, the candidates are
    fewer than two or none of them has a null [release_date], the call
    returns, with the three milestones present. If no release matches both
    the repository and the cycle, each is in the unachieved shape. In
    every case, each milestone is derived from the candidates of exactly
    its [release_type]: unachieved when there is none; otherwise the
    candidates are sorted ascending by [release_date] (an absent date
    sorts as the empty string) with ties in input order, the first is
    taken, and the milestone carries its tag and date and one entry per
    planned API, holding the version the release records for that name
    (its last record), or null when the name is empty or unrecorded. When
    some kind has two or more candidates of which one has a null
    [release_date], the sort, and with it the call, raises. *)
Theorem derive_cycle_releases_milestones
    (repo_name cycle : string) (all_releases : list Release.t)
    (planned_apis : list string) :
  cycle <> "" ->
  (Spec.sortable
     (Spec.candidates repo_name cycle "pre-release-alpha" all_releases)
   /\ Spec.sortable
        (Spec.candidates repo_name cycle "pre-release-rc" all_releases)
   /\ Spec.sortable
        (Spec.candidates repo_name cycle "public-release" all_releases) ->
   exists m1 m3 m4,
     derive_cycle_releases repo_name (Some cycle) all_releases planned_apis
     = Ok (CycleReleases.mk (Some m1) (Some m3) (Some m4))
     /\ Spec.milestone_of
          (Spec.candidates repo_name cycle "pre-release-alpha" all_releases)
          planned_apis m1
     /\ Spec.milestone_of
          (Spec.candidates repo_name cycle "pre-release-rc" all_releases)
          planned_apis m3
     /\ Spec.milestone_of
          (Spec.candidates repo_name cycle "public-release" all_releases)
          planned_apis m4
     /\ (Forall (fun r => ~ Spec.in_cycle repo_name cycle r) all_releases ->
         Spec.unachieved planned_apis m1
         /\ Spec.unachieved planned_apis m3
         /\ Spec.unachieved planned_apis m4))
  /\ (~ (Spec.sortable
           (Spec.candidates repo_name cycle "pre-release-alpha" all_releases)
         /\ Spec.sortable
              (Spec.candidates repo_name cycle "pre-release-rc" all_releases)
         /\ Spec.sortable
              (Spec.candidates repo_name cycle "public-release" all_releases)) ->
      derive_cycle_releases repo_name (Some cycle) all_releases planned_apis
      = Failure).
Proof.
  intros Hcycle. unfold derive_cycle_releases.
  apply nonempty_true in Hcycle. cbn [Py.truthy]. rewrite Hcycle. cbn [negb].
  set (cycle_releases := List.filter _ all_releases).
  destruct cycle_releases as [|r0 rest] eqn:Hc.
  - assert (Hnil : forall kind,
               Spec.candidates repo_name cycle kind all_releases = []).
    { intros kind. rewrite <- candidates_spec.
      fold cycle_releases. by rewrite Hc. }
    rewrite !Hnil. split.
    + intros _. eexists _, _, _. split; [reflexivity|].
      repeat split; try (left; split; [done|]);
        apply empty_milestone_unachieved.
    + intros Hnot. destruct Hnot. repeat split; left; cbn; lia.
  - rewrite <- Hc. rewrite <- !candidates_spec. fold cycle_releases.
    unfold mbind, outcome_bind. split.
    + intros (Ha & Hrc & Hp).
      destruct (find_earliest_by_type_spec cycle_releases "pre-release-alpha"
                  planned_apis Ha) as (m1 & -> & H1).
      destruct (find_earliest_by_type_spec cycle_releases "pre-release-rc"
                  planned_apis Hrc) as (m3 & -> & H3).
      destruct (find_earliest_by_type_spec cycle_releases "public-release"
                  planned_apis Hp) as (m4 & -> & H4).
      exists m1, m3, m4. split; [reflexivity|].
      do 3 (split; [done|]).
      intros Hnone%cycle_filter_nil. fold cycle_releases in Hnone. congruence.
    + intros Hnot.
      destruct (sortable_dec
                  (List.filter
                     (fun r => Py.eqb (Release.release_type r)
                                 (Some "pre-release-alpha")) cycle_releases))
        as [Ha|Ha]; [|by rewrite (find_earliest_by_type_raises _ _ _ Ha)].
      destruct (find_earliest_by_type_spec cycle_releases "pre-release-alpha"
                  planned_apis Ha) as (m1 & -> & _).
      destruct (sortable_dec
                  (List.filter
                     (fun r => Py.eqb (Release.release_type r)
                                 (Some "pre-release-rc")) cycle_releases))
        as [Hrc|Hrc]; [|by rewrite (find_earliest_by_type_raises _ _ _ Hrc)].
      destruct (find_earliest_by_type_spec cycle_releases "pre-release-rc"
                  planned_apis Hrc) as (m3 & -> & _).
      destruct (sortable_dec
                  (List.filter
                     (fun r => Py.eqb (Release.release_type r)
                                 (Some "public-release")) cycle_releases))
        as [Hp|Hp]; [|by rewrite (find_earliest_by_type_raises _ _ _ Hp)].
      by destruct Hnot.
Qed.

Lemma derive_cycle_releases_milestones_witness :
  exists m1 m3 m4,
    derive_cycle_releases "QualityOnDemand" (Some "Sync26")
      Fixtures.SAMPLE_RELEASES ["quality-on-demand"]
    = Ok (CycleReleases.mk (Some m1) (Some m3) (Some m4))
    /\ Spec.milestone_of
         (Spec.candidates "QualityOnDemand" "Sync26" "pre-release-alpha"
            Fixtures.SAMPLE_RELEASES)
         ["quality-on-demand"] m1
    /\ Spec.milestone_of
         (Spec.candidates "QualityOnDemand" "Sync26" "pre-release-rc"
            Fixtures.SAMPLE_RELEASES)
         ["quality-on-demand"] m3
    /\ Spec.milestone_of
         (Spec.candidates "QualityOnDemand" "Sync26" "public-release"
            Fixtures.SAMPLE_RELEASES)
         ["quality-on-demand"] m4
    /\ (Forall (fun r => ~ Spec.in_cycle "QualityOnDemand" "Sync26" r)
          Fixtures.SAMPLE_RELEASES ->
        Spec.unachieved ["quality-on-demand"] m1
        /\ Spec.unachieved ["quality-on-demand"] m3
        /\ Spec.unachieved ["quality-on-demand"] m4).
Proof.
  apply (proj1 (derive_cycle_releases_milestones "QualityOnDemand" "Sync26"
                  Fixtures.SAMPLE_RELEASES ["quality-on-demand"]
                  ltac:(discriminate))).
  repeat split; left; vm_compute; lia.
Defined.

(** C4 as stated fails three times. The empty string is a cycle identifier
    that is not null, no release matches it, and the result has no
    milestone at all instead of three unachieved ones. A planned API whose
    name is the empty string maps to null although the chosen release
    records a version under that name. And with two candidates of one
    kind, one of them with a null [release_date], nothing is returned: the
    sort raises. *)
Lemma derive_cycle_releases_empty_cycle_counterexample :
  Some "" <> (None : option string)
  /\ derive_cycle_releases "NewRepo" (Some "") [] ["new-api"]
     = Ok (CycleReleases.mk None None None)
  /\ derive_cycle_releases "Repo" (Some "Sync26")
       [Fixtures.release "Repo" "r1.1" "2026-01-01T00:00:00Z" "Sync26"
          "pre-release-alpha" [("", "1.0.0")]]
       [""]
     = Ok (CycleReleases.mk
             (Some (MilestoneRelease.mk (Some "r1.1")
                      (Some "2026-01-01T00:00:00Z")
                      [CycleReleaseApi.mk "" None]))
             (Some (MilestoneRelease.mk None None [CycleReleaseApi.mk "" None]))
             (Some (MilestoneRelease.mk None None [CycleReleaseApi.mk "" None])))
  /\ derive_cycle_releases "Repo" (Some "Sync26")
       [Release.mk (Some "Repo") (Some "r1.0") Null (Some "Sync26")
          (Some "pre-release-alpha") [];
        Fixtures.release "Repo" "r1.1" "2026-01-01T00:00:00Z" "Sync26"
          "pre-release-alpha" []]
       []
     = Failure.
Proof. split; [discriminate|]. repeat split; vm_compute; reflexivity. Qed.




(** *** Cycle summaries *)

Lemma achieved_spec (m : option MilestoneRelease.t) :
  achieved m = Spec.achieved_count m.
Proof.
  destruct m as [m|]; [|done]. unfold achieved, Spec.achieved_count.
  by destruct (MilestoneRelease.release_tag m) as [[|c tag]|].
Qed.

Lemma add_entry_lookup (summaries : gmap string summary)
    (e : ProgressEntry.t) (c : string) :
  add_entry summaries e !! c
  = if Py.nonempty c && bool_decide (ProgressEntry.meta_release e = Some c)
    then Some (Spec.add_counts
                 (match summaries !! c with
                  | Some s => s
                  | None => zero_summary
                  end) e)
    else summaries !! c.
Proof.
  unfold add_entry.
  destruct (ProgressEntry.meta_release e) as [mr|] eqn:Hmr.
  - destruct (decide (mr = c)) as [->|Hne].
    + rewrite bool_decide_eq_true_2 by done.
      destruct (Py.nonempty c); [|done]. cbn [negb andb].
      rewrite lookup_insert_eq. unfold Spec.add_counts.
      by rewrite !achieved_spec.
    + rewrite bool_decide_eq_false_2 by congruence. rewrite andb_false_r.
      destruct (Py.nonempty mr); cbn [negb]; [by apply lookup_insert_ne | done].
  - rewrite bool_decide_eq_false_2 by done. by rewrite andb_false_r.
Qed.

Lemma add_entries_lookup (entries : list ProgressEntry.t)
    (summaries : gmap string summary) (c : string) :
  foldl add_entry summaries entries !! c
  = if Py.nonempty c then
      match Spec.cycle_entries c entries with
      | [] => summaries !! c
      | _ :: _ =>
          Some (foldl Spec.add_counts
                  (match summaries !! c with
                   | Some s => s
                   | None => zero_summary
                   end)
                  (Spec.cycle_entries c entries))
      end
    else summaries !! c.
Proof.
  revert summaries. induction entries as [|e entries IH]; intros summaries.
  - simpl. by destruct (Py.nonempty c).
  - cbn [foldl]. rewrite IH, add_entry_lookup.
    unfold Spec.cycle_entries. cbn [List.filter].
    destruct (Py.nonempty c); [|done]. cbn [andb].
    destruct (bool_decide (ProgressEntry.meta_release e = Some c)); [|done].
    cbn [foldl]. by destruct (List.filter _ entries).
Qed.

Lemma add_counts_sums (es : list ProgressEntry.t) (s : summary) :
  foldl Spec.add_counts s es
  = mk_summary
      (total_apis s
       + Spec.sum_over (fun e => length (ProgressEntry.apis e)) es)
      (m1_achieved s
       + Spec.sum_over
           (fun e => Spec.achieved_count
                       (CycleReleases.m1 (ProgressEntry.cycle_releases e))) es)
      (m3_achieved s
       + Spec.sum_over
           (fun e => Spec.achieved_count
                       (CycleReleases.m3 (ProgressEntry.cycle_releases e))) es)
      (m4_achieved s
       + Spec.sum_over
           (fun e => Spec.achieved_count
                       (CycleReleases.m4 (ProgressEntry.cycle_releases e))) es).
Proof.
  revert s. induction es as [|e es IH]; intros s.
  - destruct s. unfold Spec.sum_over. simpl. f_equal; lia.
  - cbn [foldl]. rewrite IH. unfold Spec.sum_over, Spec.add_counts.
    simpl. f_equal; lia.
Qed.

Lemma build_lookup (entries : list ProgressEntry.t) (c : string) :
  build_meta_release_summaries entries !! c
  = if Py.nonempty c then
      match Spec.cycle_entries c entries with
      | [] => None
      | _ :: _ => Some (Spec.cycle_summary c entries)
      end
    else None.
Proof.
  unfold build_meta_release_summaries.
  rewrite add_entries_lookup, lookup_empty.
  destruct (Py.nonempty c); [|done].
  destruct (Spec.cycle_entries c entries) eqn:Hc; [done|].
  rewrite <- Hc, add_counts_sums. by unfold Spec.cycle_summary.
Qed.

Lemma cycle_entries_nonempty (c : string) (entries : list ProgressEntry.t) :
  Spec.cycle_entries c entries <> [] <->
  Exists (fun e => ProgressEntry.meta_release e = Some c) entries.
Proof.
  unfold Spec.cycle_entries. induction entries as [|e entries IH].
  - split; [done | intros H; inversion H].
  - cbn [List.filter]. case_bool_decide as He.
    + split; [by left | done].
    + rewrite IH. split; [by right | intros H; by inversion H].
Qed.

Lemma filter_perm {A} (f : A -> bool) (l l' : list A) :
  Permutation l l' -> Permutation (List.filter f l) (List.filter f l').
Proof.
  induction 1 as [|x l l' _ IH|x y l|l l' l'' _ IH1 _ IH2]; cbn [List.filter].
  - done.
  - destruct (f x); [by constructor | done].
  - destruct (f x), (f y); try done. apply perm_swap.
  - by etransitivity.
Qed.

Lemma sum_over_perm {A} (f : A -> nat) (l l' : list A) :
  Permutation l l' -> Spec.sum_over f l = Spec.sum_over f l'.
Proof.
  unfold Spec.sum_over.
  induction 1 as [|x l l' _ IH|x y l|l l' l'' _ IH1 _ IH2]; simpl; lia.
Qed.

Lemma cycle_summary_perm (c : string) (entries entries' : list ProgressEntry.t) :
  Permutation entries entries' ->
  Spec.cycle_summary c entries = Spec.cycle_summary c entries'.
Proof.
  intros Hp. unfold Spec.cycle_summary.
  pose proof (filter_perm
                (fun e => bool_decide (ProgressEntry.meta_release e = Some c))
                _ _ Hp) as Hf.
  fold (Spec.cycle_entries c entries) in Hf.
  fold (Spec.cycle_entries c entries') in Hf.
  f_equal; by apply sum_over_perm.
Qed.

Lemma build_perm (entries entries' : list ProgressEntry.t) :
  Permutation entries entries' ->
  build_meta_release_summaries entries = build_meta_release_summaries entries'.
Proof.
  intros Hp. apply map_eq. intros c. rewrite !build_lookup.
  destruct (Py.nonempty c); [|done].
  rewrite (cycle_summary_perm c _ _ Hp).
  pose proof (filter_perm
                (fun e => bool_decide (ProgressEntry.meta_release e = Some c))
                _ _ Hp) as Hf.
  fold (Spec.cycle_entries c entries) in Hf.
  fold (Spec.cycle_entries c entries') in Hf.
  destruct (Spec.cycle_entries c entries), (Spec.cycle_entries c entries');
    try done.
  - by apply Permutation_nil_cons in Hf.
  - symmetry in Hf. by apply Permutation_nil_cons in Hf.
Qed.

(** C7, as amended. The summaries are the specified sums: a cycle has a
    summary exactly when its identifier is not empty and some entry carries
    it, and its counters are sums over the entries of the cycle: the length
    of the planned API list for [total_apis] and, for each milestone that
    is present with a tag that is neither null nor empty, the number of its
    API entries whose version is neither null nor empty. Entries without a
    cycle identifier, or with the empty one, add to no summary. The result
    is the same for every permutation of the entry list, and the same on
    every call. *)
Theorem build_meta_release_summaries_sums (entries : list ProgressEntry.t) :
  (forall c s,
      build_meta_release_summaries entries !! c = Some s <->
      c <> ""
      /\ Exists (fun e => ProgressEntry.meta_release e = Some c) entries
      /\ s = Spec.cycle_summary c entries)
  /\ (forall entries',
        Permutation entries entries' ->
        build_meta_release_summaries entries'
        = build_meta_release_summaries entries)
  /\ build_meta_release_summaries entries
     = build_meta_release_summaries entries.
Proof.
  split; [|split; [|reflexivity]].
  - intros c s. rewrite build_lookup, <- cycle_entries_nonempty.
    destruct (Py.nonempty c) eqn:Hc.
    + apply nonempty_true in Hc.
      destruct (Spec.cycle_entries c entries) eqn:He.
      * split; [done | by intros (_ & ? & _)].
      * split; [by intros [= <-] | by intros (_ & _ & ->)].
    + apply nonempty_false in Hc. split; [done | by intros (? & _)].
  - intros entries' Hp. symmetry. by apply build_perm.
Qed.

Lemma build_meta_release_summaries_sums_witness :
  build_meta_release_summaries
    [Fixtures.cycle_entry "RepoA" (Some "Sync26")
       [ApiEntry.mk "api-a" "1.0.0" "rc" []]
       (CycleReleases.mk
          (Some (MilestoneRelease.mk (Some "r1.1") (Some "2026-01-01T00:00:00Z")
                   [CycleReleaseApi.mk "api-a" (Some "1.0.0-alpha.1")]))
          None None);
     Fixtures.cycle_entry "RepoB" (Some "Sync26")
       [ApiEntry.mk "api-b" "2.0.0" "alpha" [];
        ApiEntry.mk "api-c" "1.0.0" "alpha" []]
       CycleReleases.default]
    !! "Sync26"
  = Some (mk_summary 3 1 0 0)
  /\ build_meta_release_summaries
       [Fixtures.cycle_entry "RepoB" (Some "Sync26")
          [ApiEntry.mk "api-b" "2.0.0" "alpha" [];
           ApiEntry.mk "api-c" "1.0.0" "alpha" []]
          CycleReleases.default;
        Fixtures.cycle_entry "RepoA" (Some "Sync26")
          [ApiEntry.mk "api-a" "1.0.0" "rc" []]
          (CycleReleases.mk
             (Some (MilestoneRelease.mk (Some "r1.1")
                      (Some "2026-01-01T00:00:00Z")
                      [CycleReleaseApi.mk "api-a" (Some "1.0.0-alpha.1")]))
             None None)]
     = build_meta_release_summaries
         [Fixtures.cycle_entry "RepoA" (Some "Sync26")
            [ApiEntry.mk "api-a" "1.0.0" "rc" []]
            (CycleReleases.mk
               (Some (MilestoneRelease.mk (Some "r1.1")
                        (Some "2026-01-01T00:00:00Z")
                        [CycleReleaseApi.mk "api-a" (Some "1.0.0-alpha.1")]))
               None None);
          Fixtures.cycle_entry "RepoB" (Some "Sync26")
            [ApiEntry.mk "api-b" "2.0.0" "alpha" [];
             ApiEntry.mk "api-c" "1.0.0" "alpha" []]
            CycleReleases.default].
Proof.
  split.
  - apply (proj1 (build_meta_release_summaries_sums _)).
    split; [discriminate|]. split; [left; reflexivity | reflexivity].
  - apply (proj1 (proj2 (build_meta_release_summaries_sums _))).
    apply perm_swap.
Defined.

(** C7 as stated fails: the first milestone has a non-null tag and one API
    entry whose version is not null (it is the empty string), so the stated
    sum for [m1_achieved] is 1; the code counts 0. *)
Lemma build_meta_release_summaries_empty_version_counterexample :
  length
    (List.filter
       (fun a => bool_decide (CycleReleaseApi.api_version a <> None))
       [CycleReleaseApi.mk "api-a" (Some "")])
  = 1
  /\ build_meta_release_summaries
       [Fixtures.cycle_entry "RepoA" (Some "Sync26")
          [ApiEntry.mk "api-a" "1.0.0" "rc" []]
          (CycleReleases.mk
             (Some (MilestoneRelease.mk (Some "r1.1")
                      (Some "2026-01-01T00:00:00Z")
                      [CycleReleaseApi.mk "api-a" (Some "")]))
             None None)]
       !! "Sync26"
     = Some (mk_summary 1 0 0 0).
Proof. split; vm_compute; reflexivity. Qed.

End MilestoneDeriverProps.

(** ** Serialisation *)

Module ModelsProps.

Lemma get_set_eq (d : dict) (k : string) (v : value) :
  Dict.get (Dict.set d k v) k = Some v.
Proof.
  induction d as [|[k' v'] d IH]; simpl.
  - by rewrite String.eqb_refl.
  - destruct (String.eqb k' k) eqn:Hk; simpl; by rewrite Hk.
Qed.

Lemma get_set_ne (d : dict) (k k' : string) (v : value) :
  k <> k' -> Dict.get (Dict.set d k v) k' = Dict.get d k'.
Proof.
  intros Hne. induction d as [|[k0 v0] d IH]; simpl.
  - by apply String.eqb_neq in Hne as ->.
  - destruct (String.eqb k0 k) eqn:Hk; simpl; [|by rewrite IH].
    apply String.eqb_eq in Hk as ->.
    by apply String.eqb_neq in Hne as ->.
Qed.

Lemma has_keys (d : dict) (k : string) :
  Dict.has d k = true <-> In k (Dict.keys d).
Proof.
  unfold Dict.has. induction d as [|[k' v'] d IH]; simpl; [done|].
  destruct (String.eqb k' k) eqn:Hk.
  - apply String.eqb_eq in Hk. split; auto.
  - apply String.eqb_neq in Hk. rewrite IH. split; [auto | by intros [?|?]].
Qed.

(** C8, as amended. The serialised entry always holds the keys
    [repository], [github_url], [target_release_tag], [target_release_type],
    [apis], [state], [artifacts], [published_context] and [cycle_releases],
    in that order; the nullable target tag and type, the four artifact
    fields and the two published-context fields are explicit, null when
    unset. The nullable [release_track], [meta_release] and [dependencies]
    are present only when set and not empty. [warnings] is present exactly
    when the list is not empty. *)
Theorem progress_entry_to_dict_keys (e : ProgressEntry.t) :
  Dict.keys (ProgressEntry.to_dict e)
  = (["repository"; "github_url"]
     ++ (if Py.truthy (ProgressEntry.release_track e)
         then ["release_track"] else [])
     ++ (if Py.truthy (ProgressEntry.meta_release e)
         then ["meta_release"] else [])
     ++ ["target_release_tag"; "target_release_type"]
     ++ (if Dict.truthy (ProgressEntry.dependencies e)
         then ["dependencies"] else [])
     ++ ["apis"; "state"; "artifacts"; "published_context"; "cycle_releases"]
     ++ (match ProgressEntry.warnings e with
         | [] => []
         | _ :: _ => ["warnings"]
         end))%list
  /\ Dict.get (ProgressEntry.to_dict e) "target_release_tag"
     = Some (Dict.of_opt_str (ProgressEntry.target_release_tag e))
  /\ Dict.get (ProgressEntry.to_dict e) "target_release_type"
     = Some (Dict.of_opt_str (ProgressEntry.target_release_type e))
  /\ Dict.get (ProgressEntry.to_dict e) "artifacts"
     = Some (VDict
               [("snapshot_branch",
                 Dict.of_opt_str
                   (ArtifactInfo.snapshot_branch (ProgressEntry.artifacts e)));
                ("release_pr",
                 Dict.of_opt_dict
                   (ArtifactInfo.release_pr (ProgressEntry.artifacts e)));
                ("draft_release",
                 Dict.of_opt_dict
                   (ArtifactInfo.draft_release (ProgressEntry.artifacts e)));
                ("release_issue",
                 Dict.of_opt_dict
                   (ArtifactInfo.release_issue (ProgressEntry.artifacts e)))])
  /\ Dict.get (ProgressEntry.to_dict e) "published_context"
     = Some (VDict
               [("latest_public_release",
                 Dict.of_opt_str
                   (PublishedContext.latest_public_release
                      (ProgressEntry.published_context e)));
                ("newest_pre_release",
                 Dict.of_opt_str
                   (PublishedContext.newest_pre_release
                      (ProgressEntry.published_context e)))])
  /\ (Dict.has (ProgressEntry.to_dict e) "warnings" = true <->
      ProgressEntry.warnings e <> [])
  /\ (Dict.has (ProgressEntry.to_dict e) "release_track" = true <->
      exists s, ProgressEntry.release_track e = Some s /\ s <> "")
  /\ (Dict.has (ProgressEntry.to_dict e) "meta_release" = true <->
      exists s, ProgressEntry.meta_release e = Some s /\ s <> "")
  /\ (Dict.has (ProgressEntry.to_dict e) "dependencies" = true <->
      exists d, ProgressEntry.dependencies e = Some d /\ d <> []).
Proof.
  destruct e as [repo url track mr tag type deps apis st art ctx cr ws].
  cbn [ProgressEntry.release_track ProgressEntry.meta_release
       ProgressEntry.target_release_tag ProgressEntry.target_release_type
       ProgressEntry.dependencies ProgressEntry.warnings
       ProgressEntry.artifacts ProgressEntry.published_context].
  destruct track as [[|? ?]|], mr as [[|? ?]|], deps as [[|? ?]|], ws as [|? ?];
    (split; [reflexivity|]);
    do 4 (split; [reflexivity|]);
    repeat split; try done; try discriminate;
    try (eexists; split; [reflexivity | discriminate]);
    try (intros (? & [=] & ?); done); try (intros (? & [= <-] & ?); done).
Qed.

(** C8 as stated fails: [release_track], [meta_release] and [dependencies]
    are nullable fields, and the serialised form of an entry that leaves
    them null has none of the three keys. *)
Lemma to_dict_omits_null_fields_counterexample :
  ProgressEntry.release_track
    (Fixtures.make_entry ProgressState.NOT_PLANNED (Some "none") []
       ArtifactInfo.default) = None
  /\ Dict.keys
       (ProgressEntry.to_dict
          (Fixtures.make_entry ProgressState.NOT_PLANNED (Some "none") []
             ArtifactInfo.default))
     = ["repository"; "github_url"; "target_release_tag";
        "target_release_type"; "apis"; "state"; "artifacts";
        "published_context"; "cycle_releases"]
  /\ Dict.has
       (ProgressEntry.to_dict
          (Fixtures.make_entry ProgressState.NOT_PLANNED (Some "none") []
             ArtifactInfo.default))
       "release_track" = false.
Proof. repeat split. Qed.

End ModelsProps.

(** ** Independent repositories *)

Module IndependentProps.
Import MilestoneDeriver.

Lemma to_dict_cycle_releases (e : ProgressEntry.t) :
  Dict.get (ProgressEntry.to_dict e) "cycle_releases"
  = Some (VDict (CycleReleases.to_dict (ProgressEntry.cycle_releases e))).
Proof.
  unfold ProgressEntry.to_dict. cbv zeta.
  destruct (ProgressEntry.warnings e).
  - apply ModelsProps.get_set_eq.
  - rewrite ModelsProps.get_set_ne by discriminate.
    apply ModelsProps.get_set_eq.
Qed.

(** C5, as amended. A repository whose cycle identifier is null/absent
    adds nothing to any cycle summary. Its derived cycle releases are a
    structure with all three milestones absent, which serialises to the
    empty mapping; the serialised entry keeps that empty mapping under the
    key [cycle_releases]. *)
Theorem independent_repository
    (repo_name : string) (all_releases : list Release.t)
    (planned_apis : list string) (e : ProgressEntry.t)
    (before after : list ProgressEntry.t) :
  ProgressEntry.meta_release e = None ->
  derive_cycle_releases repo_name (ProgressEntry.meta_release e)
    all_releases planned_apis
  = Ok (ProgressEntry.cycle_releases e) ->
  build_meta_release_summaries (before ++ e :: after)
  = build_meta_release_summaries (before ++ after)
  /\ ProgressEntry.cycle_releases e = CycleReleases.mk None None None
  /\ CycleReleases.to_dict (ProgressEntry.cycle_releases e) = []
  /\ Dict.get (ProgressEntry.to_dict e) "cycle_releases" = Some (VDict []).
Proof.
  intros Hmr Hcr. rewrite Hmr in Hcr.
  change (derive_cycle_releases repo_name None all_releases planned_apis)
    with (Ok (CycleReleases.mk None None None)) in Hcr.
  injection Hcr as Hcr. symmetry in Hcr.
  split; [|split; [done|split]].
  - unfold build_meta_release_summaries. rewrite !foldl_app. cbn [foldl].
    f_equal. unfold add_entry. by rewrite Hmr.
  - by rewrite Hcr.
  - by rewrite to_dict_cycle_releases, Hcr.
Qed.

Lemma independent_repository_witness :
  build_meta_release_summaries
    ([] ++ Fixtures.cycle_entry "IndependentRepo" None
             [ApiEntry.mk "some-api" "1.0.0" "public" []]
             CycleReleases.default :: [])
  = build_meta_release_summaries ([] ++ [])
  /\ Dict.get
       (ProgressEntry.to_dict
          (Fixtures.cycle_entry "IndependentRepo" None
             [ApiEntry.mk "some-api" "1.0.0" "public" []]
             CycleReleases.default))
       "cycle_releases"
     = Some (VDict []).
Proof.
  destruct (independent_repository "IndependentRepo" Fixtures.SAMPLE_RELEASES
              ["some-api"]
              (Fixtures.cycle_entry "IndependentRepo" None
                 [ApiEntry.mk "some-api" "1.0.0" "public" []]
                 CycleReleases.default)
              [] [] eq_refl eq_refl) as (Hsum & _ & _ & Hdict).
  split; [exact Hsum | exact Hdict].
Defined.

(** C5 as stated fails: the serialised form of an independent repository
    has the key [cycle_releases], bound to an empty mapping: empty but
    present, not absent. *)
Lemma independent_cycle_releases_present_counterexample :
  derive_cycle_releases "IndependentRepo" None
    Fixtures.SAMPLE_RELEASES ["some-api"]
  = Ok CycleReleases.default
  /\ ProgressEntry.meta_release
       (Fixtures.cycle_entry "IndependentRepo" None
          [ApiEntry.mk "some-api" "1.0.0" "public" []]
          CycleReleases.default)
     = None
  /\ Dict.has
       (ProgressEntry.to_dict
          (Fixtures.cycle_entry "IndependentRepo" None
             [ApiEntry.mk "some-api" "1.0.0" "public" []]
             CycleReleases.default))
       "cycle_releases"
     = true
  /\ Dict.get
       (ProgressEntry.to_dict
          (Fixtures.cycle_entry "IndependentRepo" None
             [ApiEntry.mk "some-api" "1.0.0" "public" []]
             CycleReleases.default))
       "cycle_releases"
     = Some (VDict []).
Proof. repeat split. Qed.

End IndependentProps.

(** ** Warnings *)

Module WarningsProps.
Import ProgressState Warnings.

Lemma base_version_code (version : option string) :
  (if Py.nonempty (Py.or_empty version)
   then Py.split_head "-" (Py.or_empty version)
   else "")
  = Spec.base_version version.
Proof. unfold Spec.base_version. by destruct (Py.or_empty version). Qed.

Lemma published_versions_lookup (published : Release.t) (name : string) :
  published_versions published !! name = Spec.published_base published name.
Proof.
  unfold published_versions, Spec.published_base.
  change (foldl _ ∅ (Release.apis published))
    with (foldl
            (Spec.record_step
               (fun api =>
                  if Py.nonempty (Py.or_empty (ReleaseApi.api_version api))
                  then Py.split_head "-" (Py.or_empty (ReleaseApi.api_version api))
                  else ""))
            ∅ (Release.apis published)).
  rewrite record_fold_lookup, lookup_empty.
  destruct (Py.nonempty name); [|done].
  destruct (Spec.record_of (Release.apis published) name); [|done].
  by rewrite base_version_code.
Qed.

(** The base version has no hyphen and is the recorded version up to its
    first hyphen. *)
Lemma split_head_spec (s : string) :
  Py.contains (Py.split_head "-" s) "-" = false
  /\ (s = Py.split_head "-" s
      \/ exists rest, s = Py.split_head "-" s +:+ "-" +:+ rest).
Proof.
  induction s as [|c s [IHno IHsplit]]; [by split; [|left]|].
  cbn [Py.split_head]. destruct (Ascii.eqb c "-") eqn:Hc.
  - apply Ascii.eqb_eq in Hc as ->. split; [done|]. right. by exists s.
  - split.
    + rewrite contains_cons, IHno, orb_false_r.
      destruct (String.prefix "-" (String c (Py.split_head "-" s))) eqn:Hp;
        [|done].
      apply prefix_starts_with in Hp as (suffix & Heq).
      injection Heq as -> _. by rewrite Ascii.eqb_refl in Hc.
    + destruct IHsplit as [Heq | (rest & Heq)].
      * left. by rewrite <- Heq.
      * right. exists rest. by rewrite app_cons_str, <- Heq.
Qed.

Lemma first_such_hit {A} (P : A -> Prop) (a x : A) (l : list A) :
  P a -> Spec.first_such P (a :: l) x -> x = a.
Proof.
  intros Ha (before & after & Heq & _ & Hbefore).
  destruct before as [|b before]; simpl in Heq.
  - by injection Heq.
  - injection Heq as -> _. by inversion Hbefore.
Qed.

Lemma first_such_miss {A} (P : A -> Prop) (a x : A) (l : list A) :
  ~ P a -> Spec.first_such P (a :: l) x -> Spec.first_such P l x.
Proof.
  intros Ha (before & after & Heq & Hx & Hbefore).
  destruct before as [|b before]; simpl in Heq.
  - injection Heq as -> _. done.
  - injection Heq as _ ->. exists before, after.
    repeat split; [done|]. by inversion Hbefore.
Qed.

(** The test the loop applies to one planned API decides [Spec.diverges]. *)
Lemma diverges_test (published : Release.t) (api : ApiEntry.t) (base : string) :
  Spec.published_base published (ApiEntry.api_name api) = Some base ->
  Py.nonempty base
  && negb (String.eqb (ApiEntry.target_api_version api) base) = true
  <-> Spec.diverges published api.
Proof.
  intros Hbase. unfold Spec.diverges.
  rewrite andb_true_iff, negb_true_iff, nonempty_true, String.eqb_neq.
  split.
  - intros [? ?]. by exists base.
  - intros (base' & Hbase' & ? & ?). by simplify_eq.
Qed.

Lemma first_divergence_spec (published : Release.t)
    (target_release_tag : option string) (apis : list ApiEntry.t) :
  (forall api,
      Spec.first_such (Spec.diverges published) apis api ->
      exists base,
        Spec.published_base published (ApiEntry.api_name api) = Some base
        /\ first_divergence (published_versions published)
             target_release_tag apis
           = [ProgressWarning.mk "W001"
                (w001_message api target_release_tag base) "warning"])
  /\ (Forall (fun api => ~ Spec.diverges published api) apis ->
      first_divergence (published_versions published) target_release_tag apis
      = []).
Proof.
  induction apis as [|a apis [IHfirst IHnone]].
  { split; [|done]. intros api (before & after & Heq & _).
    by destruct before. }
  cbn [first_divergence]. rewrite published_versions_lookup.
  destruct (Spec.published_base published (ApiEntry.api_name a))
    as [base|] eqn:Hbase.
  - pose proof (diverges_test published a base Hbase) as Htest.
    destruct (Py.nonempty base
              && negb (String.eqb (ApiEntry.target_api_version a) base)).
    + assert (Ha : Spec.diverges published a) by by apply Htest.
      split.
      * intros api Hfirst. apply (first_such_hit _ _ _ _ Ha) in Hfirst as ->.
        by exists base.
      * intros Hall. by inversion Hall.
    + assert (Ha : ~ Spec.diverges published a).
      { intros H. by apply Htest in H. }
      split.
      * intros api Hfirst. by apply IHfirst, (first_such_miss _ a).
      * intros Hall. apply IHnone. by inversion Hall.
  - assert (Ha : ~ Spec.diverges published a).
    { intros (base & Hb & _). congruence. }
    split.
    + intros api Hfirst. by apply IHfirst, (first_such_miss _ a).
    + intros Hall. apply IHnone. by inversion Hall.
Qed.

Lemma first_divergence_length (versions : gmap string string)
    (target_release_tag : option string) (apis : list ApiEntry.t) :
  length (first_divergence versions target_release_tag apis) <= 1.
Proof.
  induction apis as [|a apis IH]; cbn [first_divergence]; [simpl; lia|].
  destruct (versions !! ApiEntry.api_name a) as [base|]; [|done].
  by destruct (Py.nonempty base
               && negb (String.eqb (ApiEntry.target_api_version a) base)).
Qed.

(** C6, as amended. The divergence check W001 produces a warning only
    when the entry's state is [PUBLISHED], a non-empty target tag exists,
    at least one planned API exists, and some release's tag equals the
    target tag. It produces at most one warning. Against the first release
    whose tag equals the target tag, the warning is for the first API, in
    the entry's API list order, whose published base version (the version
    recorded under its name, up to the first hyphen) is present, not
    empty, and differs from the declared target version; its message names
    the API, the target version, the tag and the published base version;
    when no planned API diverges in this sense there is no warning. In
    particular a planned version equal to the stripped base produces
    none. *)
Theorem published_plan_diverged_spec
    (entry : ProgressEntry.t) (repo_releases : list Release.t) :
  (_check_published_plan_diverged entry repo_releases <> [] ->
   ProgressEntry.state entry = PUBLISHED
   /\ (exists tag,
          ProgressEntry.target_release_tag entry = Some tag /\ tag <> "")
   /\ ProgressEntry.apis entry <> []
   /\ Exists
        (fun rel =>
           Release.release_tag rel = ProgressEntry.target_release_tag entry)
        repo_releases)
  /\ length (_check_published_plan_diverged entry repo_releases) <= 1
  /\ (forall tag published,
        ProgressEntry.state entry = PUBLISHED ->
        ProgressEntry.target_release_tag entry = Some tag -> tag <> "" ->
        Spec.first_such (fun rel => Release.release_tag rel = Some tag)
          repo_releases published ->
        (forall api,
            Spec.first_such (Spec.diverges published)
              (ProgressEntry.apis entry) api ->
            exists base,
              Spec.published_base published (ApiEntry.api_name api) = Some base
              /\ _check_published_plan_diverged entry repo_releases
                 = [ProgressWarning.mk "W001"
                      ("Plan targets " +:+ ApiEntry.api_name api +:+ " "
                         +:+ ApiEntry.target_api_version api +:+ " but "
                         +:+ tag +:+ " published " +:+ base)
                      "warning"])
        /\ (Forall (fun api => ~ Spec.diverges published api)
              (ProgressEntry.apis entry) ->
            _check_published_plan_diverged entry repo_releases = []))
  /\ _check_published_plan_diverged
       (Fixtures.make_entry PUBLISHED (Some "pre-release-rc")
          [ApiEntry.mk "x" "2.0.0" "public" []] ArtifactInfo.default)
       [Release.mk None (Some "r4.1") Missing None None
          [ReleaseApi.mk (Some "x") (Some "1.1.0")]]
     = [ProgressWarning.mk "W001"
          "Plan targets x 2.0.0 but r4.1 published 1.1.0" "warning"]
  /\ _check_published_plan_diverged
       (Fixtures.make_entry PUBLISHED (Some "pre-release-rc")
          [ApiEntry.mk "x" "1.1.0" "public" []] ArtifactInfo.default)
       [Release.mk None (Some "r4.1") Missing None None
          [ReleaseApi.mk (Some "x") (Some "1.1.0-rc.2")]]
     = [].
Proof.
  split; [|split; [|split; [|split; vm_compute; reflexivity]]].
  - unfold _check_published_plan_diverged.
    case_bool_decide as Hstate; cbn [negb]; [|done].
    destruct (Py.truthy (ProgressEntry.target_release_tag entry)) eqn:Htag;
      cbn [negb orb]; [|done].
    destruct (ProgressEntry.apis entry) as [|a apis] eqn:Hapis; [done|].
    destruct (List.find _ repo_releases) as [published|] eqn:Hfind; [|done].
    intros _. split; [done|].
    split; [by apply truthy_true|]. split; [done|].
    apply find_first_such in Hfind as (before & after & -> & Hp & _).
    apply Exists_app. right. left. by apply py_eqb_true.
  - unfold _check_published_plan_diverged.
    destruct (negb _); [simpl; lia|].
    destruct (_ || _); [simpl; lia|].
    destruct (List.find _ repo_releases); [|simpl; lia].
    apply first_divergence_length.
  - intros tag published Hstate Htag Hne Hfirst.
    assert (Hfind : List.find
                      (fun rel => Py.eqb (Release.release_tag rel)
                                    (ProgressEntry.target_release_tag entry))
                      repo_releases = Some published).
    { apply find_first_such. rewrite Htag.
      destruct Hfirst as (before & after & -> & Hp & Hbefore).
      exists before, after. split; [done|].
      split; [by apply py_eqb_true|].
      eapply Forall_impl; [exact Hbefore|].
      intros rel Hrel H. by apply Hrel, py_eqb_true. }
    pose proof (first_divergence_spec published
                  (ProgressEntry.target_release_tag entry)
                  (ProgressEntry.apis entry)) as [Hone Hnone].
    unfold _check_published_plan_diverged.
    rewrite Hstate, bool_decide_eq_true_2 by done. cbn [negb].
    rewrite Hfind, Htag. cbn [Py.truthy].
    apply nonempty_true in Hne. rewrite Hne. cbn [negb orb].
    rewrite Htag in Hone, Hnone.
    split.
    + intros api Hapi.
      destruct (ProgressEntry.apis entry) as [|a apis] eqn:Hapis.
      { destruct Hapi as (before & after & Heq & _). by destruct before. }
      destruct (Hone api Hapi) as (base & Hbase & ->). by exists base.
    + intros Hall.
      destruct (ProgressEntry.apis entry) as [|a apis] eqn:Hapis; [done|].
      by apply Hnone.
Qed.

Lemma published_plan_diverged_spec_witness :
  ProgressEntry.state
    (Fixtures.make_entry PUBLISHED (Some "pre-release-rc")
       [ApiEntry.mk "x" "2.0.0" "public" []] ArtifactInfo.default)
  = PUBLISHED
  /\ Exists
       (fun rel => Release.release_tag rel = Some "r4.1")
       [Release.mk None (Some "r4.1") Missing None None
          [ReleaseApi.mk (Some "x") (Some "1.1.0")]].
Proof.
  destruct (proj1 (published_plan_diverged_spec
                     (Fixtures.make_entry PUBLISHED (Some "pre-release-rc")
                        [ApiEntry.mk "x" "2.0.0" "public" []]
                        ArtifactInfo.default)
                     [Release.mk None (Some "r4.1") Missing None None
                        [ReleaseApi.mk (Some "x") (Some "1.1.0")]])
              ltac:(discriminate))
    as (Hstate & _ & _ & Hrel).
  split; [exact Hstate | exact Hrel].
Defined.

(** C6 as stated fails: the first planned API has a published base version
    that is not null (the recorded version starts with a hyphen, so its
    base is the empty string) and differs from the target, yet the single
    warning is for the second API. *)
Lemma published_plan_diverged_empty_base_counterexample :
  Spec.published_base
    (Release.mk None (Some "r4.1") Missing None None
       [ReleaseApi.mk (Some "api-a") (Some "-rc.1");
        ReleaseApi.mk (Some "api-b") (Some "2.0.0")])
    "api-a"
  = Some ""
  /\ _check_published_plan_diverged
       (Fixtures.make_entry PUBLISHED (Some "pre-release-rc")
          [ApiEntry.mk "api-a" "1.0.0" "public" [];
           ApiEntry.mk "api-b" "1.0.0" "public" []]
          ArtifactInfo.default)
       [Release.mk None (Some "r4.1") Missing None None
          [ReleaseApi.mk (Some "api-a") (Some "-rc.1");
           ReleaseApi.mk (Some "api-b") (Some "2.0.0")]]
     = [ProgressWarning.mk "W001"
          "Plan targets api-b 1.0.0 but r4.1 published 2.0.0" "warning"].
Proof. split; vm_compute; reflexivity. Qed.

(** C9, as amended. The orphan check W002 produces a warning if and only
    if the entry's state is [NOT_PLANNED] and the snapshot branch of its
    artifact summary is neither null nor empty; it then produces exactly
    one W002 warning, whose message contains the branch name. With a null
    or empty snapshot branch, or in any other state, it produces none. *)
Theorem orphaned_snapshot_spec
    (entry : ProgressEntry.t) (repo_releases : list Release.t) :
  (forall branch,
      ProgressEntry.state entry = NOT_PLANNED ->
      ArtifactInfo.snapshot_branch (ProgressEntry.artifacts entry)
      = Some branch ->
      branch <> "" ->
      _check_orphaned_snapshot entry repo_releases
      = [ProgressWarning.mk "W002"
           ("Snapshot branch " +:+ branch
              +:+ " exists but release type is 'none'")
           "warning"]
      /\ Spec.substring_of branch
           ("Snapshot branch " +:+ branch
              +:+ " exists but release type is 'none'"))
  /\ (ProgressEntry.state entry <> NOT_PLANNED
      \/ ArtifactInfo.snapshot_branch (ProgressEntry.artifacts entry) = None
      \/ ArtifactInfo.snapshot_branch (ProgressEntry.artifacts entry)
         = Some "" ->
      _check_orphaned_snapshot entry repo_releases = []).
Proof.
  unfold _check_orphaned_snapshot. split.
  - intros branch Hstate Hbranch Hne.
    rewrite bool_decide_eq_true_2 by done. cbn [negb].
    rewrite Hbranch. apply nonempty_true in Hne. rewrite Hne.
    split; [done|].
    by exists "Snapshot branch ", " exists but release type is 'none'".
  - intros [Hstate | [Hbranch | Hbranch]].
    + by rewrite bool_decide_eq_false_2.
    + rewrite Hbranch. by destruct (negb _).
    + rewrite Hbranch. by destruct (negb _).
Qed.

Lemma orphaned_snapshot_spec_witness :
  _check_orphaned_snapshot
    (Fixtures.make_entry NOT_PLANNED (Some "none") []
       (ArtifactInfo.mk (Some "release-snapshot/r4.1-abc123") None None None))
    []
  = [ProgressWarning.mk "W002"
       "Snapshot branch release-snapshot/r4.1-abc123 exists but release type is 'none'"
       "warning"]
  /\ _check_orphaned_snapshot
       (Fixtures.make_entry NOT_PLANNED (Some "none") []
          ArtifactInfo.default)
       []
     = [].
Proof.
  split.
  - apply (proj1 (orphaned_snapshot_spec
                    (Fixtures.make_entry NOT_PLANNED (Some "none") []
                       (ArtifactInfo.mk (Some "release-snapshot/r4.1-abc123")
                          None None None))
                    [])
             "release-snapshot/r4.1-abc123" eq_refl eq_refl).
    discriminate.
  - apply (proj2 (orphaned_snapshot_spec
                    (Fixtures.make_entry NOT_PLANNED (Some "none") []
                       ArtifactInfo.default)
                    [])).
    right. left. reflexivity.
Defined.

(** C9 as stated fails: the state is [NOT_PLANNED] and the snapshot branch
    is not null (it is the empty string), yet no warning is produced. *)
Lemma orphaned_snapshot_empty_branch_counterexample :
  ProgressEntry.state
    (Fixtures.make_entry NOT_PLANNED (Some "none") []
       (ArtifactInfo.mk (Some "") None None None))
  = NOT_PLANNED
  /\ ArtifactInfo.snapshot_branch
       (ProgressEntry.artifacts
          (Fixtures.make_entry NOT_PLANNED (Some "none") []
             (ArtifactInfo.mk (Some "") None None None)))
     <> None
  /\ _check_orphaned_snapshot
       (Fixtures.make_entry NOT_PLANNED (Some "none") []
          (ArtifactInfo.mk (Some "") None None None))
       []
     = [].
Proof. repeat split. discriminate. Qed.

End WarningsProps.

(* ================================================================== *)
(** * Further properties of the state deriver and the warning engine *)
(* ================================================================== *)

Module StateDeriverMore.
Import ProgressState StateDeriver.

Lemma planned_type_guard (release_type : option string) :
  negb (Py.truthy release_type) || Py.eqb release_type (Some "none") = false
  <-> release_type <> None /\ release_type <> Some ""
      /\ release_type <> Some "none".
Proof.
  rewrite orb_false_iff, negb_false_iff, py_eqb_false, truthy_true.
  split.
  - intros [(s & -> & Hs) Hnone]. repeat split; congruence.
  - intros (H1 & H2 & H3). split; [|done].
    destruct release_type as [s|]; [|done]. exists s. split; congruence.
Qed.

(** X1. Each state names its cause: read backwards, the decision list tells
    from the derived state which inputs produced it. *)
Theorem derive_state_cause
    (release_type target_tag : option string) (tag_exists : bool)
    (snapshot_branches : list string) (draft_releases : list DraftRelease.t) :
  let state :=
    derive_state release_type target_tag tag_exists
      snapshot_branches draft_releases in
  let has_plan :=
    release_type <> None /\ release_type <> Some ""
    /\ release_type <> Some "none" in
  let snapshot := find_matching_snapshot snapshot_branches target_tag in
  let drafted :=
    exists tag, target_tag = Some tag
                /\ Exists (Spec.draft_mentions tag) draft_releases in
  (state = NOT_PLANNED <-> ~ has_plan)
  /\ (state = PUBLISHED <-> has_plan /\ tag_exists = true)
  /\ (state = DRAFT_READY <->
      has_plan /\ tag_exists = false /\ snapshot <> None /\ drafted)
  /\ (state = SNAPSHOT_ACTIVE <->
      has_plan /\ tag_exists = false /\ snapshot <> None /\ ~ drafted)
  /\ (state = PLANNED <-> has_plan /\ tag_exists = false /\ snapshot = None).
Proof.
  cbv zeta. unfold derive_state.
  destruct (negb (Py.truthy release_type)
            || Py.eqb release_type (Some "none")) eqn:Hguard.
  { assert (Hno : ~ (release_type <> None /\ release_type <> Some ""
                     /\ release_type <> Some "none")).
    { intros H%planned_type_guard. congruence. }
    intuition discriminate. }
  apply planned_type_guard in Hguard.
  destruct tag_exists.
  { intuition discriminate. }
  destruct (find_matching_snapshot snapshot_branches target_tag)
    as [branch|] eqn:Hfound.
  - rewrite (StateDeriverProps.find_matching_snapshot_truthy _ _ _ Hfound).
    destruct (StateDeriverProps.find_matching_snapshot_shape _ _ _ Hfound)
      as (tag & suffix & -> & Htag & _).
    pose proof (StateDeriverProps.has_matching_draft_spec
                  draft_releases tag Htag) as Hdraft.
    destruct (_has_matching_draft draft_releases (Some tag)).
    + assert (Hd : exists tag',
                 Some tag = Some tag'
                 /\ Exists (Spec.draft_mentions tag') draft_releases).
      { exists tag. split; [done | by apply Hdraft]. }
      intuition discriminate.
    + assert (Hd : ~ exists tag',
                 Some tag = Some tag'
                 /\ Exists (Spec.draft_mentions tag') draft_releases).
      { intros (tag' & [= <-] & H%Hdraft). done. }
      intuition discriminate.
  - cbn [Py.truthy]. intuition discriminate.
Qed.

(** X2. A planned release without a usable target tag: with no tag in the
    repository the state is [PLANNED], whatever branches and drafts
    exist. *)
Theorem derive_state_without_tag
    (release_type target_tag : option string)
    (snapshot_branches : list string) (draft_releases : list DraftRelease.t) :
  release_type <> None -> release_type <> Some "" ->
  release_type <> Some "none" ->
  target_tag = None \/ target_tag = Some "" ->
  derive_state release_type target_tag false snapshot_branches draft_releases
  = PLANNED.
Proof.
  intros H1 H2 H3 Htag. unfold derive_state.
  rewrite (proj2 (planned_type_guard release_type)) by done.
  by destruct Htag as [-> | ->].
Qed.

Lemma derive_state_without_tag_witness :
  derive_state (Some "pre-release-rc") None false
    ["release-snapshot/r4.1-abc123"; "release-snapshot/-x"]
    [DraftRelease.mk (Some "r4.1 pre-release-rc") (Some "r4.1") None]
  = PLANNED.
Proof.
  apply derive_state_without_tag; [discriminate.. | by left].
Defined.

(** X3. The matcher only ever returns one of the branches it was given, and a
    longer list is searched front to back: a match in the first part
    wins, otherwise the second part decides. *)
Theorem find_matching_snapshot_app
    (first_part second_part : list string) (target_tag : option string) :
  (forall branch,
      find_matching_snapshot first_part target_tag = Some branch ->
      In branch first_part)
  /\ find_matching_snapshot (first_part ++ second_part)%list target_tag
     = match find_matching_snapshot first_part target_tag with
       | Some branch => Some branch
       | None => find_matching_snapshot second_part target_tag
       end.
Proof.
  unfold find_matching_snapshot.
  destruct target_tag as [tag|]; [|done].
  destruct (Py.nonempty tag); cbn [negb]; [|done].
  split.
  - intros branch H. by apply List.find_some in H as [? _].
  - induction first_part as [|b l IH]; [done|]. simpl.
    by destruct (Py.startswith b (snapshot_prefix tag)).
Qed.

End StateDeriverMore.

Module WarningsMore.
Import ProgressState Warnings.

(** X4. The engine runs the registry in order: the result is the output of
    the divergence check followed by that of the orphan check. The two
    built-in checks exclude each other, so an entry gets at most one
    warning: W001 only in state [PUBLISHED], W002 only in state
    [NOT_PLANNED], none in any other state. *)
Theorem generate_warnings_builtin
    (entry : ProgressEntry.t) (repo_releases : list Release.t) :
  generate_warnings entry repo_releases
  = (_check_published_plan_diverged entry repo_releases
     ++ _check_orphaned_snapshot entry repo_releases)%list
  /\ length (generate_warnings entry repo_releases) <= 1
  /\ (forall w,
        In w (generate_warnings entry repo_releases) ->
        (ProgressWarning.code w = "W001"
         /\ ProgressEntry.state entry = PUBLISHED)
        \/ (ProgressWarning.code w = "W002"
            /\ ProgressEntry.state entry = NOT_PLANNED)).
Proof.
  assert (Heq : generate_warnings entry repo_releases
                = (_check_published_plan_diverged entry repo_releases
                   ++ _check_orphaned_snapshot entry repo_releases)%list)
    by reflexivity.
  rewrite Heq. split; [done|].
  assert (Hlen : length (_check_published_plan_diverged entry repo_releases)
                 <= 1).
  { unfold _check_published_plan_diverged.
    destruct (negb _); [simpl; lia|].
    destruct (_ || _); [simpl; lia|].
    destruct (List.find _ repo_releases); [|simpl; lia].
    apply WarningsProps.first_divergence_length. }
  assert (H1 : ProgressEntry.state entry <> PUBLISHED ->
               _check_published_plan_diverged entry repo_releases = []).
  { intros H. unfold _check_published_plan_diverged.
    by rewrite bool_decide_eq_false_2. }
  assert (H1' : forall w,
             In w (_check_published_plan_diverged entry repo_releases) ->
             ProgressWarning.code w = "W001").
  { unfold _check_published_plan_diverged.
    destruct (negb _); [done|]. destruct (_ || _); [done|].
    destruct (List.find _ repo_releases) as [published|]; [|done].
    generalize (published_versions published).
    intros versions w.
    induction (ProgressEntry.apis entry) as [|a apis IH];
      cbn [first_divergence]; [done|].
    destruct (versions !! ApiEntry.api_name a) as [base|]; [|done].
    destruct (Py.nonempty base && _); [|done].
    by intros [<-|[]]. }
  assert (H2 : ProgressEntry.state entry <> NOT_PLANNED ->
               _check_orphaned_snapshot entry repo_releases = []).
  { intros H. unfold _check_orphaned_snapshot.
    by rewrite bool_decide_eq_false_2. }
  assert (H2' : forall w,
             In w (_check_orphaned_snapshot entry repo_releases) ->
             ProgressWarning.code w = "W002"
             /\ length (_check_orphaned_snapshot entry repo_releases) = 1).
  { unfold _check_orphaned_snapshot. destruct (negb _); [done|].
    destruct (ArtifactInfo.snapshot_branch _) as [branch|]; [|done].
    destruct (Py.nonempty branch); [|done]. by intros w [<-|[]]. }
  destruct (decide (ProgressEntry.state entry = PUBLISHED)) as [Hp|Hp].
  - rewrite H2 by congruence. rewrite app_nil_r. split; [done|].
    intros w Hw. left. split; [by apply H1' | done].
  - rewrite H1 by done. cbn [app].
    destruct (decide (ProgressEntry.state entry = NOT_PLANNED)) as [Hn|Hn].
    + split.
      * destruct (_check_orphaned_snapshot entry repo_releases) as [|w l] eqn:Hc;
          [simpl; lia|].
        destruct (H2' w) as [_ ->]; [by left | done].
      * intros w Hw. right. split; [by apply H2' | done].
    + rewrite H2 by done. split; [simpl; lia | done].
Qed.

End WarningsMore.

(* ================================================================== *)
(** * Further properties of the milestone deriver *)
(* ================================================================== *)

Module MilestoneDeriverMore.
Import MilestoneDeriver.

(** X5. A release of another repository or of another cycle has no effect on
    the milestones, wherever it stands in the ledger. *)
Theorem derive_cycle_releases_ignores_foreign
    (repo_name : string) (meta_release : option string)
    (before after : list Release.t) (foreign : Release.t)
    (planned_apis : list string) :
  Release.repository foreign <> Some repo_name
  \/ Release.meta_release foreign <> meta_release ->
  derive_cycle_releases repo_name meta_release
    (before ++ foreign :: after)%list planned_apis
  = derive_cycle_releases repo_name meta_release
      (before ++ after)%list planned_apis.
Proof.
  intros Hforeign. unfold derive_cycle_releases.
  destruct (negb (Py.truthy meta_release)); [done|].
  rewrite !List.filter_app. cbn [List.filter].
  assert (Hskip : Py.eqb (Release.repository foreign) (Some repo_name)
                  && Py.eqb (Release.meta_release foreign) meta_release
                  = false).
  { apply andb_false_iff.
    destruct Hforeign; [left | right]; by apply py_eqb_false. }
  by rewrite Hskip.
Qed.

Lemma derive_cycle_releases_ignores_foreign_witness :
  derive_cycle_releases "QualityOnDemand" (Some "Sync26")
    ([] ++ Fixtures.release "DeviceLocation" "r5.0" "2025-01-01T00:00:00Z"
             "Sync26" "pre-release-alpha" []
        :: Fixtures.SAMPLE_RELEASES)%list
    ["quality-on-demand"]
  = derive_cycle_releases "QualityOnDemand" (Some "Sync26")
      ([] ++ Fixtures.SAMPLE_RELEASES)%list ["quality-on-demand"].
Proof.
  apply derive_cycle_releases_ignores_foreign. left. discriminate.
Defined.

(** *** Order independence when the dates are distinct *)

Lemma leb_antisym_eq (a b : string) :
  String.leb a b = true -> String.leb b a = true -> a = b.
Proof. intros H1 H2. by apply String.leb_antisym. Qed.

Lemma nodup_key_inj {A B} (key : A -> B) (l : list A) (x y : A) :
  List.NoDup (map key l) -> In x l -> In y l -> key x = key y -> x = y.
Proof.
  induction l as [|z l IH]; [done|]. cbn [map].
  intros Hnd Hx Hy Hk. apply List.NoDup_cons_iff in Hnd as [Hz Hnd].
  destruct Hx as [<-|Hx], Hy as [<-|Hy]; [done | | | by apply IH].
  - destruct Hz. rewrite Hk. by apply List.in_map.
  - destruct Hz. rewrite <- Hk. by apply List.in_map.
Qed.

Lemma nodup_key_filter {A B} (key : A -> B) (f : A -> bool) (l : list A) :
  List.NoDup (map key l) -> List.NoDup (map key (List.filter f l)).
Proof.
  induction l as [|z l IH]; [done|]. cbn [map List.filter].
  intros [Hz Hnd]%List.NoDup_cons_iff.
  destruct (f z); [|by apply IH]. cbn [map].
  apply List.NoDup_cons; [|by apply IH].
  intros (y & Hk & Hy%List.filter_In)%List.in_map_iff.
  destruct Hz. rewrite <- Hk. apply List.in_map. by destruct Hy.
Qed.

(** Two ascending lists with the same elements and no repeated key are
    the same list. *)
Lemma sorted_perm_unique {A} (key : A -> string) (l1 l2 : list A) :
  StronglySorted (Spec.key_le key) l1 ->
  StronglySorted (Spec.key_le key) l2 ->
  Permutation l1 l2 ->
  List.NoDup (map key l1) ->
  l1 = l2.
Proof.
  intros Hs1. revert l2.
  induction Hs1 as [|x l1 Hs1 IH Hx]; intros l2 Hs2 Hp Hnd.
  { by apply Permutation_nil in Hp. }
  destruct Hs2 as [|y l2 Hs2 Hy].
  { symmetry in Hp. by apply Permutation_nil_cons in Hp. }
  assert (Hxy : x = y).
  { assert (Hyin : In y (x :: l1)).
    { eapply Permutation_in; [symmetry; exact Hp | by left]. }
    assert (Hxin : In x (y :: l2)).
    { eapply Permutation_in; [exact Hp | by left]. }
    apply (nodup_key_inj key (x :: l1)); [done | by left | done |].
    apply leb_antisym_eq.
    - destruct Hyin as [<-|Hyin]; [apply leb_refl|].
      rewrite Forall_forall in Hx. by apply Hx, list_elem_of_In.
    - destruct Hxin as [<-|Hxin]; [apply leb_refl|].
      rewrite Forall_forall in Hy. by apply Hy, list_elem_of_In. }
  subst y. f_equal. apply IH; [done | by eapply Permutation_cons_inv |].
  cbn [map] in Hnd. by apply List.NoDup_cons_iff in Hnd as [_ ?].
Qed.

Lemma sort_by_key_perm_unique {A} (key : A -> string) (l l' : list A) :
  Permutation l l' -> List.NoDup (map key l) ->
  sort_by_key key l = sort_by_key key l'.
Proof.
  intros Hp Hnd. apply (sorted_perm_unique key).
  - apply sort_by_key_sorted.
  - apply sort_by_key_sorted.
  - rewrite <- (sort_by_key_perm key l), <- (sort_by_key_perm key l'). done.
  - eapply Permutation_NoDup; [|exact Hnd].
    apply Permutation_map, sort_by_key_perm.
Qed.

Lemma forallb_perm {A} (f : A -> bool) (l l' : list A) :
  Permutation l l' -> forallb f l = forallb f l'.
Proof.
  induction 1 as [|x l l' _ IH|x y l|l l' l'' _ IH1 _ IH2]; cbn [forallb];
    [done | by rewrite IH | | congruence].
  by destruct (f x), (f y).
Qed.

Lemma string_keys_nodup {A} (key : A -> option string) (l : list A) :
  forallb (fun x => Py.is_str (key x)) l = true ->
  List.NoDup (map key l) ->
  List.NoDup (map (fun x => Py.or_empty (key x)) l).
Proof.
  induction l as [|x l IH]; [intros; constructor|]. cbn [forallb map].
  intros [Hx Hl]%andb_true_iff [Hnx Hnd]%List.NoDup_cons_iff.
  apply List.NoDup_cons; [|by apply IH].
  intros (y & Hy & Hin)%List.in_map_iff. apply Hnx.
  rewrite forallb_forall in Hl. specialize (Hl y Hin).
  apply List.in_map_iff. exists y. split; [|done].
  destruct (key x), (key y); try done. cbn in Hy. by subst.
Qed.

(** The sort gives the same outcome on every ordering of a list whose
    keys are pairwise distinct. *)
Lemma list_sort_perm {A} (key : A -> option string) (l l' : list A) :
  Permutation l l' -> List.NoDup (map key l) ->
  list_sort key l = list_sort key l'.
Proof.
  intros Hp Hnd. unfold list_sort.
  destruct l as [|x [|y l]].
  - by apply Permutation_nil in Hp as ->.
  - by apply Permutation_length_1_inv in Hp as ->.
  - pose proof (Permutation_length Hp) as Hlen.
    destruct l' as [|x' [|y' l']]; [done | done |].
    rewrite <- (forallb_perm _ _ _ Hp).
    destruct (forallb _ (x :: y :: l)) eqn:Hall; [|done].
    f_equal. apply sort_by_key_perm_unique; [done|].
    by apply string_keys_nodup.
Qed.

Lemma find_earliest_by_type_perm
    (cycle_releases cycle_releases' : list Release.t) (kind : string)
    (planned_apis : list string) :
  Permutation cycle_releases cycle_releases' ->
  List.NoDup (map date_key cycle_releases) ->
  _find_earliest_by_type cycle_releases kind planned_apis
  = _find_earliest_by_type cycle_releases' kind planned_apis.
Proof.
  intros Hp Hnd. unfold _find_earliest_by_type.
  set (f := fun r => Py.eqb (Release.release_type r) (Some kind)).
  pose proof (MilestoneDeriverProps.filter_perm f _ _ Hp) as Hf.
  rewrite (list_sort_perm date_key _ _ Hf)
    by by apply nodup_key_filter.
  destruct (List.filter f cycle_releases) as [|r l],
    (List.filter f cycle_releases') as [|r' l']; try done.
  all: try (by apply Permutation_nil_cons in Hf).
  all: try (symmetry in Hf; by apply Permutation_nil_cons in Hf).
Qed.

(** X6. When the releases of the repository in the cycle carry pairwise
    distinct sort keys (release dates), the milestones do not depend on
    the order of the ledger. *)
Theorem derive_cycle_releases_order_independent
    (repo_name : string) (meta_release : option string)
    (all_releases all_releases' : list Release.t)
    (planned_apis : list string) :
  Permutation all_releases all_releases' ->
  List.NoDup
    (map date_key
       (List.filter
          (fun r => bool_decide (Release.repository r = Some repo_name
                                 /\ Release.meta_release r = meta_release))
          all_releases)) ->
  derive_cycle_releases repo_name meta_release all_releases planned_apis
  = derive_cycle_releases repo_name meta_release all_releases' planned_apis.
Proof.
  intros Hp Hnd. unfold derive_cycle_releases.
  destruct (negb (Py.truthy meta_release)); [done|].
  set (f := fun r => Py.eqb (Release.repository r) (Some repo_name)
                     && Py.eqb (Release.meta_release r) meta_release).
  assert (Hf : List.filter f all_releases
               = List.filter
                   (fun r => bool_decide
                               (Release.repository r = Some repo_name
                                /\ Release.meta_release r = meta_release))
                   all_releases).
  { apply List.filter_ext. intros r. unfold f, Py.eqb.
    by rewrite bool_decide_and. }
  rewrite <- Hf in Hnd.
  pose proof (MilestoneDeriverProps.filter_perm f _ _ Hp) as Hfp.
  destruct (List.filter f all_releases) as [|r l] eqn:Hl,
    (List.filter f all_releases') as [|r' l'] eqn:Hl'; try done.
  all: try (by apply Permutation_nil_cons in Hfp).
  all: try (symmetry in Hfp; by apply Permutation_nil_cons in Hfp).
  by rewrite !(find_earliest_by_type_perm _ _ _ _ Hfp Hnd).
Qed.

Lemma derive_cycle_releases_order_independent_witness :
  derive_cycle_releases "QualityOnDemand" (Some "Sync26")
    Fixtures.SAMPLE_RELEASES ["quality-on-demand"]
  = derive_cycle_releases "QualityOnDemand" (Some "Sync26")
      (rev Fixtures.SAMPLE_RELEASES) ["quality-on-demand"].
Proof.
  apply derive_cycle_releases_order_independent.
  - apply Permutation_rev.
  - vm_compute. repeat constructor; simpl; intuition discriminate.
Defined.

(** *** Achieved counters against the total *)

Lemma milestone_api_names (cycle_releases : list Release.t) (kind : string)
    (planned_apis : list string) (m : MilestoneRelease.t) :
  _find_earliest_by_type cycle_releases kind planned_apis = Ok m ->
  map CycleReleaseApi.api_name (MilestoneRelease.apis m) = planned_apis.
Proof.
  unfold _find_earliest_by_type, _empty_milestone, mbind, outcome_bind.
  destruct (List.filter _ cycle_releases) as [|r0 rest].
  - intros [= <-]. cbn [MilestoneRelease.apis]. rewrite map_map. apply map_id.
  - destruct (list_sort date_key (r0 :: rest)) as [[|earliest sorted]| |];
      try done.
    intros [= <-]. cbn [MilestoneRelease.apis]. rewrite map_map. apply map_id.
Qed.

Lemma derived_milestone_names
    (repo_name : string) (meta_release : option string)
    (all_releases : list Release.t) (planned_apis : list string)
    (cr : CycleReleases.t) (m : MilestoneRelease.t) :
  derive_cycle_releases repo_name meta_release all_releases planned_apis
  = Ok cr ->
  CycleReleases.m1 cr = Some m \/ CycleReleases.m3 cr = Some m
  \/ CycleReleases.m4 cr = Some m ->
  map CycleReleaseApi.api_name (MilestoneRelease.apis m) = planned_apis.
Proof.
  unfold derive_cycle_releases, mbind, outcome_bind.
  destruct (negb (Py.truthy meta_release)).
  { intros [= <-] [H | [H | H]]; discriminate. }
  destruct (List.filter _ all_releases) as [|r0 rest].
  - intros [= <-]. cbn. intros [[= <-] | [[= <-] | [= <-]]];
      unfold _empty_milestone; cbn; rewrite map_map; apply map_id.
  - destruct (_find_earliest_by_type (r0 :: rest) "pre-release-alpha" _)
      as [m1| |] eqn:H1; try done.
    destruct (_find_earliest_by_type (r0 :: rest) "pre-release-rc" _)
      as [m3| |] eqn:H3; try done.
    destruct (_find_earliest_by_type (r0 :: rest) "public-release" _)
      as [m4| |] eqn:H4; try done.
    intros [= <-]. cbn.
    intros [[= <-] | [[= <-] | [= <-]]]; by eapply milestone_api_names.
Qed.

Lemma achieved_count_bound (m : option MilestoneRelease.t) (n : nat) :
  (forall m', m = Some m' -> length (MilestoneRelease.apis m') = n) ->
  Spec.achieved_count m <= n.
Proof.
  intros H. destruct m as [m|]; cbn [Spec.achieved_count]; [|lia].
  specialize (H m eq_refl).
  destruct (MilestoneRelease.release_tag m) as [[|? ?]|]; try lia.
  rewrite <- H. apply List.filter_length_le.
Qed.

Lemma sum_over_le {A} (f g : A -> nat) (l : list A) :
  Forall (fun x => f x <= g x) l -> Spec.sum_over f l <= Spec.sum_over g l.
Proof.
  unfold Spec.sum_over. induction 1; simpl; lia.
Qed.

Lemma cycle_summary_bound (entries : list ProgressEntry.t) (c : string) :
  Forall Spec.derived_for_own_apis entries ->
  m1_achieved (Spec.cycle_summary c entries)
  <= total_apis (Spec.cycle_summary c entries)
  /\ m3_achieved (Spec.cycle_summary c entries)
     <= total_apis (Spec.cycle_summary c entries)
  /\ m4_achieved (Spec.cycle_summary c entries)
     <= total_apis (Spec.cycle_summary c entries).
Proof.
  intros Hall.
  unfold Spec.cycle_summary. cbn [m1_achieved m3_achieved m4_achieved total_apis].
  assert (Hsub : Forall Spec.derived_for_own_apis (Spec.cycle_entries c entries)).
  { rewrite Forall_forall in *. intros e He. apply Hall.
    apply list_elem_of_In in He. apply List.filter_In in He as [He _].
    by apply list_elem_of_In. }
  repeat split; apply sum_over_le; (eapply Forall_impl; [exact Hsub|]);
    intros e (repo_name & all_releases & Hcr); apply achieved_count_bound;
    intros m Hm;
    rewrite <- (length_map ApiEntry.api_name), <- (length_map CycleReleaseApi.api_name);
    f_equal; eapply derived_milestone_names; eauto.
Qed.

(** X7. For entries whose milestones were derived from their own planned
    APIs, no cycle ever reports more achieved APIs than planned ones. *)
Theorem summaries_achieved_within_total (entries : list ProgressEntry.t) :
  Forall Spec.derived_for_own_apis entries ->
  forall c s,
    build_meta_release_summaries entries !! c = Some s ->
    m1_achieved s <= total_apis s
    /\ m3_achieved s <= total_apis s
    /\ m4_achieved s <= total_apis s.
Proof.
  intros Hall c s Hs.
  rewrite MilestoneDeriverProps.build_lookup in Hs.
  destruct (Py.nonempty c); [|done].
  assert (s = Spec.cycle_summary c entries) as ->.
  { destruct (Spec.cycle_entries c entries); [done | by injection Hs]. }
  by apply cycle_summary_bound.
Qed.

Lemma summaries_achieved_within_total_witness :
  m1_achieved (mk_summary 1 1 1 0) <= total_apis (mk_summary 1 1 1 0)
  /\ m3_achieved (mk_summary 1 1 1 0) <= total_apis (mk_summary 1 1 1 0)
  /\ m4_achieved (mk_summary 1 1 1 0) <= total_apis (mk_summary 1 1 1 0).
Proof.
  apply (summaries_achieved_within_total
           [Fixtures.cycle_entry "QualityOnDemand" (Some "Sync26")
              [ApiEntry.mk "quality-on-demand" "1.2.0" "rc" []]
              Fixtures.SAMPLE_CYCLE_RELEASES]
           ltac:(repeat constructor;
                 by exists "QualityOnDemand", Fixtures.SAMPLE_RELEASES)
           "Sync26").
  vm_compute. reflexivity.
Defined.

(** *** Summaries of a concatenation *)

Lemma sum_over_app {A} (f : A -> nat) (l1 l2 : list A) :
  Spec.sum_over f (l1 ++ l2) = Spec.sum_over f l1 + Spec.sum_over f l2.
Proof.
  unfold Spec.sum_over. induction l1 as [|x l1 IH]; simpl; [done|].
  rewrite IH. lia.
Qed.

(** X8. Summaries are additive: the summaries of two batches of entries taken
    together are the counter-wise sums of the summaries of each batch, a
    cycle present in one batch only keeping that batch's counters. *)
Theorem build_meta_release_summaries_app
    (first_batch second_batch : list ProgressEntry.t) (c : string) :
  build_meta_release_summaries (first_batch ++ second_batch)%list !! c
  = match build_meta_release_summaries first_batch !! c,
          build_meta_release_summaries second_batch !! c with
    | Some a, Some b => Some (Spec.add_summaries a b)
    | Some a, None => Some a
    | None, Some b => Some b
    | None, None => None
    end.
Proof.
  rewrite !MilestoneDeriverProps.build_lookup.
  destruct (Py.nonempty c); [|done].
  unfold Spec.cycle_summary, Spec.cycle_entries.
  rewrite List.filter_app.
  set (l1 := List.filter _ first_batch). set (l2 := List.filter _ second_batch).
  destruct l1 as [|e1 l1'] eqn:H1, l2 as [|e2 l2'] eqn:H2; try done.
  - by rewrite app_nil_r.
  - cbn [app]. f_equal.
    change (e1 :: (l1' ++ e2 :: l2')%list) with ((e1 :: l1') ++ e2 :: l2')%list.
    unfold Spec.add_summaries. cbn [total_apis m1_achieved m3_achieved m4_achieved].
    by rewrite !sum_over_app.
Qed.

End MilestoneDeriverMore.

(* ================================================================== *)
(** * Further properties of the serialisation *)
(* ================================================================== *)

Module ModelsMore.

Lemma of_opt_str_inj (a b : option string) :
  Dict.of_opt_str a = Dict.of_opt_str b -> a = b.
Proof. destruct a, b; simpl; congruence. Qed.

Lemma cycle_release_api_to_dict_inj (a b : CycleReleaseApi.t) :
  CycleReleaseApi.to_dict a = CycleReleaseApi.to_dict b -> a = b.
Proof.
  destruct a, b. unfold CycleReleaseApi.to_dict. simpl.
  intros [= -> H%of_opt_str_inj]. by subst.
Qed.

Lemma map_inj {A B} (f : A -> B) (l l' : list A) :
  (forall x y, f x = f y -> x = y) -> map f l = map f l' -> l = l'.
Proof.
  intros Hf. revert l'. induction l as [|x l IH]; intros [|y l']; simpl;
    try done.
  intros [= Hxy Hl]. f_equal; [by apply Hf | by apply IH].
Qed.

Lemma milestone_to_dict_inj (a b : MilestoneRelease.t) :
  MilestoneRelease.to_dict a = MilestoneRelease.to_dict b -> a = b.
Proof.
  destruct a as [tag date apis], b as [tag' date' apis'].
  unfold MilestoneRelease.to_dict. simpl.
  intros [= Htag%of_opt_str_inj Hdate%of_opt_str_inj Hapis]. subst.
  f_equal. eapply map_inj; [|exact Hapis].
  intros x y H. apply cycle_release_api_to_dict_inj.
  cbv beta in H. congruence.
Qed.

Lemma cycle_releases_get (c : CycleReleases.t) :
  Dict.get (CycleReleases.to_dict c) "m1"
  = option_map (fun m => VDict (MilestoneRelease.to_dict m))
      (CycleReleases.m1 c)
  /\ Dict.get (CycleReleases.to_dict c) "m3"
     = option_map (fun m => VDict (MilestoneRelease.to_dict m))
         (CycleReleases.m3 c)
  /\ Dict.get (CycleReleases.to_dict c) "m4"
     = option_map (fun m => VDict (MilestoneRelease.to_dict m))
         (CycleReleases.m4 c).
Proof. by destruct c as [[a|] [b|] [d|]]. Qed.

Lemma milestone_value_inj (a b : option MilestoneRelease.t) :
  option_map (fun m => VDict (MilestoneRelease.to_dict m)) a
  = option_map (fun m => VDict (MilestoneRelease.to_dict m)) b ->
  a = b.
Proof.
  destruct a as [a|], b as [b|]; simpl; intros H; try done.
  f_equal. apply milestone_to_dict_inj. congruence.
Qed.

(** X9. The serialised milestones: a key per milestone that is present, in the
    order m1, m3, m4, each bound to the serialised milestone; the mapping
    is empty exactly when no milestone is present. Nothing is lost: two
    structures with the same serialised form are the same. *)
Theorem cycle_releases_to_dict_spec (c c' : CycleReleases.t) :
  Dict.keys (CycleReleases.to_dict c)
  = ((match CycleReleases.m1 c with Some _ => ["m1"] | None => [] end)
     ++ (match CycleReleases.m3 c with Some _ => ["m3"] | None => [] end)
     ++ (match CycleReleases.m4 c with Some _ => ["m4"] | None => [] end))%list
  /\ Dict.get (CycleReleases.to_dict c) "m1"
     = option_map (fun m => VDict (MilestoneRelease.to_dict m))
         (CycleReleases.m1 c)
  /\ Dict.get (CycleReleases.to_dict c) "m3"
     = option_map (fun m => VDict (MilestoneRelease.to_dict m))
         (CycleReleases.m3 c)
  /\ Dict.get (CycleReleases.to_dict c) "m4"
     = option_map (fun m => VDict (MilestoneRelease.to_dict m))
         (CycleReleases.m4 c)
  /\ (CycleReleases.to_dict c = [] <-> c = CycleReleases.mk None None None)
  /\ (CycleReleases.to_dict c = CycleReleases.to_dict c' -> c = c').
Proof.
  split; [by destruct c as [[a|] [b|] [d|]]|].
  destruct (cycle_releases_get c) as (G1 & G3 & G4).
  destruct (cycle_releases_get c') as (G1' & G3' & G4').
  do 3 (split; [done|]).
  split.
  - destruct c as [[a|] [b|] [d|]]; split; intros H; done.
  - intros H. rewrite H in G1, G3, G4.
    rewrite G1' in G1. rewrite G3' in G3. rewrite G4' in G4.
    destruct c as [a b d], c' as [a' b' d'].
    cbn [CycleReleases.m1 CycleReleases.m3 CycleReleases.m4] in G1, G3, G4.
    apply milestone_value_inj in G1, G3, G4. by subst.
Qed.

(** X10. An API of the plan always serialises its name, target version and
    status; [main_contacts] is written exactly when the list is not
    empty. Nothing is lost: the serialised form determines the entry. *)
Theorem api_entry_to_dict_spec (a b : ApiEntry.t) :
  Dict.keys (ApiEntry.to_dict a)
  = (["api_name"; "target_api_version"; "target_api_status"]
     ++ (match ApiEntry.main_contacts a with
         | [] => []
         | _ :: _ => ["main_contacts"]
         end))%list
  /\ Dict.get (ApiEntry.to_dict a) "api_name" = Some (VStr (ApiEntry.api_name a))
  /\ Dict.get (ApiEntry.to_dict a) "target_api_version"
     = Some (VStr (ApiEntry.target_api_version a))
  /\ Dict.get (ApiEntry.to_dict a) "target_api_status"
     = Some (VStr (ApiEntry.target_api_status a))
  /\ (ApiEntry.main_contacts a <> [] ->
      Dict.get (ApiEntry.to_dict a) "main_contacts"
      = Some (VList (map VStr (ApiEntry.main_contacts a))))
  /\ (ApiEntry.to_dict a = ApiEntry.to_dict b -> a = b).
Proof.
  destruct a as [name version status contacts],
    b as [name' version' status' contacts'].
  unfold ApiEntry.to_dict.
  cbn [ApiEntry.api_name ApiEntry.target_api_version
       ApiEntry.target_api_status ApiEntry.main_contacts].
  split; [by destruct contacts|].
  do 3 (split; [by destruct contacts|]).
  split; [by destruct contacts|].
  destruct contacts as [|x l], contacts' as [|x' l']; cbn; intros H;
    simplify_eq; try done.
  f_equal.
  match goal with
  | H : map VStr _ = map VStr _ |- _ =>
      apply (map_inj VStr) in H; [by simplify_eq | by intros ? ? [=]]
  end.
Qed.

(** X11. The serialised entry does not tell a null [release_track],
    [meta_release] or [dependencies] from an empty one: entries that
    differ only there, both sides null or empty, serialise alike. *)
Theorem progress_entry_to_dict_conflates_empty
    (e : ProgressEntry.t)
    (release_track meta_release : option string) (dependencies : option dict) :
  Py.truthy (ProgressEntry.release_track e) = false ->
  Py.truthy (ProgressEntry.meta_release e) = false ->
  Dict.truthy (ProgressEntry.dependencies e) = false ->
  Py.truthy release_track = false ->
  Py.truthy meta_release = false ->
  Dict.truthy dependencies = false ->
  ProgressEntry.to_dict e
  = ProgressEntry.to_dict
      (ProgressEntry.mk (ProgressEntry.repository e) (ProgressEntry.github_url e)
         release_track meta_release
         (ProgressEntry.target_release_tag e)
         (ProgressEntry.target_release_type e)
         dependencies (ProgressEntry.apis e) (ProgressEntry.state e)
         (ProgressEntry.artifacts e) (ProgressEntry.published_context e)
         (ProgressEntry.cycle_releases e) (ProgressEntry.warnings e)).
Proof.
  intros H1 H2 H3 H4 H5 H6. unfold ProgressEntry.to_dict.
  cbn [ProgressEntry.repository ProgressEntry.github_url
       ProgressEntry.release_track ProgressEntry.meta_release
       ProgressEntry.target_release_tag ProgressEntry.target_release_type
       ProgressEntry.dependencies ProgressEntry.apis ProgressEntry.state
       ProgressEntry.artifacts ProgressEntry.published_context
       ProgressEntry.cycle_releases ProgressEntry.warnings].
  by rewrite H1, H2, H3, H4, H5, H6.
Qed.

Lemma progress_entry_to_dict_conflates_empty_witness :
  ProgressEntry.to_dict
    (Fixtures.cycle_entry "Repo" None [] CycleReleases.default)
  = ProgressEntry.to_dict
      (Fixtures.cycle_entry "Repo" (Some "") [] CycleReleases.default).
Proof.
  exact (progress_entry_to_dict_conflates_empty
           (Fixtures.cycle_entry "Repo" None [] CycleReleases.default)
           None (Some "") None
           eq_refl eq_refl eq_refl eq_refl eq_refl eq_refl).
Defined.

End ModelsMore.

(* ================================================================== *)
(** * Properties of the client's pagination *)
(* ================================================================== *)

Module GitHubClientProps.
Import GitHubClient.

Section ListBranches.
Variable fetch_page : nat -> outcome (list string).
Variable prefix : string.

Lemma list_branches_from_pages (pages : list (list string)) :
  forall (fuel page : nat) (branches : list string),
    (forall i data, pages !! i = Some data ->
                    fetch_page (page + i) = Ok data /\ 100 <= length data) ->
    match fetch_page (page + length pages) with
    | Ok data => length data < 100
    | _ => True
    end ->
    length pages < fuel ->
    list_branches_from fetch_page prefix fuel page branches
    = Some (data ← fetch_page (page + length pages);
            Ok (branches
                ++ List.filter (keep prefix) (concat pages ++ data))%list).
Proof.
  induction pages as [|first pages IH]; intros fuel page branches Hfull Hlast Hfuel;
    (destruct fuel as [|fuel]; [exfalso; clear -Hfuel; lia|]); cbn [list_branches_from].
  - cbn [length concat app] in *. rewrite Nat.add_0_r in *.
    unfold mbind, outcome_bind.
    destruct (fetch_page page) as [data| |]; try done.
    destruct data as [|name data]; [cbn [List.filter]; by rewrite app_nil_r|].
    apply Nat.ltb_lt in Hlast. by rewrite Hlast.
  - destruct (Hfull 0 first eq_refl) as [Hfetch Hlen].
    rewrite Nat.add_0_r in Hfetch. rewrite Hfetch.
    destruct first as [|name first]; [cbn in Hlen; lia|].
    apply Nat.ltb_ge in Hlen. rewrite Hlen.
    cbn [length] in Hlast, Hfuel |- *.
    rewrite (IH fuel (page + 1)).
    + replace (page + 1 + length pages) with (page + S (length pages)) by lia.
      destruct (fetch_page (page + S (length pages))); try done.
      unfold mbind, outcome_bind. cbn [concat].
      by rewrite !List.filter_app, <- !app_assoc.
    + intros i data Hi.
      replace (page + 1 + i) with (page + S i) by lia. by apply Hfull.
    + by replace (page + 1 + length pages) with (page + S (length pages)) by lia.
    + lia.
Qed.

(** X21. Pagination: when the first pages are full (a hundred names or
    more) the loop goes on to the next one, and it stops at the first page
    that is not. If that page arrives, the result is every name of the
    pages read that passes the prefix filter, in page order; if the
    request for it raises, the exception is the result and the names
    gathered are lost. One iteration more than full pages is enough. *)
Theorem list_branches_pages (pages : list (list string)) (fuel : nat) :
  (forall i data, pages !! i = Some data ->
                  fetch_page (S i) = Ok data /\ 100 <= length data) ->
  match fetch_page (S (length pages)) with
  | Ok data => length data < 100
  | _ => True
  end ->
  length pages < fuel ->
  list_branches fetch_page prefix fuel
  = Some (data ← fetch_page (S (length pages));
          Ok (List.filter (keep prefix) (concat pages ++ data)%list)).
Proof.
  intros Hfull Hlast Hfuel. unfold list_branches.
  by rewrite (list_branches_from_pages pages fuel 1 []).
Qed.

Lemma list_branches_from_kept (fuel page : nat) (branches result : list string) :
  list_branches_from fetch_page prefix fuel page branches = Some (Ok result) ->
  exists added, result = (branches ++ added)%list
                /\ Forall (fun name => keep prefix name = true) added.
Proof.
  revert page branches.
  induction fuel as [|fuel IH]; intros page branches; [done|].
  cbn [list_branches_from].
  destruct (fetch_page page) as [data| |]; try done.
  destruct data as [|name data].
  - intros [= <-]. exists []. by rewrite app_nil_r.
  - assert (Hkept : Forall (fun name => keep prefix name = true)
                      (List.filter (keep prefix) (name :: data))).
    { apply Forall_forall. intros x Hx%list_elem_of_In.
      by apply List.filter_In in Hx as [_ Hx]. }
    destruct (length (name :: data) <? 100)%nat.
    + intros [= <-]. by eexists.
    + intros (added & -> & Hadded)%IH.
      eexists. rewrite <- app_assoc. split; [done|].
      by apply Forall_app.
Qed.

(** X22. With a non-empty prefix, every name returned starts with it. *)
Theorem list_branches_keeps_prefix (fuel : nat) (result : list string) :
  prefix <> "" ->
  list_branches fetch_page prefix fuel = Some (Ok result) ->
  Forall (fun name => Spec.starts_with name prefix) result.
Proof.
  intros Hprefix (added & -> & Hadded)%list_branches_from_kept.
  cbn [app]. eapply Forall_impl; [exact Hadded|].
  intros name Hname. unfold keep in Hname.
  apply nonempty_true in Hprefix. rewrite Hprefix in Hname.
  by apply startswith_spec.
Qed.

End ListBranches.

Lemma list_branches_pages_witness :
  list_branches Fixtures.two_pages "release-snapshot/" 2
  = Some (Ok ["release-snapshot/r4.1-abc123"]).
Proof.
  refine (list_branches_pages Fixtures.two_pages "release-snapshot/"
            [repeat "main" 100] 2 _ _ _).
  - intros [|i] data [= <-]. split; [reflexivity | simpl; lia].
  - simpl. lia.
  - simpl. lia.
Defined.

Lemma list_branches_keeps_prefix_witness :
  Forall (fun name => Spec.starts_with name "release-snapshot/")
    ["release-snapshot/r4.1-abc123"].
Proof.
  apply (list_branches_keeps_prefix Fixtures.two_pages "release-snapshot/" 2);
    [discriminate | reflexivity].
Defined.

End GitHubClientProps.

(* ================================================================== *)
(** * Properties of the collector *)
(* ================================================================== *)

Module CollectProgressProps.
Import ProgressState StateDeriver CollectProgress.

(** ** The published-context map *)

Lemma context_map_snoc (repositories : list Repository.t) (repo : Repository.t) :
  build_published_context_map (repositories ++ [repo])
  = <[Spec.name_of repo := Spec.context_of repo]>
      (build_published_context_map repositories).
Proof. unfold build_published_context_map. by rewrite foldl_app. Qed.

Lemma context_map_lookup (repositories : list Repository.t) (name : string) :
  build_published_context_map repositories !! name
  = option_map Spec.context_of (Spec.last_named name repositories).
Proof.
  unfold Spec.last_named.
  induction repositories as [|repo l IH] using rev_ind; [done|].
  rewrite context_map_snoc, rev_app_distr. cbn [rev app List.find].
  destruct (String.eqb (Spec.name_of repo) name) eqn:Heq.
  - apply String.eqb_eq in Heq as <-. by rewrite lookup_insert_eq.
  - apply String.eqb_neq in Heq. by rewrite lookup_insert_ne.
Qed.

(** X12. The context map binds a name to the context of the last ledger
    record that bears it, and every record of the ledger finds a context
    under its own name: the default of the loop's lookup is never used. *)
Theorem build_published_context_map_lookup
    (repositories : list Repository.t) (name : string) :
  build_published_context_map repositories !! name
  = option_map Spec.context_of (Spec.last_named name repositories)
  /\ Forall
       (fun repo =>
          is_Some (build_published_context_map repositories
                     !! Spec.name_of repo))
       repositories.
Proof.
  split; [apply context_map_lookup|].
  apply Forall_forall. intros repo Hin.
  rewrite context_map_lookup. unfold Spec.last_named.
  destruct (List.find _ (rev repositories)) eqn:Hfind; [by eexists|].
  exfalso. eapply List.find_none in Hfind.
  - by rewrite String.eqb_refl in Hfind.
  - apply in_rev. rewrite rev_involutive. by apply list_elem_of_In.
Qed.

(** ** Draft releases *)

Lemma draft_mentions_test (tag : string) (dr : DraftRelease.t) :
  tag <> "" ->
  Py.contains (Py.or_empty (DraftRelease.name dr)) tag
  || Py.contains (Py.or_empty (DraftRelease.tag_name dr)) tag = true
  <-> Spec.draft_mentions tag dr.
Proof.
  intros Htag.
  assert (Hfield : forall o : option string,
             Py.contains (Py.or_empty o) tag = true <->
             exists n, o = Some n /\ Spec.substring_of tag n).
  { intros [n|].
    - simpl. rewrite contains_spec. split; [eauto | by intros (? & [= ->] & ?)].
    - change (Py.or_empty None) with "". rewrite contains_nil.
      destruct tag; [done|]. simpl.
      split; [done | by intros (? & [=] & _)]. }
  rewrite orb_true_iff, !Hfield. done.
Qed.

Lemma has_matching_draft_existsb (drafts : list DraftRelease.t) (tag : string) :
  _has_matching_draft drafts (Some tag)
  = Py.nonempty tag
    && existsb
         (fun dr =>
            Py.contains (Py.or_empty (DraftRelease.name dr)) tag
            || Py.contains (Py.or_empty (DraftRelease.tag_name dr)) tag)
         drafts.
Proof.
  unfold _has_matching_draft. destruct drafts as [|d l].
  - by rewrite andb_false_r.
  - by destruct (Py.nonempty tag).
Qed.

Lemma find_draft_release_found (drafts : list DraftRelease.t)
    (target_tag : option string) :
  is_Some (find_draft_release drafts target_tag)
  <-> _has_matching_draft drafts target_tag = true.
Proof.
  destruct target_tag as [tag|].
  2:{ unfold find_draft_release.
      replace (List.find _ drafts) with (@None DraftRelease.t).
      - split; [by intros [? [=]] | done].
      - induction drafts; simpl; done. }
  rewrite has_matching_draft_existsb. unfold find_draft_release.
  destruct (Py.nonempty tag); cbn [andb].
  - induction drafts as [|d l IH]; cbn [List.find existsb].
    + split; [by intros [? [=]] | done].
    + destruct (_ || _); [split; [done | by eexists] | exact IH].
  - replace (List.find _ drafts) with (@None DraftRelease.t).
    + split; [by intros [? [=]] | done].
    + induction drafts; simpl; done.
Qed.

(** X13. The draft recorded among the artifacts is the first draft release
    whose name or tag mentions the target tag, reduced to its name and
    URL; one is recorded exactly when the state deriver finds a matching
    draft. *)
Theorem find_draft_release_agrees (drafts : list DraftRelease.t)
    (target_tag : option string) :
  (is_Some (find_draft_release drafts target_tag)
   <-> _has_matching_draft drafts target_tag = true)
  /\ (forall d,
        find_draft_release drafts target_tag = Some d <->
        exists tag dr,
          target_tag = Some tag /\ tag <> ""
          /\ Spec.first_such (Spec.draft_mentions tag) drafts dr
          /\ d = [("name", Dict.of_opt_str (DraftRelease.name dr));
                  ("url", Dict.of_opt_str (DraftRelease.html_url dr))]).
Proof.
  split; [apply find_draft_release_found|].
  intros d. unfold find_draft_release.
  destruct target_tag as [tag|].
  2:{ replace (List.find _ drafts) with (@None DraftRelease.t).
      - split; [done | by intros (? & ? & [=] & _)].
      - induction drafts; simpl; done. }
  destruct (Py.nonempty tag) eqn:Htag; cbn [andb].
  - apply nonempty_true in Htag.
    destruct (List.find _ drafts) as [dr|] eqn:Hfind.
    + apply find_first_such in Hfind.
      assert (Hfirst : Spec.first_such (Spec.draft_mentions tag) drafts dr).
      { destruct Hfind as (before & after & -> & Hdr & Hbefore).
        exists before, after. split; [done|]. split.
        - by apply draft_mentions_test.
        - eapply Forall_impl; [exact Hbefore|]. intros y Hy H.
          by apply Hy, draft_mentions_test. }
      split.
      * intros [= <-]. by exists tag, dr.
      * intros (tag' & dr' & [= <-] & _ & Hfirst' & ->).
        destruct Hfirst as (b1 & a1 & H1 & Hd1 & Hb1).
        destruct Hfirst' as (b2 & a2 & H2 & Hd2 & Hb2).
        assert (dr = dr') as ->; [|done].
        rewrite H1 in H2. clear H1 Hfind.
        revert b2 H2 Hb2. induction b1 as [|x b1 IH]; intros [|y b2] H2 Hb2;
          simplify_eq/=; try done.
        -- by inversion Hb2.
        -- by inversion Hb1.
        -- inversion Hb1; inversion Hb2; subst. eauto.
    + split; [done|].
      intros (tag' & dr' & [= <-] & _ & (before & after & -> & Hdr & _) & _).
      apply find_none_forall in Hfind.
      apply Forall_app in Hfind as [_ Hfind]. inversion Hfind; subst.
      by apply draft_mentions_test in Hdr.
  - apply nonempty_false in Htag. subst.
    replace (List.find _ drafts) with (@None DraftRelease.t).
    + split; [done | by intros (? & ? & [= <-] & ? & _)].
    + induction drafts; simpl; done.
Qed.

Section Collector.
Variable yaml_safe_load : string -> option ReleasePlan.t.

(** ** One repository *)

Lemma keep_truthy_str_some (o : option string) (b : string) :
  keep_truthy_str o = Some b <-> o = Some b /\ b <> "".
Proof.
  unfold keep_truthy_str. destruct o as [[|c s]|]; simpl; split;
    try done; try (by intros [[=] ?]); try (by intros [[= <-] ?]).
  by intros [= <-].
Qed.

Lemma keep_truthy_snapshot (branches : list string) (target_tag : option string) :
  keep_truthy_str (find_matching_snapshot branches target_tag)
  = find_matching_snapshot branches target_tag.
Proof.
  destruct (find_matching_snapshot branches target_tag) as [b|] eqn:H; [|done].
  unfold keep_truthy_str.
  by rewrite (StateDeriverProps.find_matching_snapshot_truthy _ _ _ H).
Qed.

(** X14. An entry that the collector returns carries the repository name,
    URL and published context it was called with, milestones derived for
    its own planned APIs, and artifacts that agree with its state: the
    state is [NOT_PLANNED] exactly when the plan has no release type, and
    then no pull request, draft or issue is recorded; a recorded snapshot
    branch has the form [release-snapshot/{tag}-...] for the non-empty
    target tag; [SNAPSHOT_ACTIVE] and [DRAFT_READY] come with a snapshot
    branch, [DRAFT_READY] with a draft release, [PLANNED] without a
    snapshot branch; a pull request is only recorded beside a snapshot
    branch. *)
Theorem collected_entry_consistent
    (repo_name github_url : string) (api : GitHubAPI.t)
    (all_releases : list Release.t) (published_context : PublishedContext.t)
    (e : ProgressEntry.t) :
  collect_repo_progress yaml_safe_load repo_name github_url api all_releases
    published_context = Ok (Some e) ->
  let artifacts := ProgressEntry.artifacts e in
  let target_type := ProgressEntry.target_release_type e in
  ProgressEntry.repository e = repo_name
  /\ ProgressEntry.github_url e = github_url
  /\ ProgressEntry.published_context e = published_context
  /\ MilestoneDeriver.derive_cycle_releases repo_name
       (ProgressEntry.meta_release e) all_releases
       (map ApiEntry.api_name (ProgressEntry.apis e))
     = Ok (ProgressEntry.cycle_releases e)
  /\ (ProgressEntry.state e = NOT_PLANNED <->
      target_type = None \/ target_type = Some ""
      \/ target_type = Some "none")
  /\ (ProgressEntry.state e = NOT_PLANNED -> Spec.bare_artifacts artifacts)
  /\ (forall branch,
        ArtifactInfo.snapshot_branch artifacts = Some branch ->
        exists tag,
          ProgressEntry.target_release_tag e = Some tag /\ tag <> ""
          /\ Spec.starts_with branch (snapshot_prefix tag))
  /\ (ProgressEntry.state e = SNAPSHOT_ACTIVE
      \/ ProgressEntry.state e = DRAFT_READY ->
      ArtifactInfo.snapshot_branch artifacts <> None)
  /\ (ProgressEntry.state e = DRAFT_READY ->
      ArtifactInfo.draft_release artifacts <> None)
  /\ (ProgressEntry.state e = PLANNED ->
      ArtifactInfo.snapshot_branch artifacts = None)
  /\ (ArtifactInfo.release_pr artifacts <> None ->
      ArtifactInfo.snapshot_branch artifacts <> None).
Proof.
  intros H. cbv zeta. unfold collect_repo_progress in H.
  unfold mbind, outcome_bind in H.
  destruct (GitHubAPI.get_file_content api repo_name "release-plan.yaml")
    as [[content|]| |]; try done.
  unfold parse_release_plan in H.
  destruct (yaml_safe_load content) as [plan|]; [|done].
  set (target_type := get_or (ReleasePlan.target_release_type plan) "none") in *.
  set (target_tag := get (ReleasePlan.target_release_tag plan)) in *.
  assert (Hshape : forall branches branch,
             find_matching_snapshot branches target_tag = Some branch ->
             exists tag, target_tag = Some tag /\ tag <> ""
                         /\ Spec.starts_with branch (snapshot_prefix tag)).
  { intros branches branch Hb.
    destruct (StateDeriverProps.find_matching_snapshot_shape _ _ _ Hb)
      as (tag & suffix & -> & Htag & ->).
    exists tag. repeat split; [done|]. exists suffix.
    by rewrite StateDeriverProps.snapshot_prefix_unfold. }
  destruct (negb (Py.truthy target_type) || Py.eqb target_type (Some "none"))
    eqn:Hguard.
  - destruct (GitHubAPI.list_branches api repo_name "release-snapshot/")
      as [branches| |]; try done.
    destruct (MilestoneDeriver.derive_cycle_releases repo_name
                (get (ReleasePlan.meta_release plan)) all_releases
                (map ApiEntry.api_name (parse_apis (ReleasePlan.apis plan))))
      as [cycle_releases| |] eqn:Hcycle; try done.
    injection H as <-.
    cbn [ProgressEntry.repository ProgressEntry.github_url
         ProgressEntry.published_context ProgressEntry.cycle_releases
         ProgressEntry.meta_release ProgressEntry.apis ProgressEntry.state
         ProgressEntry.artifacts ProgressEntry.target_release_type
         ProgressEntry.target_release_tag
         ArtifactInfo.snapshot_branch ArtifactInfo.release_pr
         ArtifactInfo.draft_release ArtifactInfo.release_issue].
    unfold derive_state. rewrite Hguard.
    assert (Hno : target_type = None \/ target_type = Some ""
                  \/ target_type = Some "none").
    { apply orb_true_iff in Hguard as [Hg|Hg].
      - apply negb_true_iff, truthy_false in Hg. tauto.
      - apply py_eqb_true in Hg. tauto. }
    repeat split; try done.
    + intros branch Hb. destruct branches as [|b0 bs]; [done|].
      rewrite keep_truthy_snapshot in Hb. by eapply Hshape.
    + by intros [|].
  - destruct (GitHubAPI.tag_exists api repo_name target_tag)
      as [tag_exists| |]; try done.
    destruct (GitHubAPI.list_branches api repo_name "release-snapshot/")
      as [branches| |]; try done.
    destruct (GitHubAPI.get_draft_releases api repo_name)
      as [drafts| |]; try done.
    rewrite keep_truthy_snapshot in H.
    assert (Hpr : exists release_pr release_issue cycle_releases,
               (find_matching_snapshot branches target_tag = None ->
                release_pr = None)
               /\ MilestoneDeriver.derive_cycle_releases repo_name
                    (get (ReleasePlan.meta_release plan)) all_releases
                    (map ApiEntry.api_name
                       (parse_apis (ReleasePlan.apis plan)))
                  = Ok cycle_releases
               /\ e = ProgressEntry.mk repo_name github_url
                        (get (ReleasePlan.release_track plan))
                        (get (ReleasePlan.meta_release plan))
                        target_tag target_type
                        (ReleasePlan.dependencies plan)
                        (parse_apis (ReleasePlan.apis plan))
                        (derive_state target_type target_tag tag_exists
                           branches drafts)
                        (ArtifactInfo.mk
                           (find_matching_snapshot branches target_tag)
                           release_pr
                           (find_draft_release drafts target_tag)
                           (keep_truthy release_issue))
                        published_context cycle_releases
                        (ProgressEntry.warnings e)).
    { destruct (MilestoneDeriver.derive_cycle_releases repo_name
                  (get (ReleasePlan.meta_release plan)) all_releases
                  (map ApiEntry.api_name (parse_apis (ReleasePlan.apis plan))))
        as [cycle_releases| |] eqn:Hcycle.
      - destruct (find_matching_snapshot branches target_tag) as [branch|].
        + destruct (Py.nonempty branch).
          * destruct (GitHubAPI.find_release_pr api repo_name branch)
              as [pr| |]; try done.
            destruct (GitHubAPI.find_release_issue api repo_name)
              as [release_issue| |]; try done.
            injection H as <-. by exists (keep_truthy pr), release_issue, cycle_releases.
          * destruct (GitHubAPI.find_release_issue api repo_name)
              as [release_issue| |]; try done.
            injection H as <-. by exists None, release_issue, cycle_releases.
        + destruct (GitHubAPI.find_release_issue api repo_name)
            as [release_issue| |]; try done.
          injection H as <-. by exists None, release_issue, cycle_releases.
      - exfalso.
        destruct (find_matching_snapshot branches target_tag) as [branch|];
          [destruct (Py.nonempty branch);
           [destruct (GitHubAPI.find_release_pr api repo_name branch);
            try done|]|];
          by destruct (GitHubAPI.find_release_issue api repo_name).
      - exfalso.
        destruct (find_matching_snapshot branches target_tag) as [branch|];
          [destruct (Py.nonempty branch);
           [destruct (GitHubAPI.find_release_pr api repo_name branch);
            try done|]|];
          by destruct (GitHubAPI.find_release_issue api repo_name). }
    clear H.
    destruct Hpr as (release_pr & release_issue & cycle_releases
                     & Hnopr & Hcycle & ->).
    cbn [ProgressEntry.repository ProgressEntry.github_url
         ProgressEntry.published_context ProgressEntry.cycle_releases
         ProgressEntry.meta_release ProgressEntry.apis ProgressEntry.state
         ProgressEntry.artifacts ProgressEntry.target_release_type
         ProgressEntry.target_release_tag
         ArtifactInfo.snapshot_branch ArtifactInfo.release_pr
         ArtifactInfo.draft_release ArtifactInfo.release_issue].
    assert (Hplan : ~ (target_type = None \/ target_type = Some ""
                       \/ target_type = Some "none")).
    { apply orb_false_iff in Hguard as [Hg1 Hg2].
      apply negb_false_iff, truthy_true in Hg1 as (s & Hs & Hne).
      apply py_eqb_false in Hg2. intros [?|[?|?]]; congruence. }
    unfold derive_state. rewrite Hguard.
    destruct tag_exists.
    { repeat split; try done; try tauto;
        try (by intros [|]);
        try (intros branch Hb; by eapply Hshape);
        try (intros Hp Hs; apply Hp; by apply Hnopr). }
    destruct (find_matching_snapshot branches target_tag) as [branch|] eqn:Hs.
    + rewrite (StateDeriverProps.find_matching_snapshot_truthy _ _ _ Hs).
      destruct (_has_matching_draft drafts target_tag) eqn:Hd.
      * apply find_draft_release_found in Hd as [d ->].
        repeat split; try done; try tauto;
          try (intros b [= <-]; by eapply Hshape).
      * repeat split; try done; try tauto;
          try (intros b [= <-]; by eapply Hshape).
    + cbn [Py.truthy]. repeat split; try done; try tauto;
        try (by intros [|]);
        try (intros Hp _; apply Hp; by apply Hnopr).
Qed.

(** X15. For a repository whose plan has no release type (the key
    missing, null, empty or [none]) only the plan and the snapshot
    branches are fetched: the outcome is the same with any client that
    agrees on these two calls, and an entry that comes back is in state
    [NOT_PLANNED]. *)
Theorem not_planned_skips_artifact_checks
    (repo_name github_url content : string) (plan : ReleasePlan.t)
    (api api' : GitHubAPI.t) (all_releases : list Release.t)
    (published_context : PublishedContext.t) :
  GitHubAPI.get_file_content api repo_name "release-plan.yaml"
  = Ok (Some content) ->
  yaml_safe_load content = Some plan ->
  ReleasePlan.target_release_type plan = Missing
  \/ ReleasePlan.target_release_type plan = Null
  \/ ReleasePlan.target_release_type plan = Value ""
  \/ ReleasePlan.target_release_type plan = Value "none" ->
  GitHubAPI.get_file_content api' repo_name "release-plan.yaml"
  = GitHubAPI.get_file_content api repo_name "release-plan.yaml" ->
  GitHubAPI.list_branches api' repo_name "release-snapshot/"
  = GitHubAPI.list_branches api repo_name "release-snapshot/" ->
  collect_repo_progress yaml_safe_load repo_name github_url api' all_releases
    published_context
  = collect_repo_progress yaml_safe_load repo_name github_url api all_releases
      published_context
  /\ forall e,
       collect_repo_progress yaml_safe_load repo_name github_url api
         all_releases published_context = Ok (Some e) ->
       ProgressEntry.state e = NOT_PLANNED.
Proof.
  intros Hfile Hplan Htype Hfile' Hbranches.
  unfold collect_repo_progress, parse_release_plan.
  rewrite Hfile', Hbranches, Hfile. unfold mbind, outcome_bind.
  rewrite Hplan.
  assert (Hguard : negb (Py.truthy
                           (get_or (ReleasePlan.target_release_type plan) "none"))
                   || Py.eqb (get_or (ReleasePlan.target_release_type plan)
                                "none") (Some "none") = true).
  { by destruct Htype as [-> | [-> | [-> | ->]]]. }
  rewrite Hguard. split; [done|].
  intros e. destruct (GitHubAPI.list_branches api repo_name "release-snapshot/");
    try done.
  destruct (MilestoneDeriver.derive_cycle_releases _ _ _ _); try done.
  intros [= <-]. cbn [ProgressEntry.state]. unfold derive_state.
  by rewrite Hguard.
Qed.

(** ** The collection loop *)

Lemma collect_loop_cons (api : GitHubAPI.t) (all_releases : list Release.t)
    (context_map : gmap string PublishedContext.t)
    (repo_data : Repository.t) (rest : list Repository.t) (acc : progress) :
  collect_loop yaml_safe_load api all_releases context_map (repo_data :: rest) acc
  = match Spec.collected yaml_safe_load api all_releases context_map repo_data with
    | Ok (Some entry) =>
        collect_loop yaml_safe_load api all_releases context_map rest
          (mk_progress (entries acc ++ [entry])%list (with_plan acc + 1)
             (if Spec.is_planned entry then planned acc + 1 else planned acc))
    | Ok None | Failure =>
        collect_loop yaml_safe_load api all_releases context_map rest acc
    | RateLimitError => acc
    end.
Proof.
  cbn [collect_loop]. unfold Spec.collected, Spec.name_of.
  destruct (collect_repo_progress _ _ _ _ _ _) as [[entry|]| |]; try done.
  unfold Spec.is_planned. by destruct (ProgressEntry.state entry).
Qed.

(** X16. A rate-limit error ends the pass: the result is that of the
    repositories before the one that hit the limit, whatever follows
    it in the ledger. *)
Theorem collect_loop_rate_limit (api : GitHubAPI.t)
    (all_releases : list Release.t)
    (context_map : gmap string PublishedContext.t)
    (before after : list Repository.t) (repo_data : Repository.t)
    (acc : progress) :
  Spec.collected yaml_safe_load api all_releases context_map repo_data
  = RateLimitError ->
  collect_loop yaml_safe_load api all_releases context_map
    (before ++ repo_data :: after)%list acc
  = collect_loop yaml_safe_load api all_releases context_map before acc.
Proof.
  intros Hlimit. revert acc.
  induction before as [|r l IH]; intros acc.
  - cbn [app]. rewrite collect_loop_cons, Hlimit. done.
  - cbn [app]. rewrite !collect_loop_cons.
    destruct (Spec.collected _ _ _ _ r) as [[entry|]| |]; try done;
      apply IH.
Qed.

(** X17. A repository without a (well-formed) plan, or whose collection
    fails with an error other than the rate limit, leaves no trace: the
    pass gives what it gives on the ledger without that record. *)
Theorem collect_loop_skips (api : GitHubAPI.t)
    (all_releases : list Release.t)
    (context_map : gmap string PublishedContext.t)
    (before after : list Repository.t) (repo_data : Repository.t)
    (acc : progress) :
  Spec.collected yaml_safe_load api all_releases context_map repo_data = Ok None
  \/ Spec.collected yaml_safe_load api all_releases context_map repo_data
     = Failure ->
  collect_loop yaml_safe_load api all_releases context_map
    (before ++ repo_data :: after)%list acc
  = collect_loop yaml_safe_load api all_releases context_map
      (before ++ after)%list acc.
Proof.
  intros Hskip. revert acc.
  induction before as [|r l IH]; intros acc.
  - cbn [app]. rewrite collect_loop_cons. by destruct Hskip as [-> | ->].
  - cbn [app]. rewrite !collect_loop_cons.
    destruct (Spec.collected _ _ _ _ r) as [[entry|]| |]; try done;
      apply IH.
Qed.

Lemma collected_name (api : GitHubAPI.t) (all_releases : list Release.t)
    (context_map : gmap string PublishedContext.t) (repo_data : Repository.t)
    (e : ProgressEntry.t) :
  Spec.collected yaml_safe_load api all_releases context_map repo_data
  = Ok (Some e) ->
  ProgressEntry.repository e = Spec.name_of repo_data
  /\ Spec.derived_for_own_apis e.
Proof.
  intros H. unfold Spec.collected in H.
  unfold collect_repo_progress, mbind, outcome_bind, parse_release_plan in H.
  destruct (GitHubAPI.get_file_content _ _ _) as [[content|]| |]; try done.
  destruct (yaml_safe_load content) as [plan|]; [|done].
  destruct (negb _ || _).
  - destruct (GitHubAPI.list_branches _ _ _); try done.
    destruct (MilestoneDeriver.derive_cycle_releases _ _ _ _) eqn:Hcycle;
      try done.
    injection H as <-. split; [done|]. by eexists _, _.
  - destruct (GitHubAPI.tag_exists _ _ _); try done.
    destruct (GitHubAPI.list_branches _ _ _); try done.
    destruct (GitHubAPI.get_draft_releases _ _); try done.
    destruct (find_matching_snapshot _ _) as [branch|].
    + destruct (Py.nonempty branch).
      * destruct (GitHubAPI.find_release_pr _ _ _); try done.
        destruct (GitHubAPI.find_release_issue _ _); try done.
        destruct (MilestoneDeriver.derive_cycle_releases _ _ _ _) eqn:Hcycle;
          try done.
        injection H as <-. split; [done|]. by eexists _, _.
      * destruct (GitHubAPI.find_release_issue _ _); try done.
        destruct (MilestoneDeriver.derive_cycle_releases _ _ _ _) eqn:Hcycle;
          try done.
        injection H as <-. split; [done|]. by eexists _, _.
    + destruct (GitHubAPI.find_release_issue _ _); try done.
      destruct (MilestoneDeriver.derive_cycle_releases _ _ _ _) eqn:Hcycle;
        try done.
      injection H as <-. split; [done|]. by eexists _, _.
Qed.

(** What the loop adds to its accumulator. *)
Lemma collect_loop_spec (api : GitHubAPI.t) (all_releases : list Release.t)
    (context_map : gmap string PublishedContext.t)
    (repositories : list Repository.t) (acc : progress) :
  exists new,
    entries (collect_loop yaml_safe_load api all_releases context_map
               repositories acc)
    = (entries acc ++ new)%list
    /\ with_plan (collect_loop yaml_safe_load api all_releases context_map
                    repositories acc)
       = with_plan acc + length new
    /\ planned (collect_loop yaml_safe_load api all_releases context_map
                  repositories acc)
       = planned acc + length (List.filter Spec.is_planned new)
    /\ sublist (map ProgressEntry.repository new)
         (map Spec.name_of repositories)
    /\ Forall Spec.derived_for_own_apis new.
Proof.
  revert acc. induction repositories as [|r l IH]; intros acc.
  - exists []. cbn. rewrite app_nil_r. repeat split; try lia; constructor.
  - rewrite collect_loop_cons.
    destruct (Spec.collected _ _ _ _ r) as [[entry|]| |] eqn:Hr.
    + destruct (collected_name _ _ _ _ _ Hr) as [Hname Hder].
      destruct (IH (mk_progress (entries acc ++ [entry])%list (with_plan acc + 1)
                      (if Spec.is_planned entry then planned acc + 1
                       else planned acc)))
        as (new & He & Hw & Hp & Hsub & Hall).
      exists (entry :: new). rewrite He, Hw, Hp.
      cbn [entries with_plan planned map length List.filter].
      rewrite <- app_assoc. repeat split; try done.
      * lia.
      * destruct (Spec.is_planned entry); cbn [length]; lia.
      * rewrite Hname. by constructor.
      * by constructor.
    + destruct (IH acc) as (new & He & Hw & Hp & Hsub & Hall).
      exists new. repeat split; try done. cbn [map]. by constructor.
    + exists []. cbn. rewrite app_nil_r. repeat split; try lia;
        try constructor. apply sublist_nil_l.
    + destruct (IH acc) as (new & He & Hw & Hp & Hsub & Hall).
      exists new. repeat split; try done. cbn [map]. by constructor.
Qed.

(** ** The report *)

(** X18. The statistics agree with the report: [repos_scanned] is the
    length of the ledger, [repos_with_plan] the number of entries,
    [repos_planned] the number of entries in a state other than
    [NOT_PLANNED]; so planned <= with plan <= scanned. *)
Theorem collect_all_statistics (api : GitHubAPI.t)
    (repositories : list Repository.t) (all_releases : list Release.t) :
  let result := collect_all yaml_safe_load api repositories all_releases in
  let stats := result.1.1 in
  let progress := result.2 in
  CollectionStats.repos_scanned stats = length repositories
  /\ CollectionStats.repos_with_plan stats = length progress
  /\ CollectionStats.repos_planned stats
     = length (List.filter Spec.is_planned progress)
  /\ CollectionStats.repos_planned stats
     <= CollectionStats.repos_with_plan stats
  /\ CollectionStats.repos_with_plan stats
     <= CollectionStats.repos_scanned stats.
Proof.
  cbv zeta. unfold collect_all.
  cbn [fst snd CollectionStats.repos_scanned CollectionStats.repos_with_plan
       CollectionStats.repos_planned].
  destruct (collect_loop_spec api all_releases
              (build_published_context_map repositories) repositories
              (mk_progress [] 0 0))
    as (new & He & Hw & Hp & Hsub & _).
  cbn [entries with_plan planned app] in He, Hw, Hp.
  rewrite He, Hw, Hp. cbn [Nat.add].
  repeat split.
  - apply List.filter_length_le.
  - apply sublist_length in Hsub. by rewrite !length_map in Hsub.
Qed.

(** X19. The entries stand in ledger order: their repository names are
    the names of the ledger's records with some records left out. *)
Theorem collect_all_ledger_order (api : GitHubAPI.t)
    (repositories : list Repository.t) (all_releases : list Release.t) :
  sublist
    (map ProgressEntry.repository
       (collect_all yaml_safe_load api repositories all_releases).2)
    (map Spec.name_of repositories).
Proof.
  unfold collect_all. cbn [snd].
  destruct (collect_loop_spec api all_releases
              (build_published_context_map repositories) repositories
              (mk_progress [] 0 0))
    as (new & He & _ & _ & Hsub & _).
  cbn [entries app] in He. by rewrite He.
Qed.

Lemma sorted_items_spec (summary_data : gmap string MilestoneDeriver.summary) :
  StronglySorted (Spec.key_lt fst) (sorted_items summary_data)
  /\ forall c s, In (c, s) (sorted_items summary_data) <-> summary_data !! c = Some s.
Proof.
  unfold sorted_items.
  pose proof (sort_by_key_perm fst (map_to_list summary_data)) as Hperm.
  pose proof (sort_by_key_sorted fst (map_to_list summary_data)) as Hsorted.
  pose proof (NoDup_fst_map_to_list summary_data) as Hnd.
  split.
  - assert (Hnd' : NoDup (MilestoneDeriver.sort_by_key fst
                            (map_to_list summary_data)).*1).
    { by rewrite <- Hperm. }
    revert Hsorted Hnd'.
    generalize (MilestoneDeriver.sort_by_key fst (map_to_list summary_data)).
    induction 1 as [|x l Hl IH Hx]; intros Hnd'; [constructor|].
    rewrite fmap_cons in Hnd'. apply NoDup_cons in Hnd' as [Hx' Hnd'].
    constructor; [by apply IH|].
    rewrite Forall_forall in *. intros y Hy. specialize (Hx y Hy).
    unfold Spec.key_le, Spec.key_lt in *.
    destruct (String.ltb (x.1) (y.1)) eqn:Hlt; [done|].
    exfalso. apply Hx'.
    assert (x.1 = y.1) as ->.
    { apply MilestoneDeriverMore.leb_antisym_eq; [done|].
      unfold String.leb, String.ltb in *.
      rewrite (String.compare_antisym (y.1) (x.1)).
      destruct (String.compare x.1 y.1); done. }
    apply list_elem_of_fmap. by exists y.
  - intros c s. rewrite <- elem_of_map_to_list.
    rewrite <- list_elem_of_In. by rewrite <- Hperm.
Qed.

(** X20. The cycle summaries of the report are ordered by strictly
    increasing name; a cycle is listed exactly when its name is not empty
    and some collected entry belongs to it; each line holds the sums over
    the entries of its cycle, and no line reports more achieved APIs than
    planned ones. *)
Theorem collect_all_meta_releases (api : GitHubAPI.t)
    (repositories : list Repository.t) (all_releases : list Release.t) :
  let result := collect_all yaml_safe_load api repositories all_releases in
  let meta_releases := result.1.2 in
  let progress := result.2 in
  StronglySorted (Spec.key_lt MetaReleaseSummary.name) meta_releases
  /\ (forall c,
        In c (map MetaReleaseSummary.name meta_releases) <->
        c <> ""
        /\ Exists (fun e => ProgressEntry.meta_release e = Some c) progress)
  /\ Forall
       (fun m => m = Spec.cycle_report (MetaReleaseSummary.name m) progress)
       meta_releases
  /\ Forall Spec.within_total meta_releases.
Proof.
  cbv zeta. unfold collect_all. cbn [fst snd].
  destruct (collect_loop_spec api all_releases
              (build_published_context_map repositories) repositories
              (mk_progress [] 0 0))
    as (new & He & _ & _ & _ & Hder).
  cbn [entries app] in He. rewrite He. clear He.
  destruct (sorted_items_spec
              (MilestoneDeriver.build_meta_release_summaries new))
    as [Hsorted Hin].
  set (line := fun item : string * MilestoneDeriver.summary =>
                 MetaReleaseSummary.mk item.1
                   (MilestoneDeriver.total_apis item.2)
                   (MilestoneDeriver.m1_achieved item.2)
                   (MilestoneDeriver.m3_achieved item.2)
                   (MilestoneDeriver.m4_achieved item.2)).
  assert (Hline : forall item,
             In item (sorted_items
                        (MilestoneDeriver.build_meta_release_summaries new)) ->
             item.1 <> ""
             /\ Spec.cycle_entries item.1 new <> []
             /\ line item = Spec.cycle_report item.1 new).
  { intros [c s] Hitem. apply Hin in Hitem.
    rewrite MilestoneDeriverProps.build_lookup in Hitem. cbn [fst snd].
    destruct (Py.nonempty c) eqn:Hc; [|done]. apply nonempty_true in Hc.
    destruct (Spec.cycle_entries c new); [done|].
    injection Hitem as <-. done. }
  split; [|split; [|split]].
  - revert Hsorted. clear.
    induction 1 as [|x l Hl IH Hx]; cbn [map]; constructor; [done|].
    apply Forall_forall. intros m (y & -> & Hy)%list_elem_of_fmap.
    rewrite Forall_forall in Hx. by apply Hx.
  - intros c. split.
    + intros (m & <- & (item & <- & Hitem)%List.in_map_iff)%List.in_map_iff.
      destruct (Hline item Hitem) as (Hc & Hne & _). split; [done|].
      by apply MilestoneDeriverProps.cycle_entries_nonempty.
    + intros [Hc Hex].
      apply MilestoneDeriverProps.cycle_entries_nonempty in Hex.
      apply List.in_map_iff.
      exists (Spec.cycle_report c new). split; [done|].
      apply List.in_map_iff. exists (c, Spec.cycle_summary c new).
      split; [done|]. apply Hin.
      rewrite MilestoneDeriverProps.build_lookup.
      apply nonempty_true in Hc. rewrite Hc.
      by destruct (Spec.cycle_entries c new).
  - apply Forall_forall.
    intros m (item & -> & Hitem%list_elem_of_In)%list_elem_of_fmap.
    by destruct (Hline item Hitem) as (_ & _ & ->).
  - apply Forall_forall.
    intros m (item & -> & Hitem%list_elem_of_In)%list_elem_of_fmap.
    destruct (Hline item Hitem) as (_ & _ & Heq).
    change (Spec.within_total (line item)). rewrite Heq.
    apply (MilestoneDeriverMore.cycle_summary_bound new item.1 Hder).
Qed.

End Collector.

(** ** The scenarios of tests/test_collect_progress.py *)

Lemma not_planned_skips_artifact_checks_witness :
  collect_repo_progress Fixtures.sample_yaml "InactiveRepo"
    "https://github.com/camaraproject/InactiveRepo"
    (GitHubAPI.mk
       (fun _ _ => Ok (Some "PLAN_NONE")) (fun _ _ => Ok [])
       (fun _ _ => Failure) (fun _ => RateLimitError)
       (fun _ => Failure) (fun _ _ => Failure))
    [] (PublishedContext.mk None None)
  = collect_repo_progress Fixtures.sample_yaml "InactiveRepo"
      "https://github.com/camaraproject/InactiveRepo"
      (Fixtures.MockGitHubAPI
         [("InactiveRepo/release-plan.yaml", "PLAN_NONE")] [] [] [] [] [])
      [] (PublishedContext.mk None None)
  /\ forall e,
       collect_repo_progress Fixtures.sample_yaml "InactiveRepo"
         "https://github.com/camaraproject/InactiveRepo"
         (Fixtures.MockGitHubAPI
            [("InactiveRepo/release-plan.yaml", "PLAN_NONE")] [] [] [] [] [])
         [] (PublishedContext.mk None None) = Ok (Some e) ->
       ProgressEntry.state e = NOT_PLANNED.
Proof.
  apply (not_planned_skips_artifact_checks Fixtures.sample_yaml
           "InactiveRepo" _ "PLAN_NONE" Fixtures.PLAN_NONE);
    [reflexivity | reflexivity | by do 3 right | reflexivity | reflexivity].
Defined.

Lemma collected_entry_consistent_witness :
  exists e,
    collect_repo_progress Fixtures.sample_yaml "QualityOnDemand"
      "https://github.com/camaraproject/QualityOnDemand"
      (Fixtures.MockGitHubAPI
         [("QualityOnDemand/release-plan.yaml", "PLAN_RC")]
         [("QualityOnDemand", ["release-snapshot/r4.1-abc123"])] []
         [("QualityOnDemand",
           [DraftRelease.mk (Some "r4.1 pre-release-rc") (Some "r4.1")
              (Some "https://example.com/release")])] [] [])
      [] (PublishedContext.mk (Some "r3.2") None)
    = Ok (Some e)
    /\ ProgressEntry.state e = DRAFT_READY
    /\ ArtifactInfo.draft_release (ProgressEntry.artifacts e) <> None.
Proof.
  eexists. split; [reflexivity|]. split; [reflexivity|].
  match goal with
  | |- ArtifactInfo.draft_release (ProgressEntry.artifacts ?e) <> None =>
      destruct (collected_entry_consistent Fixtures.sample_yaml
                  "QualityOnDemand"
                  "https://github.com/camaraproject/QualityOnDemand"
                  (Fixtures.MockGitHubAPI
                     [("QualityOnDemand/release-plan.yaml", "PLAN_RC")]
                     [("QualityOnDemand", ["release-snapshot/r4.1-abc123"])] []
                     [("QualityOnDemand",
                       [DraftRelease.mk (Some "r4.1 pre-release-rc")
                          (Some "r4.1") (Some "https://example.com/release")])]
                     [] [])
                  [] (PublishedContext.mk (Some "r3.2") None) e eq_refl)
        as (_ & _ & _ & _ & _ & _ & _ & _ & Hdraft & _)
  end.
  apply Hdraft. reflexivity.
Defined.

Lemma collect_loop_rate_limit_witness :
  let api :=
    Fixtures.ErrorAPI RateLimitError "ErrorRepo"
      (Fixtures.MockGitHubAPI
         [("QualityOnDemand/release-plan.yaml", "PLAN_RC");
          ("InactiveRepo/release-plan.yaml", "PLAN_NONE")] [] [] [] [] []) in
  collect_loop Fixtures.sample_yaml api [] ∅
    ([Fixtures.repository "QualityOnDemand"]
     ++ Fixtures.repository "ErrorRepo"
     :: [Fixtures.repository "InactiveRepo"])%list (mk_progress [] 0 0)
  = collect_loop Fixtures.sample_yaml api [] ∅
      [Fixtures.repository "QualityOnDemand"] (mk_progress [] 0 0).
Proof.
  cbv zeta. apply collect_loop_rate_limit. reflexivity.
Defined.

Lemma collect_loop_skips_witness :
  let api :=
    Fixtures.ErrorAPI Failure "ErrorRepo"
      (Fixtures.MockGitHubAPI
         [("QualityOnDemand/release-plan.yaml", "PLAN_RC");
          ("InactiveRepo/release-plan.yaml", "PLAN_NONE")] [] [] [] [] []) in
  collect_loop Fixtures.sample_yaml api [] ∅
    ([Fixtures.repository "QualityOnDemand"]
     ++ Fixtures.repository "ErrorRepo"
     :: [Fixtures.repository "InactiveRepo"])%list (mk_progress [] 0 0)
  = collect_loop Fixtures.sample_yaml api [] ∅
      ([Fixtures.repository "QualityOnDemand"]
       ++ [Fixtures.repository "InactiveRepo"])%list (mk_progress [] 0 0).
Proof.
  cbv zeta. apply collect_loop_skips. right. reflexivity.
Defined.

End CollectProgressProps.
